(** * Campus agent: a shallow embedding of the conversation orchestration core

    The development follows [backend/unified_agent.py] and
    [backend/models.py], with the email service of
    [backend/email_service.py] and the session and message endpoints of
    [backend/main.py].  Python values are embedded as follows.

    - [str] is [string]; a character is read as the code point U+0000..U+00FF
      it denotes, so case folding and white space are those of Python on
      that range.
    - [dict] objects with a fixed set of keys are records; the session
      store, keyed by session id, is a [gmap string Session].
    - An exception is the value [Raise detail], where [detail] is what
      [str(e)] gives; only subclasses of [Exception] are modelled.
    - Collaborators (clock, uuid source, sqlite, SMTP, search provider,
      LLM) are oracles gathered in [Env]; the mutable state of the process
      is [World].
    - Python floats are embedded as exact rationals [Q]. *)

From Stdlib Require Import ZArith QArith Qround Ascii String List Sorted Permutation Lia Bool.
From stdpp Require Import base option list gmap strings.

Local Open Scope Z_scope.
Local Open Scope nat_scope.
Set Warnings "-register-all".

(** ** Python string primitives *)

Module Py.

Definition code (c : ascii) : nat := nat_of_ascii c.

Definition between (lo hi n : nat) : bool := (lo <=? n) && (n <=? hi).

(** [str.isspace] on one character. *)
Definition isspace (c : ascii) : bool :=
  let n := code c in
  between 9 13 n || between 28 32 n || (n =? 133) || (n =? 160).

(** [str.lower] on one character. *)
Definition lower_char (c : ascii) : ascii :=
  let n := code c in
  if between 65 90 n || (between 192 222 n && negb (n =? 215))
  then ascii_of_nat (n + 32) else c.

(** [s.lower()] *)
Fixpoint lower (s : string) : string :=
  match s with
  | EmptyString => EmptyString
  | String c s' => String (lower_char c) (lower s')
  end.

(** [bool(s)]: a string is truthy when it is not empty. *)
Definition truthy (s : string) : bool :=
  match s with EmptyString => false | String _ _ => true end.

(** [len(s)] *)
Definition len (s : string) : nat := String.length s.

(** [s.startswith(sub)] *)
Fixpoint startswith (sub s : string) : bool :=
  match sub, s with
  | EmptyString, _ => true
  | String a sub', String b s' => Ascii.eqb a b && startswith sub' s'
  | String _ _, EmptyString => false
  end.

(** [sub in s] *)
Fixpoint contains (sub s : string) : bool :=
  startswith sub s ||
  match s with
  | EmptyString => false
  | String _ s' => contains sub s'
  end.

(** [s.count(sub)] for a non-empty [sub]: occurrences are counted from the
    left and do not overlap; [skip] is the number of characters still
    covered by the occurrence found last. *)
Fixpoint count_from (sub : string) (skip : nat) (s : string) : nat :=
  match s with
  | EmptyString => 0
  | String _ s' =>
      match skip with
      | S k => count_from sub k s'
      | O => if startswith sub s
             then S (count_from sub (len sub - 1) s')
             else count_from sub 0 s'
      end
  end.

Definition count (sub s : string) : nat :=
  if truthy sub then count_from sub 0 s else S (len s).

(** [s.split()]: the maximal runs of characters that are not white space.
    [cur] is the run being read. *)
Fixpoint split_from (cur : string) (s : string) : list string :=
  match s with
  | EmptyString => if truthy cur then [cur] else []
  | String c s' =>
      if isspace c
      then (if truthy cur then cur :: split_from EmptyString s'
            else split_from EmptyString s')
      else split_from (cur +:+ String c EmptyString) s'
  end.

Definition split (s : string) : list string := split_from EmptyString s.

(** [s[:n]] *)
Fixpoint take (n : nat) (s : string) : string :=
  match n, s with
  | S k, String c s' => String c (take k s')
  | _, _ => EmptyString
  end.

(** [list(s)] *)
Definition chars (s : string) : list ascii := list_ascii_of_string s.

(** [sep.join(parts)] *)
Fixpoint join (sep : string) (parts : list string) : string :=
  match parts with
  | [] => EmptyString
  | [p] => p
  | p :: rest => p +:+ sep +:+ join sep rest
  end.

Fixpoint lstrip (s : string) : string :=
  match s with
  | EmptyString => EmptyString
  | String c s' => if isspace c then lstrip s' else s
  end.

Fixpoint rstrip (s : string) : string :=
  match s with
  | EmptyString => EmptyString
  | String c s' =>
      let r := rstrip s' in
      if isspace c && negb (truthy r) then EmptyString else String c r
  end.

(** [s.strip()] *)
Definition strip (s : string) : string := rstrip (lstrip s).

(** [c in s] for a character [c] *)
Fixpoint has_char (c : ascii) (s : string) : bool :=
  match s with
  | EmptyString => false
  | String d s' => Ascii.eqb c d || has_char c s'
  end.

(** The line feed and the text made of the given lines. *)
Definition nl : string := String (ascii_of_nat 10) EmptyString.

Definition lines (l : list string) : string := join nl l.

(** [any(k in s for k in keywords)] *)
Definition any_in (keywords : list string) (s : string) : bool :=
  existsb (fun k => contains k s) keywords.

End Py.

(** ** Intent classifier ([classify_query]) *)

Inductive operation_type : Type :=
| nust_info
| campus_admin
| general
| unset.   (* the empty string the state starts with *)

Definition nust_keywords : list string :=
  ["nust"; "national university"; "sciences technology"; "islamabad university"].

Definition admin_keywords : list string :=
  ["add student"; "delete student"; "update student"; "list students";
   "student info"; "campus analytics"; "statistics"].

Definition classify (utterance : string) : operation_type :=
  let query := Py.lower utterance in
  if Py.any_in nust_keywords query then nust_info
  else if Py.any_in admin_keywords query then campus_admin
  else general.

(** ** Knowledge retriever ([NUSTRAGSystem.retrieve_context]) *)

Record Document : Type := {
  page_content : string;
  metadata : gmap string string
}.

(** [str(doc.metadata.get("title", "")).lower()] *)
Definition title_of (doc : Document) : string :=
  Py.lower (default EmptyString (metadata doc !! "title")).

(** One turn of the loop over the keywords. *)
Definition score_keyword (content title : string) (score : nat) (keyword : string) : nat :=
  let score :=
    if Py.contains keyword content then score + Py.count keyword content else score in
  if Py.contains keyword title then score + Py.count keyword title * 2 else score.

Definition score_doc (keywords : list string) (doc : Document) : nat :=
  fold_left (score_keyword (Py.lower (page_content doc)) (title_of doc)) keywords 0.

(** The loop over the corpus: entries with a positive score, in corpus order. *)
Fixpoint score_docs (keywords : list string) (docs : list Document) : list (Document * nat) :=
  match docs with
  | [] => []
  | doc :: rest =>
      let score := score_doc keywords doc in
      if 0 <? score then (doc, score) :: score_docs keywords rest
      else score_docs keywords rest
  end.

(** [list.sort(key=..., reverse=True)]: a stable sort, larger keys first;
    entries with equal keys keep their order.  [ltb x y] compares the keys. *)
Fixpoint insert_desc {A : Type} (ltb : A -> A -> bool) (x : A) (l : list A) : list A :=
  match l with
  | [] => [x]
  | y :: l' => if ltb x y then y :: insert_desc ltb x l' else x :: y :: l'
  end.

Definition sort_desc {A : Type} (ltb : A -> A -> bool) (l : list A) : list A :=
  foldr (insert_desc ltb) [] l.

(** [key=lambda x: x[1]] *)
Definition score_ltb (x y : Document * nat) : bool := x.2 <? y.2.

Definition retrieve_context (json_docs : list Document) (query : string) : list Document :=
  match json_docs with
  | [] => []
  | _ =>
      let keywords := Py.split (Py.lower query) in
      let scored_docs := sort_desc score_ltb (score_docs keywords json_docs) in
      map fst (firstn 3 scored_docs)
  end.

(** The built-in corpus of [_create_basic_nust_data]. *)
Definition basic_doc (content title : string) : Document :=
  {| page_content := content;
     metadata := <["title" := title]> (<["source" := "basic"]> ∅) |}.

Definition basic_nust_info : list Document :=
  [ basic_doc "NUST (National University of Sciences and Technology) is a premier technological university in Pakistan located in Islamabad. It was established in 1991 and offers undergraduate, graduate, and doctoral programs in engineering, sciences, and technology." "NUST Overview";
    basic_doc "NUST has multiple schools including School of Electrical Engineering and Computer Science (SEECS), School of Mechanical and Manufacturing Engineering (SMME), School of Civil and Environmental Engineering (SCEE), School of Chemical and Materials Engineering (SCME), and School of Natural Sciences (SNS)." "NUST Schools";
    basic_doc "NUST admission is through NET (NUST Entry Test) conducted annually. The university offers scholarships and financial aid to deserving students. Campus facilities include hostels, cafeteria, library, sports complex, and medical center." "NUST Admissions and Facilities";
    basic_doc "NUST is known for its research excellence and industry partnerships. It has collaborations with international universities and offers exchange programs. The university emphasizes innovation and entrepreneurship." "NUST Research and Partnerships" ].

(** ** Exceptions, values and the process state *)

Inductive result (A : Type) : Type :=
| Ret (a : A)
| Raise (detail : string).
Arguments Ret {A} a.
Arguments Raise {A} detail.

(** The objects handed to [json.dumps]; the serialisation itself is left
    unapplied, a tool result is the object it would print. *)
Inductive json : Type :=
| JBool (b : bool)
| JStr (s : string)
| JNum (q : Q)
| JTime (t : Z)
| JDict (fields : list (string * json))
| JList (items : list json).

Fixpoint assoc {A : Type} (key : string) (l : list (string * A)) : option A :=
  match l with
  | [] => None
  | (k, v) :: l' => if String.eqb k key then Some v else assoc key l'
  end.

(** [obj.get(key)] on a result object. *)
Definition json_get (key : string) (j : json) : option json :=
  match j with
  | JDict fields => assoc key fields
  | _ => None
  end.

Record HistoryEntry : Type := {
  h_role : string;
  h_content : string;
  h_timestamp : Z
}.

Record Session : Type := {
  s_session_id : string;
  s_user_id : string;
  s_created_at : Z;
  s_last_activity : Z;
  s_conversation_history : list HistoryEntry
}.

(** A row of table [students] and a row of table [activity_logs]. *)
Record Student : Type := {
  st_id : string;
  st_name : string;
  st_department : string;
  st_email : string;
  st_created_at : Z;
  st_last_active : Z;
  st_is_active : bool
}.

Record ActivityLog : Type := {
  al_student_id : string;
  al_activity : string;
  al_timestamp : Z
}.

(** A call received by the notification collaborator ([EmailService]). *)
Inductive Notification : Type :=
| send_welcome_email (student_id recipient_email student_name department email : string)
| send_update_notification
    (student_id recipient_email student_name field_updated old_value new_value : string).

Record EmailResult : Type := {
  er_success : bool;
  er_message : string
}.

(** A snapshot yielded by [stream_chat]; a key the dictionary does not
    carry is [None]. *)
Record Snapshot : Type := {
  sn_response : string;
  sn_session_id : string;
  sn_timestamp : Z;
  sn_progress : Q;
  sn_streaming : option bool;
  sn_error : option bool;
  sn_complete : option bool
}.

Record World : Type := {
  sessions : gmap string Session;        (* [self.sessions] *)
  students : list Student;               (* table [students] *)
  activity_logs : list ActivityLog;      (* table [activity_logs] *)
  outbox : list Notification;            (* calls received by the email service *)
  search_log : list (string * nat);      (* queries received by the search provider *)
  yielded : list Snapshot;               (* snapshots handed to the consumer *)
  tick : nat                             (* oracle consultations so far *)
}.

Definition set_sessions (f : gmap string Session -> gmap string Session) (w : World) : World :=
  {| sessions := f (sessions w); students := students w;
     activity_logs := activity_logs w; outbox := outbox w;
     search_log := search_log w; yielded := yielded w; tick := tick w |}.

Definition set_students (f : list Student -> list Student) (w : World) : World :=
  {| sessions := sessions w; students := f (students w);
     activity_logs := activity_logs w; outbox := outbox w;
     search_log := search_log w; yielded := yielded w; tick := tick w |}.

Definition set_activity_logs (f : list ActivityLog -> list ActivityLog) (w : World) : World :=
  {| sessions := sessions w; students := students w;
     activity_logs := f (activity_logs w); outbox := outbox w;
     search_log := search_log w; yielded := yielded w; tick := tick w |}.

Definition set_outbox (f : list Notification -> list Notification) (w : World) : World :=
  {| sessions := sessions w; students := students w;
     activity_logs := activity_logs w; outbox := f (outbox w);
     search_log := search_log w; yielded := yielded w; tick := tick w |}.

Definition set_search_log (f : list (string * nat) -> list (string * nat)) (w : World) : World :=
  {| sessions := sessions w; students := students w;
     activity_logs := activity_logs w; outbox := outbox w;
     search_log := f (search_log w); yielded := yielded w; tick := tick w |}.

Definition set_yielded (f : list Snapshot -> list Snapshot) (w : World) : World :=
  {| sessions := sessions w; students := students w;
     activity_logs := activity_logs w; outbox := outbox w;
     search_log := search_log w; yielded := f (yielded w); tick := tick w |}.

Definition set_tick (f : nat -> nat) (w : World) : World :=
  {| sessions := sessions w; students := students w;
     activity_logs := activity_logs w; outbox := outbox w;
     search_log := search_log w; yielded := yielded w; tick := f (tick w) |}.

(** A call requested by the LLM and the messages of the agent state. *)
Record tool_call : Type := {
  tc_name : string;
  tc_args : list (string * string);
  tc_id : string
}.

(** The content of a [ToolMessage]: the object a tool printed, or the text
    [call_tools] writes when the invocation raised. *)
Inductive tool_content : Type :=
| Dumped (j : json)
| Text (s : string).

Inductive message : Type :=
| HumanMessage (content : string)
| AIMessage (content : string) (tool_calls : list tool_call)
| ToolMessage (content : tool_content) (tool_call_id : string).

(** The collaborators.  Every oracle is indexed by the number of
    consultations made before it, so an answer may depend on everything
    that happened earlier. *)
Record Env : Type := {
  json_docs : list Document;                      (* the corpus loaded at start-up *)
  clock : nat -> Z;                               (* [datetime.now()], [CURRENT_TIMESTAMP] *)
  uuid_bits : nat -> N;                           (* the random bits of [uuid.uuid4()] *)
  sqlite_fault : nat -> option string;            (* [sqlite3] raising on a connection *)
  email_service : nat -> Notification -> result EmailResult;
  ddgs_available : bool;                          (* [self.ddgs] is not [None] *)
  ddgs_text : nat -> string -> nat -> result (list (gmap string string));
  llm_invoke : nat -> string -> result string;    (* [self.llm.invoke] *)
  llm_with_tools_invoke : nat -> list message -> result (string * list tool_call);
  llm_has_astream : bool;                         (* [hasattr(self.llm, 'astream')] *)
  llm_astream : nat -> string -> list string * option string;
                                                  (* fragments, then the exception if any *)
  llm_ainvoke : nat -> string -> result string;   (* [self.llm.ainvoke] *)
  recursion_limit : nat;                          (* the graph library's bound on steps *)
  recursion_error : string;                       (* and the text of its exception *)
  validation_error : string -> string -> string   (* a tool refusing its arguments *)
}.

(** The monad of a Python body: it runs in a world and either returns or
    raises; what it did to the world before raising stays done. *)
Definition M (A : Type) : Type := World -> World * result A.

Definition ret {A : Type} (a : A) : M A := fun w => (w, Ret a).

Definition raise {A : Type} (detail : string) : M A := fun w => (w, Raise detail).

Definition bind {A B : Type} (m : M A) (k : A -> M B) : M B :=
  fun w =>
    match m w with
    | (w', Ret a) => k a w'
    | (w', Raise e) => (w', Raise e)
    end.

(** [try: m except Exception as e: handler(str(e))] *)
Definition try_catch {A : Type} (m : M A) (handler : string -> M A) : M A :=
  fun w =>
    match m w with
    | (w', Ret a) => (w', Ret a)
    | (w', Raise e) => handler e w'
    end.

Definition get : M World := fun w => (w, Ret w).

Definition modify (f : World -> World) : M unit := fun w => (f w, Ret tt).

Declare Scope py_scope.
Delimit Scope py_scope with py.
Notation "x <- m ;; k" := (bind m (fun x => k))
  (at level 100, m at next level, right associativity) : py_scope.
Notation "m ;; k" := (bind m (fun _ => k))
  (at level 100, right associativity) : py_scope.
Local Open Scope py_scope.

(** ** Numbers and identifiers *)

(** [round(x, 2)]: to the nearest hundredth, a tie going to the even one. *)
Definition py_round2 (x : Q) : Q :=
  let y := (x * 100)%Q in
  let f := Qfloor y in
  let r := (y - inject_Z f)%Q in
  let n := match (r ?= 1 # 2)%Q with
           | Lt => f
           | Gt => (f + 1)%Z
           | Eq => if Z.even f then f else (f + 1)%Z
           end in
  (n # 100)%Q.

Definition hex_digit (n : N) (position : nat) : ascii :=
  let d := N.to_nat (N.land (N.shiftr n (4 * N.of_nat position)) 15) in
  if d <? 10 then ascii_of_nat (48 + d) else ascii_of_nat (87 + d).

(** [count] hexadecimal digits of [n], from digit [position] downwards. *)
Fixpoint hex_run (n : N) (position count : nat) : string :=
  match count with
  | O => EmptyString
  | S count' => String (hex_digit n position) (hex_run n (position - 1) count')
  end.

(** The version and variant bits [uuid.uuid4()] sets in its random bits. *)
Definition uuid4_int (bits : N) : N :=
  let n := N.land bits (N.ones 128) in
  let n := N.lor (N.ldiff n (N.shiftl 0xc000 48)) (N.shiftl 0x8000 48) in
  N.lor (N.ldiff n (N.shiftl 0xf000 64)) (N.shiftl 4 76).

(** [str(uuid)]: 8-4-4-4-12 hexadecimal digits. *)
Definition uuid_str (n : N) : string :=
  hex_run n 31 8 +:+ "-" +:+ hex_run n 23 4 +:+ "-" +:+ hex_run n 19 4 +:+ "-"
  +:+ hex_run n 15 4 +:+ "-" +:+ hex_run n 11 12.

Section Model.

Context (env : Env).

(** Consulting an oracle. *)
Definition oracle {A : Type} (f : nat -> A) : M A :=
  fun w => (set_tick S w, Ret (f (tick w))).

(** [datetime.now()] *)
Definition now : M Z := oracle (clock env).

(** [str(uuid.uuid4())] *)
Definition uuid4 : M string :=
  bits <- oracle (uuid_bits env);;
  ret (uuid_str (uuid4_int bits)).

(** ** Storage ([DatabaseManager]) *)

Definition seven_days : Z := 7 * 24 * 3600.

(** [sqlite3.connect(self.db_path)] *)
Definition sqlite3_connect : M unit :=
  fault <- oracle (sqlite_fault env);;
  match fault with
  | Some detail => raise detail
  | None => ret tt
  end.

Definition has_id (student_id : string) (s : Student) : bool :=
  String.eqb (st_id s) student_id.

Definition has_email (email : string) (s : Student) : bool :=
  String.eqb (st_email s) email.

Definition add_student (student_id name department email : string) : M bool :=
  try_catch
    (sqlite3_connect;;
     w <- get;;
     if existsb (has_id student_id) (students w)
     then raise "UNIQUE constraint failed: students.id"
     else if existsb (has_email email) (students w)
     then raise "UNIQUE constraint failed: students.email"
     else
       t <- now;;
       modify (set_students (fun rows => rows ++
         [{| st_id := student_id; st_name := name; st_department := department;
             st_email := email; st_created_at := t; st_last_active := t;
             st_is_active := true |}]));;
       t' <- now;;
       modify (set_activity_logs (fun rows => rows ++
         [{| al_student_id := student_id; al_activity := "Student registered";
             al_timestamp := t' |}]));;
       ret true)
    (fun _ => ret false).

Definition get_student (student_id : string) : M (option Student) :=
  sqlite3_connect;;
  w <- get;;
  ret (List.find (has_id student_id) (students w)).

Definition allowed_fields : list string := ["name"; "department"; "email"].

(** [UPDATE students SET {field} = ?, last_active = CURRENT_TIMESTAMP] on one row. *)
Definition set_field (field new_value : string) (t : Z) (s : Student) : Student :=
  {| st_id := st_id s;
     st_name := if String.eqb field "name" then new_value else st_name s;
     st_department := if String.eqb field "department" then new_value else st_department s;
     st_email := if String.eqb field "email" then new_value else st_email s;
     st_created_at := st_created_at s;
     st_last_active := t;
     st_is_active := st_is_active s |}.

Definition update_student (student_id field new_value : string) : M bool :=
  if negb (existsb (String.eqb field) allowed_fields) then ret false
  else
    try_catch
      (sqlite3_connect;;
       w <- get;;
       if String.eqb field "email"
          && existsb (has_id student_id) (students w)
          && existsb (fun s => negb (has_id student_id s) && has_email new_value s)
               (students w)
       then raise "UNIQUE constraint failed: students.email"
       else
         t <- now;;
         modify (set_students (map (fun s =>
           if has_id student_id s then set_field field new_value t s else s)));;
         t' <- now;;
         modify (set_activity_logs (fun rows => rows ++
           [{| al_student_id := student_id; al_activity := "Updated " +:+ field;
               al_timestamp := t' |}]));;
         ret true)
      (fun _ => ret false).

Definition delete_student (student_id : string) : M bool :=
  try_catch
    (sqlite3_connect;;
     modify (set_students (List.filter (fun s => negb (has_id student_id s))));;
     modify (set_activity_logs
       (List.filter (fun l => negb (String.eqb (al_student_id l) student_id))));;
     ret true)
    (fun _ => ret false).

(** [ORDER BY created_at DESC]; rows created at the same time stay in table order. *)
Definition list_students : M (list Student) :=
  sqlite3_connect;;
  w <- get;;
  ret (sort_desc (fun x y => (st_created_at x <? st_created_at y)%Z) (students w)).

(** [SELECT department, COUNT( * ) FROM students GROUP BY department] as a dict. *)
Definition dept_breakdown (rows : list Student) : gmap string nat :=
  foldr (fun s d => <[st_department s := S (default 0 (d !! st_department s))]> d) ∅ rows.

Record Analytics : Type := {
  total_students : nat;
  department_breakdown : gmap string nat;
  recent_enrollments : nat;
  active_last_7_days : nat;
  activity_rate : Q
}.

(** [COUNT(DISTINCT student_id) ... WHERE timestamp > datetime('now', '-7 days')] *)
Definition count_active (t : Z) (logs : list ActivityLog) : nat :=
  length (remove_dups (map al_student_id
    (List.filter (fun l => (t - seven_days <? al_timestamp l)%Z) logs))).

Definition get_campus_analytics : M Analytics :=
  sqlite3_connect;;
  w <- get;;
  let total := length (students w) in
  let by_dept := dept_breakdown (students w) in
  t <- now;;
  let recent := length (List.filter
    (fun s => (t - seven_days <? st_created_at s)%Z) (students w)) in
  t' <- now;;
  let active := count_active t' (activity_logs w) in
  ret {| total_students := total;
         department_breakdown := by_dept;
         recent_enrollments := recent;
         active_last_7_days := active;
         activity_rate :=
           py_round2 ((Z.of_nat active # Pos.of_nat (Nat.max total 1)) * 100)%Q |}.

(** ** Notification collaborator ([EmailService]) *)

Definition lift_result {A : Type} (r : result A) : M A :=
  match r with
  | Ret a => ret a
  | Raise detail => raise detail
  end.

(** A call to the email service: the service receives it, then answers. *)
Definition notify (call : Notification) : M EmailResult :=
  modify (set_outbox (fun calls => calls ++ [call]));;
  answer <- oracle (fun n => email_service env n call);;
  lift_result answer.

(** ** Tool registry ([_create_tools]) *)

Definition student_dict (s : Student) : json :=
  JDict [("id", JStr (st_id s)); ("name", JStr (st_name s));
         ("department", JStr (st_department s)); ("email", JStr (st_email s));
         ("created_at", JTime (st_created_at s));
         ("last_active", JTime (st_last_active s));
         ("is_active", JBool (st_is_active s))].

(** [str(student.get(field, "N/A"))].  The value is used in the
    notification only, which is sent for an allowed field; the three other
    columns are therefore not rendered. *)
Definition old_value_of (s : Student) (field : string) : string :=
  if String.eqb field "id" then st_id s
  else if String.eqb field "name" then st_name s
  else if String.eqb field "department" then st_department s
  else if String.eqb field "email" then st_email s
  else "N/A".

Definition add_student_tool (name student_id department email : string) : M json :=
  try_catch
    (success <- add_student student_id name department email;;
     if success : bool then
       try_catch
         (email_result <- notify
            (send_welcome_email student_id email name department email);;
          ret (JDict [("success", JBool true);
                      ("message", JStr ("Student " +:+ name +:+ " (ID: " +:+ student_id
                                        +:+ ") added successfully"));
                      ("email_sent", JBool (er_success email_result));
                      ("email_status", JStr (er_message email_result))]))
         (fun e =>
          ret (JDict [("success", JBool true);
                      ("message", JStr ("Student " +:+ name
                                        +:+ " added but email failed: " +:+ e))]))
     else
       ret (JDict [("success", JBool false);
                   ("message",
                    JStr "Failed to add student. ID or email might already exist.")]))
    (fun e => ret (JDict [("error", JStr ("Failed to add student: " +:+ e))])).

Definition not_found (student_id : string) : json :=
  JDict [("success", JBool false);
         ("message", JStr ("Student with ID " +:+ student_id +:+ " not found"))].

Definition get_student_info (student_id : string) : M json :=
  try_catch
    (student <- get_student student_id;;
     match student with
     | Some s => ret (JDict [("success", JBool true); ("student", student_dict s)])
     | None => ret (not_found student_id)
     end)
    (fun e => ret (JDict [("error", JStr ("Failed to get student: " +:+ e))])).

Definition update_student_info (student_id field new_value : string) : M json :=
  try_catch
    (student <- get_student student_id;;
     match student with
     | None => ret (not_found student_id)
     | Some s =>
         let old_value := old_value_of s field in
         success <- update_student student_id field new_value;;
         if success : bool then
           try_catch
             (email_result <- notify
                (send_update_notification student_id (st_email s) (st_name s)
                   field old_value new_value);;
              ret (JDict [("success", JBool true);
                          ("message", JStr ("Student " +:+ student_id +:+ " " +:+ field
                                            +:+ " updated to '" +:+ new_value +:+ "'"));
                          ("email_sent", JBool (er_success email_result))]))
             (fun e =>
              ret (JDict [("success", JBool true);
                          ("message",
                           JStr ("Student updated but notification failed: " +:+ e))]))
         else
           ret (JDict [("success", JBool false);
                       ("message", JStr ("Failed to update " +:+ field
                                         +:+ ". Invalid field name."))])
     end)
    (fun e => ret (JDict [("error", JStr ("Failed to update student: " +:+ e))])).

Definition delete_student_tool (student_id : string) : M json :=
  try_catch
    (student <- get_student student_id;;
     match student with
     | None => ret (not_found student_id)
     | Some _ =>
         success <- delete_student student_id;;
         if success : bool then
           ret (JDict [("success", JBool true);
                       ("message", JStr ("Student " +:+ student_id
                          +:+ " deleted successfully (No email notification sent)"));
                       ("email_sent", JBool false)])
         else
           ret (JDict [("success", JBool false);
                       ("message", JStr "Failed to delete student")])
     end)
    (fun e => ret (JDict [("error", JStr ("Failed to delete student: " +:+ e))])).

Definition list_all_students : M json :=
  try_catch
    (rows <- list_students;;
     ret (JDict [("success", JBool true);
                 ("total_count", JNum (inject_Z (Z.of_nat (length rows))));
                 ("students", JList (map student_dict rows))]))
    (fun e => ret (JDict [("error", JStr ("Failed to list students: " +:+ e))])).

Definition count_json (n : nat) : json := JNum (inject_Z (Z.of_nat n)).

Definition analytics_dict (a : Analytics) : json :=
  JDict [("total_students", count_json (total_students a));
         ("department_breakdown",
          JDict (map (fun kv => (kv.1, count_json kv.2))
                   (map_to_list (department_breakdown a))));
         ("recent_enrollments", count_json (recent_enrollments a));
         ("active_last_7_days", count_json (active_last_7_days a));
         ("activity_rate", JNum (activity_rate a))].

Definition get_campus_analytics_tool : M json :=
  try_catch
    (analytics <- get_campus_analytics;;
     t <- now;;
     ret (JDict [("success", JBool true);
                 ("analytics", analytics_dict analytics);
                 ("timestamp", JTime t)]))
    (fun e => ret (JDict [("error", JStr ("Failed to get analytics: " +:+ e))])).

(** Binding one argument of a call; the tool refuses a call that lacks it. *)
Definition arg (tool key : string) (args : list (string * string)) : M string :=
  match assoc key args with
  | Some v => ret v
  | None => raise (validation_error env tool key)
  end.

(** [self.tools]: each tool under its name, taking the arguments of a call. *)
Definition tools : list (string * (list (string * string) -> M json)) :=
  [ ("add_student_tool", fun args =>
       name <- arg "add_student_tool" "name" args;;
       student_id <- arg "add_student_tool" "student_id" args;;
       department <- arg "add_student_tool" "department" args;;
       email <- arg "add_student_tool" "email" args;;
       add_student_tool name student_id department email);
    ("get_student_info", fun args =>
       student_id <- arg "get_student_info" "student_id" args;;
       get_student_info student_id);
    ("update_student_info", fun args =>
       student_id <- arg "update_student_info" "student_id" args;;
       field <- arg "update_student_info" "field" args;;
       new_value <- arg "update_student_info" "new_value" args;;
       update_student_info student_id field new_value);
    ("delete_student_tool", fun args =>
       student_id <- arg "delete_student_tool" "student_id" args;;
       delete_student_tool student_id);
    ("list_all_students", fun _ => list_all_students);
    ("get_campus_analytics", fun _ => get_campus_analytics_tool) ].

(** ** Web search adapter ([WebSearchTool.search]) *)

Record SearchResult : Type := {
  sr_title : string;
  sr_snippet : string;
  sr_url : string;
  sr_source : string
}.

Definition nust_query (query : string) : string :=
  if Py.contains "nust" (Py.lower query)
  then "NUST University Pakistan " +:+ query
  else query.

(** [self.ddgs.text(q, max_results=n)]: the provider receives the query. *)
Definition ddgs_text_call (q : string) (max_results : nat) : M (list (gmap string string)) :=
  modify (set_search_log (fun log => log ++ [(q, max_results)]));;
  answer <- oracle (fun n => ddgs_text env n q max_results);;
  lift_result answer.

Definition search (query : string) (max_results : nat) : M (list SearchResult) :=
  if negb (ddgs_available env) then
    ret [{| sr_title := "Search Unavailable";
            sr_snippet := "Web search is currently unavailable";
            sr_url := EmptyString; sr_source := "Error" |}]
  else
    try_catch
      (search_results <- ddgs_text_call (nust_query query) max_results;;
       ret (map (fun r =>
              {| sr_title := default EmptyString (r !! "title");
                 sr_snippet := default EmptyString (r !! "body");
                 sr_url := default EmptyString (r !! "href");
                 sr_source := "DuckDuckGo" |}) search_results))
      (fun e =>
       ret [{| sr_title := "Search Error";
               sr_snippet := "Could not perform web search: " +:+ e;
               sr_url := EmptyString; sr_source := "Error" |}]).

(** ** The graph ([_create_graph]) *)

Record UnifiedAgentState : Type := {
  messages : list message;
  query : string;
  op_type : operation_type;
  final_answer : string
}.

Definition set_messages (f : list message -> list message) (st : UnifiedAgentState)
  : UnifiedAgentState :=
  {| messages := f (messages st); query := query st;
     op_type := op_type st; final_answer := final_answer st |}.

Inductive node : Type := classify_node | nust_handler | agent | tools_node | END.

#[global] Instance node_eq_dec : EqDecision node.
Proof. solve_decision. Defined.

(** [hasattr(last_message, 'tool_calls') and last_message.tool_calls] *)
Definition pending_calls (msgs : list message) : list tool_call :=
  match last msgs with
  | Some (AIMessage _ calls) => calls
  | _ => []
  end.

Definition should_continue (st : UnifiedAgentState) : node :=
  match pending_calls (messages st) with
  | [] => END
  | _ :: _ => tools_node
  end.

Definition classify_query (st : UnifiedAgentState) : UnifiedAgentState :=
  {| messages := messages st; query := query st;
     op_type := classify (query st); final_answer := final_answer st |}.

Definition nust_system_prompt : string :=
  Py.lines
    ["You are a helpful assistant specializing in NUST University (National University of Sciences and Technology) information. ";
     "            Use the provided context to answer questions about NUST University accurately and comprehensively.";
     "            If you don't have specific information, be honest about it.";
     "            Focus only on NUST University-related information."].

Definition handle_nust_query (st : UnifiedAgentState) : M UnifiedAgentState :=
  let rag_docs := retrieve_context (json_docs env) (query st) in
  let context := Py.join Py.nl (map page_content rag_docs) in
  web_results <- search (query st) 3;;
  let web_context :=
    match web_results with
    | [] => EmptyString
    | _ => fold_left (fun acc r => acc +:+ "- " +:+ sr_title r +:+ ": "
                                   +:+ sr_snippet r +:+ Py.nl)
             web_results (Py.nl +:+ Py.nl +:+ "Recent information:" +:+ Py.nl)
    end in
  let prompt :=
    Py.nl +:+ "                System: " +:+ nust_system_prompt +:+ Py.nl
    +:+ "                " +:+ Py.nl
    +:+ "                Question: " +:+ query st +:+ Py.nl
    +:+ "                " +:+ Py.nl
    +:+ "                NUST Knowledge Base Context:" +:+ Py.nl
    +:+ "                " +:+ context +:+ Py.nl
    +:+ "                " +:+ Py.nl
    +:+ "                " +:+ web_context +:+ Py.nl
    +:+ "                " +:+ Py.nl
    +:+ "                Please provide a comprehensive answer about NUST University based on the available information."
    +:+ Py.nl +:+ "                " in
  answer <- try_catch
    (response <- oracle (fun n => llm_invoke env n prompt);;
     lift_result response)
    (fun e => ret ("I apologize, but I encountered an error while processing your NUST query: "
                   +:+ e));;
  ret {| messages := messages st; query := query st;
         op_type := op_type st; final_answer := answer |}.

Definition system_message : string :=
  Py.lines
    ["You are an intelligent Campus Administration Agent with access to student management tools and NUST University information. You can help with:";
     EmptyString;
     "CAMPUS ADMINISTRATION:";
     "- Add new students with automatic welcome emails";
     "- View and search student information";
     "- Update student details with notification emails";
     "- Delete student accounts (no email notifications for deletions)";
     "- Get comprehensive campus analytics and statistics";
     EmptyString;
     "NUST UNIVERSITY INFORMATION:";
     "- Answer questions about NUST University";
     "- Provide information about admissions, programs, facilities";
     "- Share details about schools, departments, and courses";
     EmptyString;
     "IMPORTANT POLICIES:";
     "- Student deletions do NOT send email notifications (this is intentional for privacy)";
     "- Only student additions and updates trigger automatic emails";
     "- Always be helpful, professional, and friendly";
     "- Use the appropriate tools for campus admin tasks";
     "- For NUST queries, provide comprehensive information";
     EmptyString;
     "When users ask to perform campus admin actions, use the appropriate tools and confirm success.";
     "For NUST information queries, provide detailed and helpful responses."].

(** [call_model] returns the message the graph appends to the state. *)
Definition call_model (st : UnifiedAgentState) : M message :=
  let full_messages := HumanMessage system_message :: messages st in
  try_catch
    (response <- oracle (fun n => llm_with_tools_invoke env n full_messages);;
     r <- lift_result response;;
     ret (AIMessage r.1 r.2))
    (fun e => ret (AIMessage ("I encountered an error: " +:+ e) [])).

(** One turn of the loop of [call_tools]: the messages it appends. *)
Definition call_tool (tc : tool_call) : M (list message) :=
  try_catch
    (match List.find (fun t => String.eqb t.1 (tc_name tc)) tools with
     | Some t =>
         r <- t.2 (tc_args tc);;
         ret [ToolMessage (Dumped r) (tc_id tc)]
     | None => ret []
     end)
    (fun e =>
     ret [ToolMessage (Text ("Error executing " +:+ tc_name tc +:+ ": " +:+ e)) (tc_id tc)]).

Fixpoint call_tools_loop (calls : list tool_call) : M (list message) :=
  match calls with
  | [] => ret []
  | tc :: rest =>
      responses <- call_tool tc;;
      more <- call_tools_loop rest;;
      ret (responses ++ more)
  end.

Definition call_tools (st : UnifiedAgentState) : M (list message) :=
  call_tools_loop (pending_calls (messages st)).

(** One step of the compiled workflow: run the node, follow its edge. *)
Definition graph_step (n : node) (st : UnifiedAgentState) : M (node * UnifiedAgentState) :=
  match n with
  | classify_node =>
      let st' := classify_query st in
      ret (match op_type st' with nust_info => nust_handler | _ => agent end, st')
  | nust_handler =>
      st' <- handle_nust_query st;;
      ret (END, st')
  | agent =>
      response <- call_model st;;
      let st' := set_messages (fun ms => ms ++ [response]) st in
      ret (should_continue st', st')
  | tools_node =>
      responses <- call_tools st;;
      ret (agent, set_messages (fun ms => ms ++ responses) st)
  | END => ret (END, st)
  end.

(** The graph library runs steps until [END]; it raises once [fuel] steps
    have been taken without reaching it. *)
Fixpoint graph_run (fuel : nat) (n : node) (st : UnifiedAgentState) : M UnifiedAgentState :=
  match n with
  | END => ret st
  | _ =>
      match fuel with
      | O => raise (recursion_error env)
      | S fuel' =>
          next <- graph_step n st;;
          graph_run fuel' next.1 next.2
      end
  end.

(** [self.graph.invoke(initial_state)] *)
Definition graph_invoke (message : string) : M UnifiedAgentState :=
  graph_run (recursion_limit env) classify_node
    {| messages := [HumanMessage message]; query := message;
       op_type := unset; final_answer := EmptyString |}.

(** The content of the last [AIMessage], if there is one. *)
Fixpoint last_ai_content (reversed : list message) : option string :=
  match reversed with
  | [] => None
  | AIMessage content _ :: _ => Some content
  | _ :: rest => last_ai_content rest
  end.

(** The answer [chat] and [stream_chat] read off the final state. *)
Definition final_response (st : UnifiedAgentState) : string :=
  if Py.truthy (final_answer st) then final_answer st
  else default "I'm sorry, I couldn't process your request properly."
         (last_ai_content (rev (messages st))).

(** ** Session store and the two entry points *)

(** [bool(session_id)] for an optional argument: [None] and the empty
    string are falsy. *)
Definition given (session_id : option string) : bool :=
  match session_id with
  | Some sid => Py.truthy sid
  | None => false
  end.

Definition has_session (sid : string) (w : World) : bool :=
  match sessions w !! sid with
  | Some _ => true
  | None => false
  end.

(** [str(KeyError(key))] *)
Definition key_error (key : string) : string := "'" +:+ key +:+ "'".

(** [self.sessions[sid]], which raises [KeyError] on an unknown id. *)
Definition session_at (sid : string) : M Session :=
  w <- get;;
  match sessions w !! sid with
  | Some s => ret s
  | None => raise (key_error sid)
  end.

Definition set_last_activity (t : Z) (s : Session) : Session :=
  {| s_session_id := s_session_id s; s_user_id := s_user_id s;
     s_created_at := s_created_at s; s_last_activity := t;
     s_conversation_history := s_conversation_history s |}.

Definition extend_history (entries : list HistoryEntry) (s : Session) : Session :=
  {| s_session_id := s_session_id s; s_user_id := s_user_id s;
     s_created_at := s_created_at s; s_last_activity := s_last_activity s;
     s_conversation_history := s_conversation_history s ++ entries |}.

(** A mutation of the session object stored under [sid]. *)
Definition update_session (sid : string) (f : Session -> Session) : M unit :=
  modify (set_sessions (fun store =>
    match store !! sid with
    | Some s => <[sid := f s]> store
    | None => store
    end)).

Definition create_session (user_id : string) (session_id : option string) : M string :=
  w <- get;;
  if given session_id && has_session (default EmptyString session_id) w
  then ret (default EmptyString session_id)
  else
    sid <- (if negb (given session_id) then uuid4
            else ret (default EmptyString session_id));;
    w <- get;;
    (if negb (has_session sid w) then
       t <- now;;
       modify (set_sessions (fun store =>
         <[sid := {| s_session_id := sid; s_user_id := user_id;
                     s_created_at := t; s_last_activity := t;
                     s_conversation_history := [] |}]> store))
     else ret tt);;
    ret sid.

Definition get_session_info (session_id : string) : M (option Session) :=
  w <- get;;
  ret (sessions w !! session_id).

(** [session_id or str(uuid.uuid4())] *)
Definition or_uuid4 (session_id : option string) : M string :=
  if given session_id then ret (default EmptyString session_id) else uuid4.

(** The first lines of [chat] and [stream_chat] after the session id is
    fixed: create the session when unknown, stamp its activity. *)
Definition open_session (sid : string) : M unit :=
  w <- get;;
  (if negb (has_session sid w)
   then create_session "default_user" (Some sid);; ret tt
   else ret tt);;
  t <- now;;
  _ <- session_at sid;;
  update_session sid (set_last_activity t).

Record ChatResponse : Type := {
  cr_response : string;
  cr_session_id : string;
  cr_timestamp : Z
}.

(** [chat].  The id is fixed by the first statement of the [try] block,
    which cannot raise, so the handler reads the same [session_id]. *)
Definition chat (message : string) (session_id : option string) : M ChatResponse :=
  sid <- or_uuid4 session_id;;
  try_catch
    (open_session sid;;
     result <- graph_invoke message;;
     let response_content := final_response result in
     _ <- session_at sid;;
     t1 <- now;;
     t2 <- now;;
     update_session sid (extend_history
       [{| h_role := "user"; h_content := message; h_timestamp := t1 |};
        {| h_role := "assistant"; h_content := response_content; h_timestamp := t2 |}]);;
     t3 <- now;;
     ret {| cr_response := response_content; cr_session_id := sid; cr_timestamp := t3 |})
    (fun e =>
     let error_msg := "I encountered an error while processing your request: " +:+ e in
     sid' <- or_uuid4 (Some sid);;
     t <- now;;
     ret {| cr_response := error_msg; cr_session_id := sid'; cr_timestamp := t |}).

(** ** Streaming ([stream_chat]) *)

(** [yield snapshot] *)
Definition yield (s : Snapshot) : M unit :=
  modify (set_yielded (fun out => out ++ [s])).

(** [((i + 1) / total) * 100] *)
Definition percent (i total : nat) : Q :=
  ((Z.of_nat (i + 1) # Pos.of_nat total) * 100)%Q.

(** The word-by-word replay of a finished answer. *)
Fixpoint word_loop (sid : string) (total i : nat) (current_text : string)
    (words : list string) : M unit :=
  match words with
  | [] => ret tt
  | word :: rest =>
      let current_text :=
        current_text +:+ word +:+ (if i <? total - 1 then " " else EmptyString) in
      t <- now;;
      yield {| sn_response := current_text; sn_session_id := sid; sn_timestamp := t;
               sn_progress := percent i total; sn_streaming := None;
               sn_error := None; sn_complete := Some (i =? total - 1) |};;
      word_loop sid total (S i) current_text rest
  end.

(** The character-by-character replay of an error message; [sid] is the
    expression the snapshot evaluates for its session id. *)
Fixpoint error_loop (sid : M string) (text : string) (total i : nat)
    (rest : list ascii) : M unit :=
  match rest with
  | [] => ret tt
  | _ :: rest' =>
      id <- sid;;
      t <- now;;
      yield {| sn_response := Py.take (i + 1) text; sn_session_id := id;
               sn_timestamp := t; sn_progress := percent i total;
               sn_streaming := None; sn_error := Some true;
               sn_complete := Some (i =? total - 1) |};;
      error_loop sid text total (S i) rest'
  end.

Definition stream_error (sid : M string) (text : string) : M unit :=
  error_loop sid text (Py.len text) 0 (Py.chars text).

(** The replay used when the LLM has no incremental mode. *)
Fixpoint char_loop (sid : string) (total i : nat) (current_text : string)
    (rest : list ascii) : M unit :=
  match rest with
  | [] => ret tt
  | char :: rest' =>
      let current_text := current_text +:+ String char EmptyString in
      (if Py.has_char char (" " +:+ Py.nl +:+ ".!?;,") || (i mod 2 =? 0) || (i =? total - 1)
       then
         t <- now;;
         yield {| sn_response := current_text; sn_session_id := sid; sn_timestamp := t;
                  sn_progress := percent i total; sn_streaming := None;
                  sn_error := None; sn_complete := Some (i =? total - 1) |}
       else ret tt);;
      char_loop sid total (S i) current_text rest'
  end.

(** [async for chunk in self.llm.astream(messages)]: the fragments come one
    by one, and the iteration may raise once they are exhausted.  The loop
    returns [full_content]. *)
Fixpoint astream_loop (sid : string) (full_content : string) (chunk_count : nat)
    (fragments : list string) (failure : option string) : M string :=
  match fragments with
  | [] =>
      match failure with
      | Some detail => raise detail
      | None => ret full_content
      end
  | chunk :: rest =>
      if Py.truthy chunk then
        let full_content := full_content +:+ chunk in
        let chunk_count := chunk_count + 1 in
        t <- now;;
        yield {| sn_response := full_content; sn_session_id := sid; sn_timestamp := t;
                 sn_progress := inject_Z (Z.of_nat (Nat.min 90 (chunk_count * 5)));
                 sn_streaming := Some true; sn_error := None; sn_complete := None |};;
        astream_loop sid full_content chunk_count rest failure
      else astream_loop sid full_content chunk_count rest failure
  end.

(** [_get_context] *)
Definition _get_context (message : string) : string :=
  if Py.any_in ["nust"; "national university"; "sciences technology"] (Py.lower message)
  then Py.join Py.nl (map page_content (retrieve_context (json_docs env) message))
  else EmptyString.

Definition build_system_prompt : string :=
  Py.lines
    ["You are an intelligent Campus Administration Agent with access to student management tools and NUST University information. You can help with:";
     EmptyString;
     "CAMPUS ADMINISTRATION:";
     "- Add new students with automatic welcome emails";
     "- View and search student information  ";
     "- Update student details with notification emails";
     "- Delete student accounts (no email notifications for deletions)";
     "- Get comprehensive campus analytics and statistics";
     EmptyString;
     "NUST UNIVERSITY INFORMATION:";
     "- Answer questions about NUST University";
     "- Provide information about admissions, programs, facilities";
     "- Share details about schools, departments, and courses";
     EmptyString;
     "Always be helpful, professional, and friendly. Provide detailed and informative responses."].

(** [_build_prompt] *)
Definition _build_prompt (message context : string) (history : list HistoryEntry) : string :=
  let history_text :=
    fold_left (fun acc msg =>
        acc +:+ (if String.eqb (h_role msg) "user" then "User" else "Assistant")
        +:+ ": " +:+ h_content msg +:+ Py.nl)
      (skipn (length history - 6) history) EmptyString in
  let context_text :=
    if Py.truthy context
    then Py.nl +:+ "Relevant Context:" +:+ Py.nl +:+ context +:+ Py.nl
    else EmptyString in
  Py.strip (build_system_prompt +:+ Py.nl +:+ Py.nl +:+ context_text +:+ Py.nl
            +:+ "Conversation History:" +:+ Py.nl +:+ history_text +:+ Py.nl +:+ Py.nl
            +:+ "User: " +:+ message +:+ Py.nl +:+ "Assistant: ").

Definition apology : string := "I apologize, but I encountered an error: ".

(** The branch of [stream_chat] for administrative requests; it returns
    [full_content]. *)
Definition stream_admin (sid message : string) : M string :=
  try_catch
    (result <- graph_invoke message;;
     let full_content := final_response result in
     let words := Py.split full_content in
     word_loop sid (length words) 0 EmptyString words;;
     ret full_content)
    (fun e =>
     let error_content := "I encountered an error while processing your request: " +:+ e in
     stream_error (ret sid) error_content;;
     ret error_content).

(** The branch of [stream_chat] for every other request. *)
Definition stream_general (sid message : string) : M string :=
  try_catch
    (let context := _get_context message in
     session <- session_at sid;;
     let history := s_conversation_history session in
     let full_prompt := _build_prompt message context history in
     try_catch
       (if llm_has_astream env then
          stream <- oracle (fun n => llm_astream env n full_prompt);;
          full_content <- astream_loop sid EmptyString 0 stream.1 stream.2;;
          t <- now;;
          yield {| sn_response := full_content; sn_session_id := sid; sn_timestamp := t;
                   sn_progress := 100; sn_streaming := None; sn_error := None;
                   sn_complete := Some true |};;
          ret full_content
        else
          response <- oracle (fun n => llm_ainvoke env n full_prompt);;
          full_content <- lift_result response;;
          char_loop sid (Py.len full_content) 0 EmptyString (Py.chars full_content);;
          ret full_content)
       (fun llm_error =>
        let full_content := apology +:+ llm_error in
        stream_error (ret sid) full_content;;
        ret full_content))
    (fun e =>
     let error_content := apology +:+ e in
     stream_error (ret sid) error_content;;
     ret error_content).

(** [stream_chat], run until the generator is exhausted.  As in [chat] the
    session id is fixed by a statement that cannot raise. *)
Definition stream_chat (message : string) (session_id : option string) : M unit :=
  sid <- or_uuid4 session_id;;
  try_catch
    (open_session sid;;
     _ <- session_at sid;;
     t <- now;;
     update_session sid (extend_history
       [{| h_role := "user"; h_content := message; h_timestamp := t |}]);;
     full_content <-
       (if Py.any_in admin_keywords (Py.lower message)
        then stream_admin sid message
        else stream_general sid message);;
     if Py.truthy full_content then
       _ <- session_at sid;;
       t' <- now;;
       update_session sid (extend_history
         [{| h_role := "assistant"; h_content := full_content; h_timestamp := t' |}])
     else ret tt)
    (fun e =>
     stream_error (or_uuid4 (Some sid)) (apology +:+ e)).

End Model.

(** The snapshots a consumer receives from one run of [stream_chat]. *)
Definition snapshots (env : Env) (message : string) (session_id : option string)
    (w : World) : list Snapshot :=
  yielded (stream_chat env message session_id (set_yielded (fun _ => []) w)).1.

(** ** Sample collaborators and worlds

    Concrete values on which the definitions are evaluated in the examples
    below. *)

(** Collaborators that always succeed: the LLM answers without calling a
    tool and streams two fragments. *)
Definition calm_env : Env :=
  {| json_docs := basic_nust_info;
     clock := fun n => Z.of_nat n;
     uuid_bits := fun n => N.of_nat n;
     sqlite_fault := fun _ => None;
     email_service := fun _ _ => Ret {| er_success := true; er_message := "sent" |};
     ddgs_available := true;
     ddgs_text := fun _ _ _ => Ret [];
     llm_invoke := fun _ _ => Ret "NUST is a university.";
     llm_with_tools_invoke := fun _ _ => Ret ("Done.", []);
     llm_has_astream := true;
     llm_astream := fun _ _ => (["Hello"; " there"], None);
     llm_ainvoke := fun _ _ => Ret "Hello there";
     recursion_limit := 25;
     recursion_error := "Recursion limit of 25 reached";
     validation_error := fun tool key => tool +:+ ": field required: " +:+ key |}.

Definition empty_world : World :=
  {| sessions := ∅; students := []; activity_logs := []; outbox := [];
     search_log := []; yielded := []; tick := 0 |}.

(** The same collaborators, with an email service that raises. *)
Definition mail_down_env : Env :=
  {| json_docs := json_docs calm_env; clock := clock calm_env;
     uuid_bits := uuid_bits calm_env; sqlite_fault := sqlite_fault calm_env;
     email_service := fun _ _ => Raise "SMTP connection refused";
     ddgs_available := ddgs_available calm_env; ddgs_text := ddgs_text calm_env;
     llm_invoke := llm_invoke calm_env;
     llm_with_tools_invoke := llm_with_tools_invoke calm_env;
     llm_has_astream := llm_has_astream calm_env;
     llm_astream := llm_astream calm_env; llm_ainvoke := llm_ainvoke calm_env;
     recursion_limit := recursion_limit calm_env;
     recursion_error := recursion_error calm_env;
     validation_error := validation_error calm_env |}.

(** The same collaborators, with an email service that reports a failure. *)
Definition mail_failing_env : Env :=
  {| json_docs := json_docs calm_env; clock := clock calm_env;
     uuid_bits := uuid_bits calm_env; sqlite_fault := sqlite_fault calm_env;
     email_service := fun _ _ =>
       Ret {| er_success := false; er_message := "Failed to send email: timeout" |};
     ddgs_available := ddgs_available calm_env; ddgs_text := ddgs_text calm_env;
     llm_invoke := llm_invoke calm_env;
     llm_with_tools_invoke := llm_with_tools_invoke calm_env;
     llm_has_astream := llm_has_astream calm_env;
     llm_astream := llm_astream calm_env; llm_ainvoke := llm_ainvoke calm_env;
     recursion_limit := recursion_limit calm_env;
     recursion_error := recursion_error calm_env;
     validation_error := validation_error calm_env |}.

(** The same collaborators, with an LLM that raises on every call. *)
Definition llm_down_env : Env :=
  {| json_docs := json_docs calm_env; clock := clock calm_env;
     uuid_bits := uuid_bits calm_env; sqlite_fault := sqlite_fault calm_env;
     email_service := email_service calm_env;
     ddgs_available := ddgs_available calm_env; ddgs_text := ddgs_text calm_env;
     llm_invoke := fun _ _ => Raise "429 quota exceeded";
     llm_with_tools_invoke := fun _ _ => Raise "429 quota exceeded";
     llm_has_astream := true;
     llm_astream := fun _ _ => ([], Some "429 quota exceeded");
     llm_ainvoke := fun _ _ => Raise "429 quota exceeded";
     recursion_limit := recursion_limit calm_env;
     recursion_error := recursion_error calm_env;
     validation_error := validation_error calm_env |}.

(** The same collaborators, with an LLM that asks for a tool on every call. *)
Definition llm_looping_env : Env :=
  {| json_docs := json_docs calm_env; clock := clock calm_env;
     uuid_bits := uuid_bits calm_env; sqlite_fault := sqlite_fault calm_env;
     email_service := email_service calm_env;
     ddgs_available := ddgs_available calm_env; ddgs_text := ddgs_text calm_env;
     llm_invoke := llm_invoke calm_env;
     llm_with_tools_invoke := fun _ _ =>
       Ret (EmptyString,
            [{| tc_name := "list_all_students"; tc_args := []; tc_id := "call_1" |}]);
     llm_has_astream := llm_has_astream calm_env;
     llm_astream := llm_astream calm_env; llm_ainvoke := llm_ainvoke calm_env;
     recursion_limit := recursion_limit calm_env;
     recursion_error := recursion_error calm_env;
     validation_error := validation_error calm_env |}.


(** The same collaborators, with an LLM whose answers are empty. *)
Definition silent_llm_env : Env :=
  {| json_docs := json_docs calm_env; clock := clock calm_env;
     uuid_bits := uuid_bits calm_env; sqlite_fault := sqlite_fault calm_env;
     email_service := email_service calm_env;
     ddgs_available := ddgs_available calm_env; ddgs_text := ddgs_text calm_env;
     llm_invoke := fun _ _ => Ret EmptyString;
     llm_with_tools_invoke := fun _ _ => Ret (EmptyString, []);
     llm_has_astream := true;
     llm_astream := fun _ _ => ([], None);
     llm_ainvoke := fun _ _ => Ret EmptyString;
     recursion_limit := recursion_limit calm_env;
     recursion_error := recursion_error calm_env;
     validation_error := validation_error calm_env |}.

(** The rows [_create_default_data] inserts into an empty table. *)
Definition sample_student (id name department email : string) : Student :=
  {| st_id := id; st_name := name; st_department := department; st_email := email;
     st_created_at := 0; st_last_active := 0; st_is_active := true |}.

Definition sample_students : list Student :=
  [ sample_student "STU001" "Ali Ahmed" "Computer Science" "ali.ahmed@nust.edu.pk";
    sample_student "STU002" "Sara Khan" "Mathematics" "sara.khan@nust.edu.pk";
    sample_student "STU003" "Hassan Ali" "Engineering" "hassan.ali@nust.edu.pk";
    sample_student "STU004" "Fatima Sheikh" "Physics" "fatima.sheikh@nust.edu.pk";
    sample_student "STU005" "Omar Malik" "Computer Science" "omar.malik@nust.edu.pk";
    sample_student "STU006" "Ayesha Raza" "Biology" "ayesha.raza@nust.edu.pk";
    sample_student "STU007" "Usman Tariq" "Chemistry" "usman.tariq@nust.edu.pk";
    sample_student "STU008" "Zara Iqbal" "Engineering" "zara.iqbal@nust.edu.pk";
    sample_student "STU009" "Bilal Shah" "Mathematics" "bilal.shah@nust.edu.pk";
    sample_student "STU010" "Hiba Nasir" "Physics" "hiba.nasir@nust.edu.pk" ].

Definition campus_world : World := set_students (fun _ => sample_students) empty_world.


(** A store holding one session. *)
Definition one_session_world : World :=
  (create_session calm_env "42" (Some "abc") empty_world).1.

Definition abc_session : Session :=
  {| s_session_id := "abc"; s_user_id := "42"; s_created_at := 0;
     s_last_activity := 0; s_conversation_history := [] |}.

(** ** Vocabulary of the statements about sessions and streams *)

(** The history stored under [sid], empty when there is no such session. *)
Definition history_of (w : World) (sid : string) : list HistoryEntry :=
  match sessions w !! sid with
  | Some s => s_conversation_history s
  | None => []
  end.

(** The first statements of [chat] and of [stream_chat]: the session id is
    fixed and the session opened. *)
Definition entry (env : Env) (session_id : option string) : M string :=
  sid <- or_uuid4 env session_id;;
  open_session env sid;;
  ret sid.

(** The reading of the clock that stamps the activity of the session: the
    one after the uuid, when one is drawn, and after the creation of the
    session, when it is created. *)
Definition activity_tick (session_id : option string) (sid : string) (w : World) : nat :=
  tick w + (if given session_id then 0 else 1) + (if has_session sid w then 0 else 1).

Definition user_entry (message : string) (t : Z) : HistoryEntry :=
  {| h_role := "user"; h_content := message; h_timestamp := t |}.

Definition assistant_entry (answer : string) (t : Z) : HistoryEntry :=
  {| h_role := "assistant"; h_content := answer; h_timestamp := t |}.

Definition chat_apology : string := "I encountered an error while processing your request: ".

(** The response text of an outcome of [chat], when it returned. *)
Definition response_of (out : World * result ChatResponse) : option string :=
  match out.2 with
  | Ret r => Some (cr_response r)
  | Raise _ => None
  end.

(** A snapshot that does not end the stream, and one that does. *)
Definition open_snapshot (s : Snapshot) : Prop :=
  sn_complete s <> Some true /\ (sn_progress s <= 100)%Q.

Definition closing_snapshot (s : Snapshot) : Prop :=
  sn_complete s = Some true /\ (sn_progress s == 100)%Q.



(** The snapshot a replay of [total] units yields for unit [k]; [err] is
    its [error] key. *)
Definition replayed (total : nat) (err : option bool) (k : nat) (s : Snapshot) : Prop :=
  sn_progress s = percent k total /\
  sn_complete s = Some (k =? total - 1) /\
  sn_error s = err /\
  sn_streaming s = None.

(** The units a replay loop yields a snapshot for, when it is at unit [i]
    with [n] units left: increasing, within range, and the last unit of
    the text is among them. *)
Definition indices (i n total : nat) (ks : list nat) : Prop :=
  StronglySorted lt ks /\
  Forall (fun k => i <= k /\ k < i + n) ks /\
  (0 < n -> i + n = total -> last ks = Some (total - 1)).

(** The snapshot native streaming yields for its [c]-th non-empty fragment. *)
Definition fragment_snapshot (c : nat) (s : Snapshot) : Prop :=
  sn_progress s = inject_Z (Z.of_nat (Nat.min 90 (c * 5))) /\
  sn_complete s = None /\
  sn_streaming s = Some true /\
  sn_error s = None.

Definition fragments (count : nat) (cs : list nat) (l : list Snapshot) : Prop :=
  Forall2 fragment_snapshot cs l /\
  StronglySorted lt cs /\
  Forall (fun c => count < c) cs.

(** The streams [stream_chat] can produce. *)
Inductive stream_shape : list Snapshot -> Prop :=
| shape_silent : stream_shape []
| shape_replay (total : nat) (ks : list nat) (l : list Snapshot) :
    0 < total -> indices 0 total total ks -> Forall2 (replayed total None) ks l ->
    stream_shape l
| shape_native (cs : list nat) (a : list Snapshot) (final : Snapshot) :
    fragments 0 cs a ->
    closing_snapshot final -> sn_error final = None -> sn_streaming final = None ->
    stream_shape (a ++ [final])
| shape_error (cs : list nat) (a : list Snapshot) (total : nat) (ks : list nat)
    (b : list Snapshot) :
    fragments 0 cs a ->
    0 < total -> indices 0 total total ks -> Forall2 (replayed total (Some true)) ks b ->
    stream_shape (a ++ b).

Definition reports_error (s : Snapshot) : Prop := sn_error s = Some true.

(** The prompt [stream_general] sends for a session. *)
Definition general_prompt (env : Env) (message : string) (s : Session) : string :=
  _build_prompt message (_get_context env message) (s_conversation_history s).

(** The LLM fails on the request [stream_general] makes in world [w]. *)
Definition llm_fails (env : Env) (message : string) (s : Session) (w : World) : Prop :=
  if llm_has_astream env
  then exists e, (llm_astream env (tick w) (general_prompt env message s)).2 = Some e
  else exists e, llm_ainvoke env (tick w) (general_prompt env message s) = Raise e.

(** ** Vocabulary of the statements about the classifier, the retriever
    and the registry *)

(** The utterance holds [keyword] at some position, in some casing. *)
Definition mentions (keyword utterance : string) : Prop :=
  exists pre mid post, utterance = pre +:+ mid +:+ post /\ Py.lower mid = keyword.

Definition mentions_any (keywords : list string) (utterance : string) : Prop :=
  exists k, In k keywords /\ mentions k utterance.

(** The reading of C3 as the specification words it: the institution name
    is prepended exactly when the query does not mention it. *)
Definition rewritten_as_specified (query sent : string) : Prop :=
  (~ mentions "nust" query -> sent = "NUST University Pakistan " +:+ query) /\
  (mentions "nust" query -> sent = query).

(** The score as the specification words it. *)
Definition occurrences (keywords : list string) (text : string) : nat :=
  list_sum (map (fun k => Py.count k text) keywords).

Definition spec_score (keywords : list string) (doc : Document) : nat :=
  occurrences keywords (Py.lower (page_content doc))
  + 2 * occurrences keywords (title_of doc).

(** Every character of the text satisfies [P]. *)
Fixpoint every_char (P : ascii -> Prop) (s : string) : Prop :=
  match s with
  | EmptyString => True
  | String c s' => P c /\ every_char P s'
  end.

(** A token of [split]: not empty, free of white space, in lower case. *)
Definition lower_token (k : string) : Prop :=
  Py.truthy k = true /\ every_char (fun c => Py.isspace c = false) k /\ Py.lower k = k.

(** No session is stored under the empty id. *)
Definition store_ok (w : World) : Prop := sessions w !! EmptyString = None.

(** The number of rows of a department. *)
Definition count_dept (d : string) (rows : list Student) : nat :=
  length (List.filter (fun s => String.eqb (st_department s) d) rows).

(** Every activity row belongs to a student of the registry. *)
Definition logs_refer_to_students (w : World) : Prop :=
  forall l, In l (activity_logs w) ->
            exists s, In s (students w) /\ st_id s = al_student_id l.

(** The comparison [sort_desc] is given for a numeric key, and what it
    achieves: larger keys first, the entries of one key in their order. *)
Definition key_ltb {A : Type} (key : A -> nat) (x y : A) : bool := key x <? key y.

Definition descending {A : Type} (key : A -> nat) (l : list A) : Prop :=
  StronglySorted (fun x y => key y <= key x) l.

Definition with_key {A : Type} (key : A -> nat) (s : nat) (l : list A) : list A :=
  List.filter (fun x => key x =? s) l.

(** The body [m] leaves the part [proj] of the world as it found it. *)
Definition keeps {X A : Type} (proj : World -> X) (m : M A) : Prop :=
  forall w, proj (m w).1 = proj w.

(** ** Vocabulary of the statements about the registry *)

(** The row [get_student] reads for an id. *)
Definition row_of (student_id : string) (w : World) : option Student :=
  List.find (has_id student_id) (students w).

(** The columns of a row that hold text, by name. *)
Definition text_columns : list string := ["id"; "name"; "department"; "email"].

(** The constraints of table [students]: the id is the primary key and the
    email is unique. *)
Definition students_keyed (w : World) : Prop :=
  List.NoDup (map st_id (students w)) /\ List.NoDup (map st_email (students w)).

(** A registry that satisfies the constraints of both tables. *)
Definition consistent (w : World) : Prop :=
  students_keyed w /\ logs_refer_to_students w.

(** The body [m] keeps the invariant [I] of the world. *)
Definition preserves {A : Type} (I : World -> Prop) (m : M A) : Prop :=
  forall w, I w -> I (m w).1.

(** The two tables. *)
Definition registry (w : World) : list Student * list ActivityLog :=
  (students w, activity_logs w).

(** The sum of the counts of a breakdown. *)
Definition breakdown_total (d : gmap string nat) : nat :=
  map_fold (fun _ n acc => n + acc) 0 d.

(** [ORDER BY created_at DESC] achieved. *)
Definition newest_first (rows : list Student) : Prop :=
  StronglySorted (fun x y => (st_created_at y <= st_created_at x)%Z) rows.

(** A registry after one enrolment through [add_student]. *)
Definition enrolled_world : World :=
  (add_student calm_env "STU011" "Noor" "Physics" "noor@nust.edu.pk" campus_world).1.

(** ** Vocabulary of the statements about the tools and the graph *)

(** The result object reports [success: true]. *)
Definition reports_success (out : World * result json) : Prop :=
  exists j, out.2 = Ret j /\ json_get "success" j = Some (JBool true).

(** A tool is registered under [name]. *)
Definition registered (env : Env) (name : string) : bool :=
  existsb (fun t => String.eqb t.1 name) (tools env).

(** The call a message answers, when it is a [ToolMessage]. *)
Definition answered_call (m : message) : option string :=
  match m with
  | ToolMessage _ id => Some id
  | _ => None
  end.

(** ** Vocabulary of the statements about the text of a stream *)

(** The snapshots all carry the session id [sid], and the last one, when
    there is one, carries the text [text]. *)
Definition closes_with (sid text : string) (l : list Snapshot) : Prop :=
  Forall (fun s => sn_session_id s = sid) l /\
  forall final, last l = Some final -> sn_response final = text.

(** [''.join(l)] for a list of characters. *)
Definition text_of (l : list ascii) : string := string_of_list_ascii l.

(** ** Vocabulary of the statements about the prompt *)

(** One line of the conversation history of a prompt. *)
Definition rendered (e : HistoryEntry) : string :=
  (if String.eqb (h_role e) "user" then "User" else "Assistant")
  +:+ ": " +:+ h_content e +:+ Py.nl.

Definition transcript (entries : list HistoryEntry) : string :=
  foldr (fun e rest => rendered e +:+ rest) EmptyString entries.

(** [l[-n:]] for a positive [n]. *)
Definition last_entries {A : Type} (n : nat) (l : list A) : list A :=
  skipn (length l - n) l.

(** The keywords for which [_get_context] consults the corpus. *)
Definition context_keywords : list string :=
  ["nust"; "national university"; "sciences technology"].

(** A text made of white space only. *)
Definition blank (s : string) : Prop := every_char (fun c => Py.isspace c = true) s.

(** ** Email service ([EmailService], [backend/email_service.py]) *)

(** The configuration and the collaborators of the service.  [smtp] is the
    delivery of one message (building the MIME message and the SMTP
    dialogue): it receives the sender, the recipient, the subject, the
    plain text and the HTML text, and answers the exception raised, if
    any.  [stack_depth] is the number of nested calls the interpreter
    still allows. *)
Record Mailer : Type := {
  gmail_email : option string;          (* [self.email] *)
  gmail_app_password : option string;   (* [self.password] *)
  smtp : nat -> string -> string -> string -> string -> string -> option string;
  strftime : string -> Z -> string;     (* [datetime.strftime] *)
  stack_depth : nat
}.

(** A format string, parsed: literal text and replacement fields. *)
Inductive piece : Type :=
| Lit (text : string)
| Hole (name : string).

Record Template : Type := {
  tp_subject : list piece;
  tp_template : list piece
}.

(** [template.format( **kwargs )], which raises [KeyError] at the first field
    that [kwargs] lacks. *)
Fixpoint format (t : list piece) (kwargs : gmap string string) : result string :=
  match t with
  | [] => Ret EmptyString
  | Lit text :: rest =>
      match format rest kwargs with
      | Ret s => Ret (text +:+ s)
      | Raise e => Raise e
      end
  | Hole name :: rest =>
      match kwargs !! name with
      | None => Raise (key_error name)
      | Some v =>
          match format rest kwargs with
          | Ret s => Ret (v +:+ s)
          | Raise e => Raise e
          end
      end
  end.

(** [kwargs.setdefault(key, value)] *)
Definition setdefault (key value : string) (kwargs : gmap string string)
  : gmap string string :=
  match kwargs !! key with
  | Some _ => kwargs
  | None => <[key := value]> kwargs
  end.

(** The dictionary a call of the service returns; a key it does not carry
    is [None]. *)
Record EmailResponse : Type := {
  em_success : bool;
  em_message : string;
  em_timestamp : Z;
  em_recipient : string;
  em_subject : string;
  em_student_id : option string;
  em_mock : bool;
  em_log_message : string;
  em_preview : option string;
  em_error : option string
}.

Record Formatted : Type := {
  fm_subject : string;
  fm_body : string
}.

(** [text.replace('\n', '<br>')] *)
Fixpoint replace_newlines (text : string) : string :=
  match text with
  | EmptyString => EmptyString
  | String c rest =>
      if Ascii.eqb c (ascii_of_nat 10) then "<br>" +:+ replace_newlines rest
      else String c (replace_newlines rest)
  end.

(** The double quote. *)
Definition dq : string := String (ascii_of_nat 34) EmptyString.

Section EmailService.

Context (env : Env) (mailer : Mailer).

(** The bullet of the templates, U+2022, lies outside the range of the
    characters of [string]; the templates take its text as a parameter. *)
Context (bullet : string).

(** [self.templates] *)
Definition templates : list (string * Template) :=
  [ ("welcome",
     {| tp_subject := [Lit "Welcome to NUST Campus - Account Created"];
        tp_template :=
    [ Lit (Py.lines
         [EmptyString;
          "Dear "]);
      Hole "student_name";
      Lit (Py.lines
         [",";
          EmptyString;
          "Welcome to NUST University! We're excited to have you join our academic community.";
          EmptyString;
          "Your student account has been successfully created with the following details:";
          bullet +:+ " Student ID: "]);
      Hole "student_id";
      Lit (Py.lines
         [EmptyString;
          bullet +:+ " Department: "]);
      Hole "department";
      Lit (Py.lines
         [EmptyString;
          bullet +:+ " Registered Email: "]);
      Hole "email";
      Lit (Py.lines
         [EmptyString;
          bullet +:+ " Account Created: "]);
      Hole "created_date";
      Lit (Py.lines
         [EmptyString;
          EmptyString;
          "Getting Started:";
          bullet +:+ " You can now access all campus facilities and services";
          bullet +:+ " Keep your student ID safe - you'll need it for various campus activities";
          bullet +:+ " Visit the student portal to complete your profile setup";
          bullet +:+ " Check out upcoming orientation events";
          EmptyString;
          "Campus Resources:";
          bullet +:+ " Library: Open Mon-Fri 8AM-10PM, Sat 9AM-8PM, Sun 10AM-6PM";
          bullet +:+ " Cafeteria: Breakfast 7-10AM, Lunch 12-3PM, Dinner 6-9PM";
          bullet +:+ " Student Services: Available for any questions or support";
          EmptyString;
          "If you have any questions or need assistance, don't hesitate to contact our campus admin team.";
          EmptyString;
          "Welcome to NUST!";
          EmptyString;
          "Best regards,";
          "NUST Campus Administration Team";
          "                "]) ] |});
    ("profile_update",
     {| tp_subject := [Lit "Profile Update Notification - NUST Campus"];
        tp_template :=
    [ Lit (Py.lines
         [EmptyString;
          "Dear "]);
      Hole "student_name";
      Lit (Py.lines
         [",";
          EmptyString;
          "This email confirms that your student profile has been updated.";
          EmptyString;
          "Update Details:";
          bullet +:+ " Field Modified: "]);
      Hole "field_updated";
      Lit (Py.lines
         [EmptyString;
          bullet +:+ " Previous Value: "]);
      Hole "old_value";
      Lit (Py.lines
         [EmptyString;
          bullet +:+ " New Value: "]);
      Hole "new_value";
      Lit (Py.lines
         [EmptyString;
          bullet +:+ " Updated On: "]);
      Hole "update_date";
      Lit (Py.lines
         [EmptyString;
          bullet +:+ " Updated By: Campus Admin";
          EmptyString;
          "If you did not request this change or believe this update was made in error, please contact the campus administration team immediately.";
          EmptyString;
          "For your security, we recommend:";
          bullet +:+ " Regularly reviewing your profile information";
          bullet +:+ " Reporting any unauthorized changes immediately";
          bullet +:+ " Keeping your contact information up to date";
          EmptyString;
          "Best regards,";
          "NUST Campus Administration Team";
          "                "]) ] |});
    ("general_notification",
     {| tp_subject := [Lit "NUST Campus Notification"];
        tp_template :=
    [ Lit (Py.lines
         [EmptyString;
          "Dear "]);
      Hole "student_name";
      Lit (Py.lines
         [",";
          EmptyString;
          EmptyString]);
      Hole "message_content";
      Lit (Py.lines
         [EmptyString;
          EmptyString;
          "This message was sent on: "]);
      Hole "send_date";
      Lit (Py.lines
         [EmptyString;
          EmptyString;
          "If you have any questions regarding this notification, please contact the campus administration team.";
          EmptyString;
          "Best regards,";
          "NUST Campus Administration Team";
          "                "]) ] |}) ].

(** [self.templates[template_type]], after the replacement of an unknown
    type by [general_notification]. *)
Definition template_data (template_type : string) : Template :=
  let template_type :=
    match assoc template_type templates with
    | Some _ => template_type
    | None => "general_notification"
    end in
  default {| tp_subject := []; tp_template := [] |} (assoc template_type templates).

(** [_format_template]; [depth] bounds the nesting of the call its handler
    makes. *)
Fixpoint format_template (depth : nat) (template_type : string)
    (kwargs : gmap string string) : M Formatted :=
  match depth with
  | O => raise "maximum recursion depth exceeded"
  | S depth' =>
      let data := template_data template_type in
      t1 <- now env;;
      let kwargs := setdefault "send_date" (strftime mailer "%Y-%m-%d %H:%M:%S" t1) kwargs in
      t2 <- now env;;
      let kwargs := setdefault "created_date" (strftime mailer "%Y-%m-%d" t2) kwargs in
      t3 <- now env;;
      let kwargs := setdefault "update_date" (strftime mailer "%Y-%m-%d %H:%M:%S" t3) kwargs in
      try_catch
        (formatted_subject <- lift_result (format (tp_subject data) kwargs);;
         formatted_body <- lift_result (format (tp_template data) kwargs);;
         ret {| fm_subject := formatted_subject; fm_body := Py.strip formatted_body |})
        (fun _ =>
         format_template depth' "general_notification"
           (<["student_name" := default "Student" (kwargs !! "student_name")]>
              (<["message_content" := default "Campus notification" (kwargs !! "message")]>
                 ∅)))
  end.

Definition _format_template (template_type : string) (kwargs : gmap string string)
  : M Formatted :=
  format_template (stack_depth mailer) template_type kwargs.

(** [message[:100] + "..." if len(message) > 100 else message] *)
Definition preview_of (message : string) : string :=
  if 100 <? Py.len message then Py.take 100 message +:+ "..." else message.

(** [f"{error}"] for an optional text. *)
Definition str_of (error : option string) : string := default "None" error.

Definition _create_mock_email_response (student_id recipient_email message subject : string)
    (success : bool) (error : option string) : M EmailResponse :=
  timestamp <- now env;;
  if success then
    ret {| em_success := true;
           em_message := "Email sent successfully (mock mode - no actual email sent)";
           em_timestamp := timestamp;
           em_recipient := recipient_email;
           em_subject := subject;
           em_student_id := Some student_id;
           em_mock := true;
           em_log_message :=
             "To: " +:+ recipient_email +:+ " | Subject: " +:+ subject +:+ " | "
             +:+ "Student: " +:+ student_id +:+ " | Status: DELIVERED (MOCK)";
           em_preview := Some (preview_of message);
           em_error := None |}
  else
    ret {| em_success := false;
           em_message := "Failed to send email: " +:+ str_of error;
           em_timestamp := timestamp;
           em_recipient := recipient_email;
           em_subject := subject;
           em_student_id := Some student_id;
           em_mock := true;
           em_log_message :=
             "FAILED - To: " +:+ recipient_email +:+ " | Subject: " +:+ subject +:+ " | "
             +:+ "Student: " +:+ student_id +:+ " | Error: " +:+ str_of error;
           em_preview := None;
           em_error := error |}.

Definition _convert_to_html (text_message : string) : string :=
  let html_message := replace_newlines text_message in
  Py.lines
    [EmptyString;
     "        <html>";
     "            <body style=" +:+ dq
       +:+ "font-family: Arial, sans-serif; line-height: 1.6; color: #333;" +:+ dq +:+ ">";
     "                <div style=" +:+ dq
       +:+ "max-width: 600px; margin: 0 auto; padding: 20px;" +:+ dq +:+ ">";
     "                    " +:+ html_message;
     "                    <hr style=" +:+ dq
       +:+ "margin: 20px 0; border: 1px solid #eee;" +:+ dq +:+ ">";
     "                    <p style=" +:+ dq +:+ "font-size: 12px; color: #666;" +:+ dq +:+ ">";
     "                        This email was sent by the NUST Campus Administration System.<br>";
     "                        If you have questions, please contact admin@nust.edu.pk";
     "                    </p>";
     "                </div>";
     "            </body>";
     "        </html>";
     "        "].

Definition send_email (student_id recipient_email message : string)
    (subject : option string) : M EmailResponse :=
  let subject :=
    if given subject then default EmptyString subject
    else "NUST Campus Admin Notification for Student " +:+ student_id in
  if negb (given (gmail_email mailer)) || negb (given (gmail_app_password mailer)) then
    _create_mock_email_response student_id recipient_email message subject true None
  else
    try_catch
      (let html_message := _convert_to_html message in
       failure <- oracle (fun n =>
         smtp mailer n (default EmptyString (gmail_email mailer)) recipient_email
           subject message html_message);;
       match failure with
       | Some detail => raise detail
       | None =>
           timestamp <- now env;;
           ret {| em_success := true;
                  em_message := "Email sent successfully";
                  em_timestamp := timestamp;
                  em_recipient := recipient_email;
                  em_subject := subject;
                  em_student_id := None;
                  em_mock := false;
                  em_log_message :=
                    "Email sent to " +:+ recipient_email +:+ ": " +:+ subject;
                  em_preview := None;
                  em_error := None |}
       end)
      (fun e =>
       _create_mock_email_response student_id recipient_email message subject false (Some e)).

(** [EmailService.send_welcome_email] and [EmailService.send_update_notification]. *)
Definition service_send_welcome_email
    (student_id recipient_email student_name department email : string) : M EmailResponse :=
  formatted_email <- _format_template "welcome"
    (<["student_id" := student_id]> (<["student_name" := student_name]>
       (<["department" := department]> (<["email" := email]> ∅))));;
  send_email student_id recipient_email (fm_body formatted_email)
    (Some (fm_subject formatted_email)).

Definition service_send_update_notification
    (student_id recipient_email student_name field_updated old_value new_value : string)
  : M EmailResponse :=
  formatted_email <- _format_template "profile_update"
    (<["student_name" := student_name]> (<["field_updated" := field_updated]>
       (<["old_value" := old_value]> (<["new_value" := new_value]> ∅))));;
  send_email student_id recipient_email (fm_body formatted_email)
    (Some (fm_subject formatted_email)).

End EmailService.

(** A service without credentials, and one with credentials whose
    deliveries fail. *)
Definition demo_mailer : Mailer :=
  {| gmail_email := None; gmail_app_password := None;
     smtp := fun _ _ _ _ _ _ => None;
     strftime := fun _ _ => "2024-04-15 10:00:00";
     stack_depth := 100 |}.

Definition failing_mailer : Mailer :=
  {| gmail_email := Some "admin@nust.edu.pk"; gmail_app_password := Some "secret";
     smtp := fun _ _ _ _ _ _ => Some "Connection refused";
     strftime := fun _ _ => "2024-04-15 10:00:00";
     stack_depth := 100 |}.

(** ** Vocabulary of the statements about the email service *)

(** The replacement fields of a format string. *)
Fixpoint holes (t : list piece) : list string :=
  match t with
  | [] => []
  | Lit _ :: rest => holes rest
  | Hole name :: rest => name :: holes rest
  end.

(** The fields [_format_template] can fill: those of [kwargs] and the
    three dates it supplies. *)
Definition fills (kwargs : gmap string string) (name : string) : bool :=
  match kwargs !! name with
  | Some _ => true
  | None => existsb (String.eqb name) ["send_date"; "created_date"; "update_date"]
  end.

(** The template of [template_type] can be formatted with [kwargs]. *)
Definition complete (bullet template_type : string) (kwargs : gmap string string) : bool :=
  forallb (fills kwargs) (holes (tp_template (template_data bullet template_type))).

(** The body of the general notification, as sent. *)
Definition general_body (student_name message_content send_date : string) : string :=
  "Dear " +:+ student_name
  +:+ Py.lines [","; EmptyString; EmptyString]
  +:+ message_content
  +:+ Py.lines [EmptyString; EmptyString; "This message was sent on: "]
  +:+ send_date
  +:+ Py.lines
        [EmptyString;
         EmptyString;
         "If you have any questions regarding this notification, please contact the campus administration team.";
         EmptyString;
         "Best regards,";
         "NUST Campus Administration Team"].

(** The keyword arguments after the three [setdefault] of a call of
    [_format_template] made in world [w], and those its handler passes on. *)
Definition dated (env : Env) (mailer : Mailer) (kwargs : gmap string string) (w : World)
  : gmap string string :=
  setdefault "update_date" (strftime mailer "%Y-%m-%d %H:%M:%S" (clock env (tick w + 2)))
    (setdefault "created_date" (strftime mailer "%Y-%m-%d" (clock env (tick w + 1)))
       (setdefault "send_date" (strftime mailer "%Y-%m-%d %H:%M:%S" (clock env (tick w)))
          kwargs)).

Definition fallback (kwargs : gmap string string) : gmap string string :=
  <["student_name" := default "Student" (kwargs !! "student_name")]>
    (<["message_content" := default "Campus notification" (kwargs !! "message")]> ∅).

(** ** Chat tables of the storage ([DatabaseManager], sessions and messages)

    The schema of [init_database] gives [sessions.id] as primary key, an
    [AUTOINCREMENT] id and a [CHECK] on the type to [messages].  No
    connection of the storage turns the enforcement of foreign keys on, so
    the references of [messages] to [sessions] and [users] are not checked:
    a message can be stored under a session id that no row carries. *)

(** A row of table [sessions] and a row of table [messages]. *)
Record SessionRow : Type := {
  ss_id : string;
  ss_user_id : Z;
  ss_created_at : Z;
  ss_last_activity : Z;
  ss_is_active : bool
}.

Record MessageRow : Type := {
  mg_id : Z;
  mg_session_id : string;
  mg_user_id : Z;
  mg_message_type : string;
  mg_content : string;
  mg_created_at : Z
}.

(** The two tables, the counter of [AUTOINCREMENT] for [messages.id], and
    the number of consultations of the oracles so far. *)
Record Tables : Type := {
  t_sessions : list SessionRow;
  t_messages : list MessageRow;
  t_sequence : Z;
  t_tick : nat
}.

Module Db.

(** The monad of a method of the storage, over the chat tables. *)
Definition DB (A : Type) : Type := Tables -> Tables * result A.

Definition ret {A : Type} (a : A) : DB A := fun db => (db, Ret a).

Definition raise {A : Type} (detail : string) : DB A := fun db => (db, Raise detail).

Definition bind {A B : Type} (m : DB A) (k : A -> DB B) : DB B :=
  fun db =>
    match m db with
    | (db', Ret a) => k a db'
    | (db', Raise e) => (db', Raise e)
    end.

(** [try: m except Exception: ...]; the transaction of [m] is not committed
    when it raises, so the tables are as before. *)
Definition try_catch {A : Type} (m : DB A) (handler : string -> DB A) : DB A :=
  fun db =>
    match m db with
    | (db', Ret a) => (db', Ret a)
    | (db', Raise e) =>
        handler e {| t_sessions := t_sessions db; t_messages := t_messages db;
                     t_sequence := t_sequence db; t_tick := t_tick db' |}
    end.

Definition get : DB Tables := fun db => (db, Ret db).

Definition modify (f : Tables -> Tables) : DB unit := fun db => (f db, Ret tt).

Definition oracle {A : Type} (f : nat -> A) : DB A :=
  fun db =>
    ({| t_sessions := t_sessions db; t_messages := t_messages db;
        t_sequence := t_sequence db; t_tick := S (t_tick db) |},
     Ret (f (t_tick db))).

Declare Scope db_scope.
Delimit Scope db_scope with db.
Notation "x <- m ;; k" := (bind m (fun x => k))
  (at level 100, m at next level, right associativity) : db_scope.
Notation "m ;; k" := (bind m (fun _ => k))
  (at level 100, right associativity) : db_scope.
Local Open Scope db_scope.

Definition set_sessions (f : list SessionRow -> list SessionRow) (db : Tables) : Tables :=
  {| t_sessions := f (t_sessions db); t_messages := t_messages db;
     t_sequence := t_sequence db; t_tick := t_tick db |}.

Definition set_messages (f : list MessageRow -> list MessageRow) (db : Tables) : Tables :=
  {| t_sessions := t_sessions db; t_messages := f (t_messages db);
     t_sequence := t_sequence db; t_tick := t_tick db |}.

Definition set_sequence (n : Z) (db : Tables) : Tables :=
  {| t_sessions := t_sessions db; t_messages := t_messages db;
     t_sequence := n; t_tick := t_tick db |}.

Section Methods.

Context (env : Env).

(** [sqlite3.connect(self.db_path)] *)
Definition sqlite3_connect : DB unit :=
  fault <- oracle (sqlite_fault env);;
  match fault with
  | Some detail => raise detail
  | None => ret tt
  end.

(** [CURRENT_TIMESTAMP] *)
Definition current_timestamp : DB Z := oracle (clock env).

Definition has_id (session_id : string) (s : SessionRow) : bool :=
  String.eqb (ss_id s) session_id.

Definition owned_by (user_id : Z) (s : SessionRow) : bool :=
  (ss_user_id s =? user_id)%Z.

Definition of_session (session_id : string) (m : MessageRow) : bool :=
  String.eqb (mg_session_id m) session_id.

Definition create_session (session_id : string) (user_id : Z) : DB bool :=
  try_catch
    (sqlite3_connect;;
     db <- get;;
     if existsb (has_id session_id) (t_sessions db)
     then raise "UNIQUE constraint failed: sessions.id"
     else
       t <- current_timestamp;;
       modify (set_sessions (fun rows => rows ++
         [{| ss_id := session_id; ss_user_id := user_id; ss_created_at := t;
             ss_last_activity := t; ss_is_active := true |}]));;
       ret true)
    (fun _ => ret false).

(** [SELECT ... FROM sessions WHERE id = ? AND is_active = 1] *)
Definition get_session (session_id : string) : DB (option SessionRow) :=
  sqlite3_connect;;
  db <- get;;
  ret (List.find (fun s => has_id session_id s && ss_is_active s) (t_sessions db)).

(** [UPDATE sessions SET last_activity = CURRENT_TIMESTAMP WHERE id = ?] *)
Definition touch (session_id : string) (t : Z) (s : SessionRow) : SessionRow :=
  if has_id session_id s
  then {| ss_id := ss_id s; ss_user_id := ss_user_id s; ss_created_at := ss_created_at s;
          ss_last_activity := t; ss_is_active := ss_is_active s |}
  else s.

Definition update_session_activity (session_id : string) : DB bool :=
  try_catch
    (sqlite3_connect;;
     t <- current_timestamp;;
     modify (set_sessions (map (touch session_id t)));;
     ret true)
    (fun _ => ret false).

(** [UPDATE sessions SET is_active = 0 WHERE id = ? AND user_id = ?] *)
Definition deactivate (session_id : string) (user_id : Z) (s : SessionRow) : SessionRow :=
  if has_id session_id s && owned_by user_id s
  then {| ss_id := ss_id s; ss_user_id := ss_user_id s; ss_created_at := ss_created_at s;
          ss_last_activity := ss_last_activity s; ss_is_active := false |}
  else s.

Definition delete_session (session_id : string) (user_id : Z) : DB bool :=
  try_catch
    (sqlite3_connect;;
     modify (set_sessions (map (deactivate session_id user_id)));;
     ret true)
    (fun _ => ret false).

(** [CHECK (message_type IN ('user', 'ai'))] *)
Definition message_type_ok (message_type : string) : bool :=
  String.eqb message_type "user" || String.eqb message_type "ai".

Definition save_message (session_id : string) (user_id : Z) (message_type content : string)
  : DB bool :=
  try_catch
    (sqlite3_connect;;
     (if message_type_ok message_type then ret tt
      else raise "CHECK constraint failed: message_type IN ('user', 'ai')");;
     t <- current_timestamp;;
     db <- get;;
     let id := (t_sequence db + 1)%Z in
     modify (set_sequence id);;
     modify (set_messages (fun rows => rows ++
       [{| mg_id := id; mg_session_id := session_id; mg_user_id := user_id;
           mg_message_type := message_type; mg_content := content;
           mg_created_at := t |}]));;
     t' <- current_timestamp;;
     modify (set_sessions (map (touch session_id t')));;
     ret true)
    (fun _ => ret false).

(** [FROM messages m JOIN sessions s ON m.session_id = s.id WHERE
    m.session_id = ? AND s.user_id = ? AND s.is_active = 1]: a message is
    listed once for each session row it joins. *)
Definition joined (session_id : string) (user_id : Z) (db : Tables) : list MessageRow :=
  flat_map (fun m =>
      map (fun _ => m)
        (List.filter (fun s => has_id (mg_session_id m) s && owned_by user_id s
                               && ss_is_active s) (t_sessions db)))
    (List.filter (of_session session_id) (t_messages db)).

(** [ORDER BY m.created_at ASC]: the insertion of [sort_desc] with the
    comparison reversed, so that smaller keys come first. *)
Definition get_session_messages (session_id : string) (user_id : Z) : DB (list MessageRow) :=
  sqlite3_connect;;
  db <- get;;
  ret (sort_desc (fun x y => (mg_created_at y <? mg_created_at x)%Z)
         (joined session_id user_id db)).

Definition delete_session_messages (session_id : string) (user_id : Z) : DB bool :=
  try_catch
    (sqlite3_connect;;
     db <- get;;
     match List.find (fun s => has_id session_id s && owned_by user_id s) (t_sessions db) with
     | Some _ =>
         modify (set_messages (List.filter (fun m => negb (of_session session_id m))));;
         ret true
     | None => ret false
     end)
    (fun _ => ret false).

End Methods.

End Db.

(** Empty chat tables. *)
Definition empty_tables : Tables :=
  {| t_sessions := []; t_messages := []; t_sequence := 0; t_tick := 0 |}.

(** ** Vocabulary of the statements about the chat tables *)

(** sqlite never fails. *)
Definition fault_free (env : Env) : Prop := forall n, sqlite_fault env n = None.

(** The id is the primary key of table [sessions]. *)
Definition sessions_keyed (db : Tables) : Prop := List.NoDup (map ss_id (t_sessions db)).

(** The active session of [user_id] stored under [session_id]. *)
Definition active_session (session_id : string) (user_id : Z) (db : Tables) : Prop :=
  exists s, In s (t_sessions db) /\ ss_id s = session_id /\ ss_user_id s = user_id /\
            ss_is_active s = true.

(** The two tables. *)
Definition chat_data (db : Tables) : list SessionRow * list MessageRow :=
  (t_sessions db, t_messages db).

Definition oldest_first (rows : list MessageRow) : Prop :=
  StronglySorted (fun x y => (mg_created_at x <= mg_created_at y)%Z) rows.

(** Tables with one session of user 7 and the two messages of a turn. *)
Definition sample_tables : Tables :=
  {| t_sessions :=
       [{| ss_id := "s1"; ss_user_id := 7; ss_created_at := 1; ss_last_activity := 3;
           ss_is_active := true |}];
     t_messages :=
       [{| mg_id := 1; mg_session_id := "s1"; mg_user_id := 7; mg_message_type := "user";
           mg_content := "hello"; mg_created_at := 2 |};
        {| mg_id := 2; mg_session_id := "s1"; mg_user_id := 7; mg_message_type := "ai";
           mg_content := "hi"; mg_created_at := 3 |}];
     t_sequence := 2;
     t_tick := 0 |}.

(** The tables after [n] more consultations of the oracles. *)
Definition ticked (n : nat) (db : Tables) : Tables :=
  {| t_sessions := t_sessions db; t_messages := t_messages db;
     t_sequence := t_sequence db; t_tick := n + t_tick db |}.

(** ** HTTP layer ([backend/main.py]) *)

(** The outcome of an endpoint: the body it returns, or the
    [HTTPException] it raises. *)
Inductive response (A : Type) : Type :=
| Ok (body : A)
| HTTPException (status_code : nat) (detail : string).
Arguments Ok {A} body.
Arguments HTTPException {A} status_code detail.

Module Api.

Section Endpoints.

Context (env : Env).

(** [POST /messages] for the authenticated user [current_user]. *)
Definition save_message (current_user : Z) (session_id message_type content : string)
    (db : Tables) : Tables * response string :=
  match Db.get_session env session_id db with
  | (db1, Raise e) => (db1, HTTPException 500 ("Error saving message: " +:+ e))
  | (db1, Ret session) =>
      if match session with
         | Some s => negb (ss_user_id s =? current_user)%Z
         | None => true
         end
      then (db1, HTTPException 403 "Session not found or access denied")
      else
        match Db.save_message env session_id current_user message_type content db1 with
        | (db2, Ret true) => (db2, Ok "Message saved successfully")
        | (db2, Ret false) => (db2, HTTPException 500 "Failed to save message")
        | (db2, Raise e) => (db2, HTTPException 500 ("Error saving message: " +:+ e))
        end
  end.

(** [DELETE /sessions/{session_id}]; [agent] tells whether the agent was
    initialised, the world is its state. *)
Definition delete_session (agent : bool) (current_user : Z) (session_id : string)
    (st : Tables * World) : (Tables * World) * response string :=
  match Db.get_session env session_id st.1 with
  | (db1, Raise e) => ((db1, st.2), HTTPException 500 ("Error deleting session: " +:+ e))
  | (db1, Ret None) => ((db1, st.2), HTTPException 404 "Session not found")
  | (db1, Ret (Some s)) =>
      if negb (ss_user_id s =? current_user)%Z
      then ((db1, st.2),
            HTTPException 403 "You do not have permission to delete this session")
      else
        match Db.delete_session env session_id current_user db1 with
        | (db2, Ret true) =>
            ((db2,
              if agent && has_session session_id st.2
              then set_sessions (delete session_id) st.2 else st.2),
             Ok ("Session " +:+ session_id +:+ " deleted"))
        | (db2, Ret false) => ((db2, st.2), HTTPException 500 "Failed to delete session")
        | (db2, Raise e) =>
            ((db2, st.2), HTTPException 500 ("Error deleting session: " +:+ e))
        end
  end.

(** [POST /chat] *)
Definition chat_endpoint (agent : bool) (current_user : Z) (message : string)
    (session_id : option string) (st : Tables * World)
  : (Tables * World) * response ChatResponse :=
  if negb agent
  then (st, HTTPException 503
              "Agent not initialized. Please check GEMINI_API_KEY configuration.")
  else
    match (if given session_id
           then Db.save_message env (default EmptyString session_id) current_user
                  "user" message st.1
           else (st.1, Ret true)) with
    | (db1, Raise e) => ((db1, st.2), HTTPException 500 ("Chat error: " +:+ e))
    | (db1, Ret _) =>
        match chat env message session_id st.2 with
        | (w', Raise e) => ((db1, w'), HTTPException 500 ("Chat error: " +:+ e))
        | (w', Ret response) =>
            match (if Py.truthy (cr_session_id response)
                   then Db.save_message env (cr_session_id response) current_user
                          "ai" (cr_response response) db1
                   else (db1, Ret true)) with
            | (db2, Raise e) => ((db2, w'), HTTPException 500 ("Chat error: " +:+ e))
            | (db2, Ret _) => ((db2, w'), Ok response)
            end
        end
    end.

End Endpoints.

End Api.

(** The status code of an outcome, 200 when the endpoint returns. *)
Definition status_of {A : Type} (r : response A) : nat :=
  match r with
  | Ok _ => 200
  | HTTPException status_code _ => status_code
  end.

(** ** Vocabulary of the statements about the HTTP layer *)

(** A call of a writing method of the storage, or of an endpoint, by a
    user. *)
Inductive db_call : Type :=
| CreateSession (session_id : string) (user_id : Z)
| UpdateSessionActivity (session_id : string)
| DeleteSession (session_id : string) (user_id : Z)
| SaveMessage (session_id : string) (user_id : Z) (message_type content : string)
| DeleteSessionMessages (session_id : string) (user_id : Z)
| PostMessage (current_user : Z) (session_id message_type content : string).

(** The tables after a call. *)
Definition run_call (env : Env) (db : Tables) (c : db_call) : Tables :=
  match c with
  | CreateSession sid uid => (Db.create_session env sid uid db).1
  | UpdateSessionActivity sid => (Db.update_session_activity env sid db).1
  | DeleteSession sid uid => (Db.delete_session env sid uid db).1
  | SaveMessage sid uid type content => (Db.save_message env sid uid type content db).1
  | DeleteSessionMessages sid uid => (Db.delete_session_messages env sid uid db).1
  | PostMessage user sid type content => (Api.save_message env user sid type content db).1
  end.

(** What the schema promises of the chat tables: the primary keys are
    unique, the ids of the messages were all handed out by the counter, and
    the type of a message is [user] or [ai]. *)
Definition well_formed (db : Tables) : Prop :=
  sessions_keyed db /\
  List.NoDup (map mg_id (t_messages db)) /\
  Forall (fun m => (mg_id m <= t_sequence db)%Z) (t_messages db) /\
  Forall (fun m => mg_message_type m = "user" \/ mg_message_type m = "ai") (t_messages db).

(** What a message says, without its id and its date. *)
Definition said (m : MessageRow) : string * Z * string * string :=
  (mg_session_id m, mg_user_id m, mg_message_type m, mg_content m).

(** * Properties *)

#[local] Arguments String.append : simpl nomatch.

(** ** The definitions on small inputs *)

Example classify_ex1 : classify "What is NUST University?" = nust_info.
Proof. reflexivity. Qed.

Example classify_ex2 : classify "Please LIST STUDENTS now" = campus_admin.
Proof. reflexivity. Qed.

Example classify_ex3 : classify "hello there" = general.
Proof. reflexivity. Qed.

Example split_ex : Py.split "  a bc   d " = ["a"; "bc"; "d"].
Proof. reflexivity. Qed.

Example count_ex : Py.count "aa" "aaaaa" = 2.
Proof. reflexivity. Qed.

Example retrieve_ex1 :
  map title_of (retrieve_context basic_nust_info "NUST admission test") =
  ["nust admissions and facilities"; "nust overview"; "nust schools"].
Proof. vm_compute. reflexivity. Qed.

Example retrieve_ex2 : retrieve_context basic_nust_info "zebra" = [].
Proof. vm_compute. reflexivity. Qed.

Example uuid_str_ex : uuid_str (uuid4_int 0) = "00000000-0000-4000-8000-000000000000".
Proof. reflexivity. Qed.

Example py_round2_ex : (py_round2 ((1 # 3) * 100) == 3333 # 100)%Q.
Proof. reflexivity. Qed.

(** ** Strings *)

Section StringFacts.

Lemma append_empty_r (s : string) : s +:+ EmptyString = s.
Proof. induction s as [|c s IH]; simpl; [reflexivity | now f_equal]. Qed.

Lemma append_assoc (a b c : string) : (a +:+ b) +:+ c = a +:+ b +:+ c.
Proof. induction a as [|x a IH]; simpl; [reflexivity | now f_equal]. Qed.

Lemma lower_app (a b : string) : Py.lower (a +:+ b) = Py.lower a +:+ Py.lower b.
Proof. induction a as [|c a IH]; simpl; [reflexivity | now f_equal]. Qed.

(** A lowered text splits where its source does. *)
Lemma lower_split (u a b : string) :
  Py.lower u = a +:+ b ->
  exists ua ub, u = ua +:+ ub /\ Py.lower ua = a /\ Py.lower ub = b.
Proof.
  revert u; induction a as [|c a IH]; intros u H.
  - exists EmptyString, u. auto.
  - destruct u as [|d u]; simpl in H; [discriminate|].
    injection H as Hc Hrest.
    destruct (IH u Hrest) as (ua & ub & -> & Ha & Hb).
    exists (String d ua), ub. simpl. now rewrite Hc, Ha.
Qed.

Lemma startswith_spec (sub s : string) :
  Py.startswith sub s = true <-> exists post, s = sub +:+ post.
Proof.
  revert s; induction sub as [|c sub IH]; intros s; simpl.
  - split; [intros _; now exists s | reflexivity].
  - destruct s as [|d s].
    + split; [discriminate | intros [post H]; discriminate].
    + destruct (Ascii.eqb_spec c d) as [->|Hne]; simpl.
      * rewrite IH. split; intros [post H]; exists post; [now rewrite H | now injection H].
      * split; [discriminate | intros [post H]; injection H; congruence].
Qed.

Lemma contains_spec (sub s : string) :
  Py.contains sub s = true <-> exists pre post, s = pre +:+ sub +:+ post.
Proof.
  induction s as [|c s IH]; simpl.
  - rewrite orb_false_r, startswith_spec. split.
    + intros [post H]. now exists EmptyString, post.
    + intros (pre & post & H). destruct pre; [now exists post | discriminate].
  - rewrite orb_true_iff, startswith_spec, IH. split.
    + intros [[post H] | (pre & post & H)].
      * now exists EmptyString, post.
      * exists (String c pre), post. simpl. now rewrite H.
    + intros (pre & post & H). destruct pre as [|d pre]; simpl in H.
      * left. now exists post.
      * right. injection H as _ H. now exists pre, post.
Qed.

Lemma count_from_absent (sub s : string) (skip : nat) :
  Py.contains sub s = false -> Py.count_from sub skip s = 0.
Proof.
  revert skip; induction s as [|c s IH]; intros skip H; simpl in *; [reflexivity|].
  apply orb_false_iff in H as [Hp Hc].
  destruct skip; [rewrite Hp|]; now apply IH.
Qed.

(** [sub in s] is false only when [s.count(sub)] is zero. *)
Lemma count_absent (sub s : string) :
  Py.contains sub s = false -> Py.count sub s = 0.
Proof.
  intros H. unfold Py.count. destruct sub; simpl.
  - destruct s; discriminate.
  - now apply count_from_absent.
Qed.

Lemma lower_char_idempotent (c : ascii) :
  Py.lower_char (Py.lower_char c) = Py.lower_char c.
Proof. destruct c as [[] [] [] [] [] [] [] []]; reflexivity. Qed.

Lemma lower_idempotent (s : string) : Py.lower (Py.lower s) = Py.lower s.
Proof.
  induction s as [|c s IH]; simpl; [reflexivity|].
  now rewrite lower_char_idempotent, IH.
Qed.

End StringFacts.

(** ** Intent classifier *)

Lemma contains_lower_mentions (k u : string) :
  Py.contains k (Py.lower u) = true <-> mentions k u.
Proof.
  rewrite contains_spec. split.
  - intros (pre & post & H).
    apply lower_split in H as (upre & urest & -> & Hpre & H).
    apply lower_split in H as (umid & upost & -> & Hmid & Hpost).
    now exists upre, umid, upost.
  - intros (pre & mid & post & -> & Hmid).
    exists (Py.lower pre), (Py.lower post).
    now rewrite !lower_app, Hmid.
Qed.

Lemma any_in_lower_mentions (keywords : list string) (u : string) :
  Py.any_in keywords (Py.lower u) = true <-> mentions_any keywords u.
Proof.
  unfold Py.any_in, mentions_any. rewrite existsb_exists.
  split; intros (k & Hin & H); exists k; split; auto; now apply contains_lower_mentions.
Qed.

(** C7. [classify_query] is a function of the utterance alone: it answers
    [nust_info] exactly when an information keyword occurs in the utterance
    (whatever the casing and the position), [campus_admin] exactly when an
    administrative keyword occurs and no information keyword does, and
    [general] exactly when neither occurs; the node changes nothing but the
    operation type of the state. *)
Theorem classify_query_by_keywords (u : string) :
  (classify u = nust_info <-> mentions_any nust_keywords u) /\
  (classify u = campus_admin <->
     mentions_any admin_keywords u /\ ~ mentions_any nust_keywords u) /\
  (classify u = general <->
     ~ mentions_any admin_keywords u /\ ~ mentions_any nust_keywords u) /\
  (forall st, query st = u ->
     classify_query st =
     {| messages := messages st; query := u; op_type := classify u;
        final_answer := final_answer st |}).
Proof.
  pose proof (any_in_lower_mentions nust_keywords u) as Hn.
  pose proof (any_in_lower_mentions admin_keywords u) as Ha.
  assert (Hnode : forall st, query st = u ->
            classify_query st =
            {| messages := messages st; query := u; op_type := classify u;
               final_answer := final_answer st |}).
  { intros st Hq. unfold classify_query. now rewrite Hq. }
  unfold classify in *.
  destruct (Py.any_in nust_keywords (Py.lower u)).
  - assert (mentions_any nust_keywords u) by now apply Hn.
    repeat split; intros; try discriminate; try tauto; auto.
  - assert (~ mentions_any nust_keywords u) by (intros X; apply Hn in X; discriminate).
    destruct (Py.any_in admin_keywords (Py.lower u)).
    + assert (mentions_any admin_keywords u) by now apply Ha.
      repeat split; intros; try discriminate; try tauto; auto.
    + assert (~ mentions_any admin_keywords u) by (intros X; apply Ha in X; discriminate).
      repeat split; intros; try discriminate; try tauto; auto.
Qed.

(** ** Running a body *)

Section MonadFacts.

Context {A B : Type}.

Lemma bind_ret_l (a : A) (k : A -> M B) (w : World) : bind (ret a) k w = k a w.
Proof. reflexivity. Qed.

Lemma bind_eq (m : M A) (k : A -> M B) (w w' : World) (a : A) :
  m w = (w', Ret a) -> bind m k w = k a w'.
Proof. intros H. unfold bind. now rewrite H. Qed.

Lemma bind_raise (m : M A) (k : A -> M B) (w w' : World) (e : string) :
  m w = (w', Raise e) -> bind m k w = (w', Raise e).
Proof. intros H. unfold bind. now rewrite H. Qed.

End MonadFacts.

(** Running the monadic operations of a body down to its case analyses. *)
Ltac run_monad :=
  cbv beta iota zeta delta
    [bind ret raise try_catch get modify oracle lift_result now uuid4
     sqlite3_connect notify ddgs_text_call yield session_at update_session
     get_session_info or_uuid4].

(** ** Web search adapter *)

Lemma nust_query_cases (q : string) :
  (mentions "nust" q -> nust_query q = "NUST University Pakistan " +:+ q) /\
  (~ mentions "nust" q -> nust_query q = q).
Proof.
  unfold nust_query. pose proof (contains_lower_mentions "nust" q) as H.
  destruct (Py.contains "nust" (Py.lower q)).
  - split; [reflexivity | intros Hn; exfalso; apply Hn, H; reflexivity].
  - split; [intros Hm; apply H in Hm; discriminate | reflexivity].
Qed.

(** C3, counterexample.  The query [admissions] does not mention the
    institution and reaches the provider unchanged; the query [nust fees]
    mentions it and reaches the provider with the name prepended. *)
Lemma search_rewrite_counterexample :
  search_log (search calm_env "admissions" 3 empty_world).1 = [("admissions", 3)] /\
  ~ rewritten_as_specified "admissions" "admissions" /\
  search_log (search calm_env "nust fees" 3 empty_world).1 =
    [("NUST University Pakistan nust fees", 3)] /\
  ~ rewritten_as_specified "nust fees" "NUST University Pakistan nust fees".
Proof.
  split; [reflexivity|]. split.
  - intros [H _].
    assert (Hn : ~ mentions "nust" "admissions").
    { intros Hm. apply contains_lower_mentions in Hm. discriminate. }
    specialize (H Hn). discriminate.
  - split; [reflexivity|]. intros [_ H].
    assert (Hm : mentions "nust" "nust fees").
    { apply contains_lower_mentions. reflexivity. }
    specialize (H Hm). discriminate.
Qed.

(** C3, as the code has it.  When the provider is available, [search] sends
    it exactly one query: the original one with the institution name
    prepended when the query mentions [nust] (in any casing), the original
    one unchanged otherwise.  When the provider is unavailable nothing is
    sent. *)
Theorem search_sends_nust_query (env : Env) (q : string) (n : nat) (w : World) :
  search_log (search env q n w).1 =
    search_log w ++ (if ddgs_available env then [(nust_query q, n)] else []) /\
  (mentions "nust" q -> nust_query q = "NUST University Pakistan " +:+ q) /\
  (~ mentions "nust" q -> nust_query q = q).
Proof.
  split; [|apply nust_query_cases].
  unfold search. destruct (ddgs_available env); simpl.
  - run_monad; simpl.
    destruct (ddgs_text env (tick w) (nust_query q) n); reflexivity.
  - now rewrite app_nil_r.
Qed.

(** ** Knowledge retriever *)

Lemma in_firstn {A : Type} (n : nat) (l : list A) (x : A) :
  In x (firstn n l) -> In x l.
Proof.
  revert n; induction l as [|y l IH]; intros [|n]; simpl; try tauto.
  intros [->|H]; [now left | right; eauto].
Qed.

Section Sorting.

Context {A : Type} (key : A -> nat).

Lemma insert_desc_perm (x : A) (l : list A) :
  Permutation (insert_desc (key_ltb key) x l) (x :: l).
Proof.
  induction l as [|y l IH]; simpl; [reflexivity|].
  destruct (key_ltb key x y); [|reflexivity].
  rewrite IH. apply perm_swap.
Qed.

Lemma sort_desc_perm (l : list A) : Permutation (sort_desc (key_ltb key) l) l.
Proof.
  induction l as [|x l IH]; simpl; [reflexivity|].
  rewrite insert_desc_perm. now constructor.
Qed.

Lemma insert_desc_descending (x : A) (l : list A) :
  descending key l -> descending key (insert_desc (key_ltb key) x l).
Proof.
  unfold descending, key_ltb.
  induction l as [|y l IH]; intros Hs; simpl.
  - repeat constructor.
  - inversion Hs as [|? ? Hl Hy]; subst.
    destruct (Nat.ltb_spec (key x) (key y)) as [Hlt|Hge].
    + constructor; [now apply IH|].
      apply List.Forall_forall. intros z Hz.
      apply (Permutation_in _ (insert_desc_perm x l)) in Hz.
      destruct Hz as [<-|Hz]; [lia|].
      rewrite List.Forall_forall in Hy. now apply Hy.
    + constructor; [assumption|].
      constructor; [assumption|].
      eapply List.Forall_impl; [|exact Hy]. simpl. intros z Hz. lia.
Qed.

Lemma sort_desc_descending (l : list A) : descending key (sort_desc (key_ltb key) l).
Proof.
  induction l as [|x l IH]; simpl; [constructor|].
  now apply insert_desc_descending.
Qed.

(** Stability: among the entries of one key, the order is the original one. *)
Lemma insert_desc_with_key (s : nat) (x : A) (l : list A) :
  with_key key s (insert_desc (key_ltb key) x l) = with_key key s (x :: l).
Proof.
  unfold with_key, key_ltb.
  induction l as [|y l IH]; simpl; [reflexivity|].
  destruct (Nat.ltb_spec (key x) (key y)) as [Hlt|Hge]; [|reflexivity].
  simpl. rewrite IH. simpl.
  destruct (Nat.eqb_spec (key x) s) as [Hx|Hx]; [|reflexivity].
  destruct (Nat.eqb_spec (key y) s) as [Hy|Hy]; [lia | reflexivity].
Qed.

Lemma sort_desc_stable (s : nat) (l : list A) :
  with_key key s (sort_desc (key_ltb key) l) = with_key key s l.
Proof.
  induction l as [|x l IH]; simpl; [reflexivity|].
  rewrite insert_desc_with_key. unfold with_key in *. simpl. now rewrite IH.
Qed.

Lemma descending_firstn (n : nat) (l : list A) :
  descending key l -> descending key (firstn n l).
Proof.
  unfold descending. revert n; induction l as [|x l IH]; intros [|n] Hs; simpl;
    try constructor.
  - inversion Hs; subst. now apply IH.
  - inversion Hs as [|? ? _ Hx]; subst.
    rewrite List.Forall_forall in *. intros z Hz. apply Hx.
    revert Hz. apply in_firstn.
Qed.

End Sorting.

Lemma score_keyword_sum (content title k : string) (score : nat) :
  score_keyword content title score k =
  score + Py.count k content + 2 * Py.count k title.
Proof.
  unfold score_keyword.
  destruct (Py.contains k content) eqn:Hc; destruct (Py.contains k title) eqn:Ht;
    try (rewrite (count_absent _ _ Hc)); try (rewrite (count_absent _ _ Ht)); lia.
Qed.

Lemma score_doc_spec (keywords : list string) (doc : Document) :
  score_doc keywords doc = spec_score keywords doc.
Proof.
  unfold score_doc, spec_score, occurrences.
  set (content := Py.lower (page_content doc)). set (title := title_of doc).
  assert (H : forall acc,
    fold_left (score_keyword content title) keywords acc =
    acc + list_sum (map (fun k => Py.count k content) keywords)
        + 2 * list_sum (map (fun k => Py.count k title) keywords)).
  { induction keywords as [|k ks IH]; intros acc; simpl; [lia|].
    rewrite IH, score_keyword_sum. lia. }
  now rewrite H.
Qed.

Lemma score_docs_spec (keywords : list string) (docs : list Document) :
  score_docs keywords docs =
  map (fun d => (d, spec_score keywords d))
    (List.filter (fun d => 0 <? spec_score keywords d) docs).
Proof.
  induction docs as [|d docs IH]; simpl; [reflexivity|].
  rewrite score_doc_spec, IH. now destruct (0 <? spec_score keywords d).
Qed.

Lemma every_char_app (P : ascii -> Prop) (a b : string) :
  every_char P (a +:+ b) <-> every_char P a /\ every_char P b.
Proof. induction a as [|c a IH]; simpl; [tauto | rewrite IH; tauto]. Qed.

Lemma split_from_tokens (P : ascii -> Prop) (s cur : string) :
  every_char P cur -> every_char (fun c => Py.isspace c = false -> P c) s ->
  Forall (fun k => Py.truthy k = true /\ every_char P k) (Py.split_from cur s).
Proof.
  revert cur; induction s as [|c s IH]; intros cur Hcur Hs; simpl.
  - destruct (Py.truthy cur) eqn:Ht; auto.
  - destruct Hs as [Hc Hs]. destruct (Py.isspace c) eqn:Hsp.
    + destruct (Py.truthy cur) eqn:Ht; [constructor; auto|]; now apply IH.
    + apply IH; [|assumption]. apply every_char_app. simpl. auto.
Qed.

Lemma every_char_lower (s : string) :
  every_char (fun c => Py.lower_char c = c) (Py.lower s).
Proof.
  induction s as [|c s IH]; simpl; [exact I|].
  split; [apply lower_char_idempotent | assumption].
Qed.

Lemma every_char_weaken (P Q : ascii -> Prop) (s : string) :
  (forall c, P c -> Q c) -> every_char P s -> every_char Q s.
Proof. intros H. induction s as [|c s IH]; simpl; [auto | intros []; auto]. Qed.

Lemma lower_fixed (s : string) :
  every_char (fun c => Py.lower_char c = c) s -> Py.lower s = s.
Proof.
  induction s as [|c s IH]; simpl; [reflexivity|].
  intros [Hc Hs]. now rewrite Hc, IH.
Qed.

Lemma split_lower_tokens (q : string) : Forall lower_token (Py.split (Py.lower q)).
Proof.
  unfold Py.split.
  pose proof (split_from_tokens
    (fun c => Py.isspace c = false /\ Py.lower_char c = c) (Py.lower q) EmptyString I) as H.
  eapply List.Forall_impl; [|apply H].
  - simpl. intros k (Ht & Hk). repeat split; [assumption| |].
    + eapply every_char_weaken; [|exact Hk]. simpl. tauto.
    + apply lower_fixed. eapply every_char_weaken; [|exact Hk]. simpl. tauto.
  - eapply every_char_weaken; [|apply every_char_lower]. simpl. auto.
Qed.

(** C2. [retrieve_context] splits the lowered query at white space into
    keywords, gives every corpus entry the score (occurrences of the
    keywords in the lowered body) + 2 x (occurrences in the lowered title),
    keeps the entries of positive score, orders them by decreasing score
    with ties in corpus order, and returns the first three at most; an
    entry whose body holds no keyword scores twice its title count. *)
Theorem retrieve_context_ranking (corpus : list Document) (q : string) :
  let keywords := Py.split (Py.lower q) in
  let score := spec_score keywords in
  let scored :=
    map (fun d => (d, score d)) (List.filter (fun d => 0 <? score d) corpus) in
  Forall lower_token keywords /\
  (forall d, occurrences keywords (Py.lower (page_content d)) = 0 ->
             score d = 2 * occurrences keywords (title_of d)) /\
  exists ranked : list (Document * nat),
    Permutation ranked scored /\
    descending snd ranked /\
    (forall s, with_key snd s ranked = with_key snd s scored) /\
    retrieve_context corpus q = map fst (firstn 3 ranked) /\
    length (retrieve_context corpus q) <= 3 /\
    (forall d, In d (retrieve_context corpus q) -> In d corpus /\ 0 < score d).
Proof.
  intros keywords score scored.
  split; [apply split_lower_tokens|].
  split; [intros d H; unfold score, spec_score; rewrite H; lia|].
  exists (sort_desc (key_ltb snd) scored).
  assert (Hret : retrieve_context corpus q =
                 map fst (firstn 3 (sort_desc (key_ltb snd) scored))).
  { unfold retrieve_context. destruct corpus as [|d0 corpus']; [reflexivity|].
    fold keywords. now rewrite score_docs_spec. }
  split; [apply sort_desc_perm|].
  split; [apply sort_desc_descending|].
  split; [intros s; apply sort_desc_stable|].
  split; [exact Hret|].
  split.
  - rewrite Hret, length_map, length_firstn. lia.
  - intros d Hd. rewrite Hret in Hd.
    apply in_map_iff in Hd as ([d' s] & <- & Hin). simpl.
    apply in_firstn in Hin.
    apply (Permutation_in _ (sort_desc_perm snd scored)) in Hin.
    unfold scored in Hin. apply in_map_iff in Hin as (d'' & Heq & Hf).
    injection Heq as <- <-.
    apply filter_In in Hf as [Hc Hpos].
    split; [assumption | now apply Nat.ltb_lt].
Qed.

(** ** Session store *)

Lemma uuid_str_truthy (n : N) : Py.truthy (uuid_str n) = true.
Proof. reflexivity. Qed.

Lemma truthy_not_empty (s : string) : Py.truthy s = true <-> s <> EmptyString.
Proof. destruct s; simpl; split; congruence. Qed.

Lemma has_session_spec (sid : string) (w : World) :
  has_session sid w = true <-> is_Some (sessions w !! sid).
Proof.
  unfold has_session. destruct (sessions w !! sid); split; intros H; auto.
  - discriminate.
  - now destruct H.
Qed.

(** [create_session] keeps the store free of the empty id. *)
Lemma create_session_store_ok (env : Env) (user_id : string) (o : option string)
    (w : World) :
  store_ok w -> store_ok (create_session env user_id o w).1.
Proof.
  unfold store_ok, create_session. intros Hok. run_monad.
  destruct (given o && has_session (default EmptyString o) w) eqn:Hg; simpl;
    [assumption|].
  destruct (given o) eqn:Ho; simpl.
  - destruct (has_session (default EmptyString o) w); simpl; [assumption|].
    rewrite lookup_insert_ne; [assumption|].
    destruct o as [sid|]; simpl in *; [|discriminate].
    now apply truthy_not_empty.
  - match goal with |- context [has_session ?s ?w'] => destruct (has_session s w') end;
      simpl; [assumption|].
    rewrite lookup_insert_ne; [assumption|].
    apply truthy_not_empty, uuid_str_truthy.
Qed.

(** Removing a session, as the HTTP layer does, keeps it so as well. *)
Lemma delete_session_store_ok (sid : string) (w : World) :
  store_ok w -> store_ok (set_sessions (delete sid) w).
Proof.
  unfold store_ok. simpl. intros H.
  destruct (decide (sid = EmptyString)) as [->|Hne];
    [apply lookup_delete_eq | now rewrite lookup_delete_ne].
Qed.

(** C10. On a store without the empty id, [create_session] called with an
    id the store holds returns that id and changes nothing: the stored
    session (owner, creation time, history) and the rest of the state
    are the same.  For any given non-empty id, held or not, a second call
    with the same arguments returns the same id and leaves the state the
    first call produced. *)
Theorem create_session_idempotent (env : Env) (user_id sid : string) (s : Session)
    (w : World) :
  store_ok w ->
  sessions w !! sid = Some s ->
  create_session env user_id (Some sid) w = (w, Ret sid) /\
  sessions (create_session env user_id (Some sid) w).1 !! sid = Some s /\
  (forall sid' w',
     Py.truthy sid' = true ->
     let once := create_session env user_id (Some sid') w' in
     create_session env user_id (Some sid') once.1 = (once.1, once.2) /\
     once.2 = Ret sid').
Proof.
  intros Hok Hs.
  assert (Hsid : Py.truthy sid = true).
  { apply truthy_not_empty. intros ->. unfold store_ok in Hok. congruence. }
  assert (Hhas : has_session sid w = true).
  { apply has_session_spec. now rewrite Hs. }
  assert (Hfirst : create_session env user_id (Some sid) w = (w, Ret sid)).
  { unfold create_session. run_monad. simpl. now rewrite Hsid, Hhas. }
  split; [exact Hfirst|]. split; [now rewrite Hfirst|].
  intros sid' w' Ht once.
  assert (Hheld : forall w1, has_session sid' w1 = true ->
            create_session env user_id (Some sid') w1 = (w1, Ret sid')).
  { intros w1 H1. unfold create_session. run_monad. simpl. now rewrite Ht, H1. }
  destruct (has_session sid' w') eqn:Hw'.
  - subst once. rewrite (Hheld w' Hw'). simpl. split; [now apply Hheld | reflexivity].
  - assert (Honce : once.2 = Ret sid' /\ has_session sid' once.1 = true).
    { subst once. unfold create_session. run_monad. simpl. rewrite Ht, Hw'. simpl.
      rewrite Hw'. simpl. split; [reflexivity|].
      unfold has_session. simpl. now rewrite lookup_insert_eq. }
    destruct Honce as [Hr Hh]. rewrite Hr. split; [now apply Hheld | reflexivity].
Qed.

(** The theorem on a store that holds the session [abc]. *)
Lemma create_session_idempotent_witness :
  create_session calm_env "7" (Some "abc") one_session_world
    = (one_session_world, Ret "abc") /\
  sessions (create_session calm_env "7" (Some "abc") one_session_world).1 !! "abc"
    = Some abc_session /\
  (forall sid' w',
     Py.truthy sid' = true ->
     let once := create_session calm_env "7" (Some sid') w' in
     create_session calm_env "7" (Some sid') once.1 = (once.1, once.2) /\
     once.2 = Ret sid').
Proof.
  apply (create_session_idempotent calm_env "7" "abc" abc_session one_session_world).
  - vm_compute. reflexivity.
  - vm_compute. reflexivity.
Defined.

(** ** Tool registry *)

(** Case analysis on the innermost scrutinee of the goal. *)
Ltac case_step :=
  match goal with
  | |- context [match ?x with _ => _ end] =>
      lazymatch x with
      | context [match _ with _ => _ end] => fail
      | _ => destruct x eqn:?
      end
  end.

Ltac cases := repeat (case_step; simpl).

(** C4, counterexample.  For an id no row carries, the result of
    [delete_student_tool] is the failure object, which has no [email_sent]
    field at all. *)
Lemma delete_unknown_has_no_email_sent :
  exists j,
    (delete_student_tool calm_env "STU999" campus_world).2 = Ret j /\
    json_get "success" j = Some (JBool false) /\
    json_get "email_sent" j = None /\
    json_get "email_sent" j <> Some (JBool false).
Proof.
  eexists. split; [vm_compute; reflexivity|].
  split; [reflexivity|]. split; [reflexivity | discriminate].
Qed.

(** C4, as the code has it.  For every id, [delete_student_tool] makes no
    call to the notification collaborator and returns an object; the
    object reports [email_sent: false] when the deletion succeeded, has no
    [email_sent] field otherwise, and so never reports [email_sent: true]. *)
Theorem delete_student_tool_sends_nothing (env : Env) (student_id : string) (w : World) :
  let out := delete_student_tool env student_id w in
  outbox out.1 = outbox w /\
  exists j, out.2 = Ret j /\
    (json_get "success" j = Some (JBool true) ->
       json_get "email_sent" j = Some (JBool false)) /\
    (json_get "success" j <> Some (JBool true) -> json_get "email_sent" j = None) /\
    json_get "email_sent" j <> Some (JBool true).
Proof.
  unfold delete_student_tool, get_student, delete_student. run_monad.
  cases; (split; [reflexivity|]); eexists; (split; [reflexivity|]); simpl;
    repeat split; intros; try reflexivity; try discriminate; try congruence.
Qed.

(** C5. When [add_student] succeeds, [add_student_tool] calls the email
    service exactly once (the welcome email) and its result has
    [success: true], whatever the service does.  When the student is
    found and [update_student] succeeds, [update_student_info] calls the
    service exactly once (the update notification) and its result has
    [success: true], whatever the service does. *)
Theorem notification_attempted_once (env : Env) :
  (forall name student_id department email w,
     (add_student env student_id name department email w).2 = Ret true ->
     let out := add_student_tool env name student_id department email w in
     outbox out.1 =
       outbox w ++ [send_welcome_email student_id email name department email] /\
     exists j, out.2 = Ret j /\ json_get "success" j = Some (JBool true)) /\
  (forall student_id field new_value s w,
     (get_student env student_id w).2 = Ret (Some s) ->
     (update_student env student_id field new_value
        (get_student env student_id w).1).2 = Ret true ->
     let out := update_student_info env student_id field new_value w in
     outbox out.1 =
       outbox w ++ [send_update_notification student_id (st_email s) (st_name s)
                      field (old_value_of s field) new_value] /\
     exists j, out.2 = Ret j /\ json_get "success" j = Some (JBool true)).
Proof.
  split.
  - intros name student_id department email w Hadd out. subst out.
    unfold add_student_tool. revert Hadd.
    unfold add_student. run_monad.
    cases; intros Hadd; try discriminate;
      (split; [reflexivity|]); eexists; (split; reflexivity).
  - intros student_id field new_value s w Hget Hupd out. subst out.
    unfold update_student_info. revert Hget Hupd.
    unfold get_student. run_monad.
    destruct (sqlite_fault env (tick w)); simpl; [discriminate|].
    intros Hget. injection Hget as Hget. rewrite Hget. revert Hget.
    unfold update_student. run_monad.
    cases; intros Hget Hupd; try discriminate;
      (split; [reflexivity|]); eexists; (split; reflexivity).
Qed.

(** The theorem with an email service that raises (welcome email) and
    with one that reports a failure (update notification). *)
Lemma notification_attempted_once_witness :
  (let out := add_student_tool mail_down_env "Noor" "STU011" "Physics" "noor@nust.edu.pk"
                campus_world in
   outbox out.1 =
     outbox campus_world
       ++ [send_welcome_email "STU011" "noor@nust.edu.pk" "Noor" "Physics" "noor@nust.edu.pk"] /\
   exists j, out.2 = Ret j /\ json_get "success" j = Some (JBool true)) /\
  (let out := update_student_info mail_failing_env "STU003" "department" "Physics"
                campus_world in
   outbox out.1 =
     outbox campus_world
       ++ [send_update_notification "STU003" "hassan.ali@nust.edu.pk" "Hassan Ali"
             "department" "Engineering" "Physics"] /\
   exists j, out.2 = Ret j /\ json_get "success" j = Some (JBool true)).
Proof.
  split.
  - apply (proj1 (notification_attempted_once mail_down_env)). vm_compute. reflexivity.
  - apply (proj2 (notification_attempted_once mail_failing_env)
             "STU003" "department" "Physics"
             (sample_student "STU003" "Hassan Ali" "Engineering" "hassan.ali@nust.edu.pk")
             campus_world).
    + vm_compute. reflexivity.
    + vm_compute. reflexivity.
Defined.

(** ** Analytics *)

Lemma dept_breakdown_lookup (rows : list Student) (d : string) :
  dept_breakdown rows !! d =
  if count_dept d rows =? 0 then None else Some (count_dept d rows).
Proof.
  unfold count_dept. induction rows as [|s rows IH]; simpl; [apply lookup_empty|].
  destruct (String.eqb_spec (st_department s) d) as [->|Hne]; simpl.
  - rewrite lookup_insert_eq, IH.
    now destruct (length (List.filter _ rows)).
  - now rewrite lookup_insert_ne.
Qed.




(** On the sample registry: ten students, two of them in Computer Science,
    nobody active. *)
Example analytics_of_sample_registry :
  exists a,
    (get_campus_analytics calm_env campus_world).2 = Ret a /\
    total_students a = 10 /\
    department_breakdown a !! "Computer Science" = Some 2 /\
    (activity_rate a == 0)%Q.
Proof.
  eexists. split; [vm_compute; reflexivity|].
  split; [reflexivity|]. split; [vm_compute; reflexivity | reflexivity].
Qed.

(** ** What a body leaves untouched *)

Lemma graph_run_step (env : Env) (fuel : nat) (n : node) (st : UnifiedAgentState) :
  n <> END ->
  graph_run env (S fuel) n st =
  bind (graph_step env n st) (fun next => graph_run env fuel next.1 next.2).
Proof. destruct n; intros H; [reflexivity.. | congruence]. Qed.

Lemma graph_run_end (env : Env) (fuel : nat) (st : UnifiedAgentState) :
  graph_run env fuel END st = ret st.
Proof. destruct fuel; reflexivity. Qed.

Lemma graph_run_out_of_fuel (env : Env) (n : node) (st : UnifiedAgentState) :
  n <> END -> graph_run env 0 n st = raise (recursion_error env).
Proof. destruct n; intros H; [reflexivity.. | congruence]. Qed.

Create HintDb frame.

Section Frame.

(** [proj] is a part of the world that none of the setters below writes. *)
Context {X : Type} (proj : World -> X).
Hypothesis proj_tick : forall f w, proj (set_tick f w) = proj w.
Hypothesis proj_students : forall f w, proj (set_students f w) = proj w.
Hypothesis proj_logs : forall f w, proj (set_activity_logs f w) = proj w.
Hypothesis proj_outbox : forall f w, proj (set_outbox f w) = proj w.
Hypothesis proj_search : forall f w, proj (set_search_log f w) = proj w.

Lemma keeps_ret {A : Type} (a : A) : keeps proj (ret a).
Proof. intros w. reflexivity. Qed.

Lemma keeps_raise {A : Type} (e : string) : keeps proj (@raise A e).
Proof. intros w. reflexivity. Qed.

Lemma keeps_get : keeps proj get.
Proof. intros w. reflexivity. Qed.

Lemma keeps_bind {A B : Type} (m : M A) (k : A -> M B) :
  keeps proj m -> (forall a, keeps proj (k a)) -> keeps proj (bind m k).
Proof.
  intros Hm Hk w. unfold bind. specialize (Hm w).
  destruct (m w) as [w' [a|e]]; simpl in *; [|assumption].
  now rewrite Hk.
Qed.

Lemma keeps_try_catch {A : Type} (m : M A) (h : string -> M A) :
  keeps proj m -> (forall e, keeps proj (h e)) -> keeps proj (try_catch m h).
Proof.
  intros Hm Hh w. unfold try_catch. specialize (Hm w).
  destruct (m w) as [w' [a|e]]; simpl in *; [assumption|].
  now rewrite Hh.
Qed.

Lemma keeps_modify (f : World -> World) :
  (forall w, proj (f w) = proj w) -> keeps proj (modify f).
Proof. intros H w. apply H. Qed.

Lemma keeps_oracle {A : Type} (f : nat -> A) : keeps proj (oracle f).
Proof. intros w. apply proj_tick. Qed.

Lemma keeps_lift_result {A : Type} (r : result A) : keeps proj (lift_result r).
Proof. destruct r; [apply keeps_ret | apply keeps_raise]. Qed.

(** Decomposing a body along its structure. *)
Ltac frame_step :=
  first
    [ apply keeps_ret | apply keeps_raise | apply keeps_get
    | apply keeps_oracle | apply keeps_lift_result
    | apply keeps_modify; intros ?; solve [auto]
    | apply keeps_bind; [|intros ?]
    | apply keeps_try_catch; [|intros ?]
    | assumption
    | match goal with
      | |- keeps _ (match ?x with _ => _ end) => destruct x
      | |- keeps _ (let _ := _ in _) => cbv zeta
      end ].

Ltac frame := repeat frame_step.

Variable env : Env.

Lemma keeps_now : keeps proj (now env).
Proof. apply keeps_oracle. Qed.

Lemma keeps_uuid4 : keeps proj (uuid4 env).
Proof. unfold uuid4. frame. Qed.

Lemma keeps_sqlite3_connect : keeps proj (sqlite3_connect env).
Proof. unfold sqlite3_connect. frame. Qed.

Lemma keeps_notify (call : Notification) : keeps proj (notify env call).
Proof. unfold notify. frame. Qed.

Hint Resolve keeps_now keeps_uuid4 keeps_sqlite3_connect keeps_notify : frame.

Lemma keeps_add_student (a b c d : string) : keeps proj (add_student env a b c d).
Proof. unfold add_student. frame; auto with frame. Qed.

Lemma keeps_get_student (a : string) : keeps proj (get_student env a).
Proof. unfold get_student. frame; auto with frame. Qed.

Lemma keeps_update_student (a b c : string) : keeps proj (update_student env a b c).
Proof. unfold update_student. frame; auto with frame. Qed.

Lemma keeps_delete_student (a : string) : keeps proj (delete_student env a).
Proof. unfold delete_student. frame; auto with frame. Qed.

Lemma keeps_list_students : keeps proj (list_students env).
Proof. unfold list_students. frame; auto with frame. Qed.

Lemma keeps_get_campus_analytics : keeps proj (get_campus_analytics env).
Proof. unfold get_campus_analytics. frame; auto with frame. Qed.

Hint Resolve keeps_add_student keeps_get_student keeps_update_student
  keeps_delete_student keeps_list_students keeps_get_campus_analytics : frame.

Lemma keeps_tools :
  Forall (fun t => forall args, keeps proj (t.2 args)) (tools env).
Proof.
  unfold tools.
  repeat constructor; intros args; simpl;
    unfold add_student_tool, get_student_info, update_student_info,
      delete_student_tool, list_all_students, get_campus_analytics_tool, arg;
    frame; auto with frame.
Qed.

Lemma keeps_call_tool (tc : tool_call) : keeps proj (call_tool env tc).
Proof.
  unfold call_tool. apply keeps_try_catch; [|intros e; apply keeps_ret].
  destruct (List.find _ (tools env)) as [t|] eqn:Hfind; [|apply keeps_ret].
  apply find_some in Hfind as [Hin _].
  pose proof keeps_tools as Htools. rewrite List.Forall_forall in Htools.
  apply keeps_bind; [now apply Htools | intros r; apply keeps_ret].
Qed.

Lemma keeps_call_tools_loop (calls : list tool_call) : keeps proj (call_tools_loop env calls).
Proof.
  induction calls as [|tc calls IH]; simpl; [apply keeps_ret|].
  apply keeps_bind; [apply keeps_call_tool|]. intros r.
  apply keeps_bind; [exact IH|]. intros r'. apply keeps_ret.
Qed.

Lemma keeps_search (q : string) (n : nat) : keeps proj (search env q n).
Proof. unfold search, ddgs_text_call. frame; auto with frame. Qed.

Lemma keeps_call_model (st : UnifiedAgentState) : keeps proj (call_model env st).
Proof. unfold call_model. frame. Qed.

Lemma keeps_handle_nust_query (st : UnifiedAgentState) : keeps proj (handle_nust_query env st).
Proof.
  unfold handle_nust_query. apply keeps_bind; [apply keeps_search|]. intros r.
  frame.
Qed.

Lemma keeps_graph_step (n : node) (st : UnifiedAgentState) : keeps proj (graph_step env n st).
Proof.
  destruct n; simpl; try apply keeps_ret.
  - apply keeps_bind; [apply keeps_handle_nust_query | intros; apply keeps_ret].
  - apply keeps_bind; [apply keeps_call_model | intros; apply keeps_ret].
  - apply keeps_bind; [apply keeps_call_tools_loop | intros; apply keeps_ret].
Qed.

Lemma keeps_graph_run (fuel : nat) (n : node) (st : UnifiedAgentState) :
  keeps proj (graph_run env fuel n st).
Proof.
  revert n st; induction fuel as [|fuel IH]; intros n st;
    (destruct (decide (n = END)) as [->|Hn];
     [rewrite graph_run_end; apply keeps_ret|]).
  - rewrite graph_run_out_of_fuel by assumption. apply keeps_raise.
  - rewrite graph_run_step by assumption.
    apply keeps_bind; [apply keeps_graph_step | intros next; apply IH].
Qed.

Lemma keeps_graph_invoke (message : string) : keeps proj (graph_invoke env message).
Proof. apply keeps_graph_run. Qed.

End Frame.

(** ** The entry points: how a turn runs *)

Lemma try_catch_ret {A : Type} (m : M A) (h : string -> M A) (w w' : World) (a : A) :
  m w = (w', Ret a) -> try_catch m h w = (w', Ret a).
Proof. intros H. unfold try_catch. now rewrite H. Qed.

Lemma try_catch_raise {A : Type} (m : M A) (h : string -> M A) (w w' : World) (e : string) :
  m w = (w', Raise e) -> try_catch m h w = h e w'.
Proof. intros H. unfold try_catch. now rewrite H. Qed.

(** A [try] whose handler always returns always returns. *)
Lemma try_catch_returns {A : Type} (m : M A) (h : string -> M A) :
  (forall e w, exists a, (h e w).2 = Ret a) ->
  forall w, exists a, (try_catch m h w).2 = Ret a.
Proof.
  intros Hh w. unfold try_catch. destruct (m w) as [w' [a|e]]; [now exists a | apply Hh].
Qed.

Lemma or_uuid4_spec (env : Env) (o : option string) (w : World) :
  exists w0 sid,
    or_uuid4 env o w = (w0, Ret sid) /\
    Py.truthy sid = true /\
    sessions w0 = sessions w /\ yielded w0 = yielded w /\
    tick w0 = tick w + (if given o then 0 else 1) /\
    (given o = true -> sid = default EmptyString o /\ w0 = w).
Proof.
  unfold or_uuid4. destruct (given o) eqn:Hg.
  - exists w, (default EmptyString o). repeat split; auto.
    destruct o; simpl in *; congruence.
  - run_monad. eexists _, _. split; [reflexivity|].
    repeat split; try discriminate. simpl. lia.
Qed.

Lemma open_session_spec (env : Env) (sid : string) (w : World) :
  Py.truthy sid = true ->
  exists w1 s1,
    open_session env sid w = (w1, Ret tt) /\
    sessions w1 = <[sid := s1]> (sessions w) /\
    s_conversation_history s1 = history_of w sid /\
    s_last_activity s1 = clock env (tick w + (if has_session sid w then 0 else 1)) /\
    (forall s, sessions w !! sid = Some s ->
       s_user_id s1 = s_user_id s /\ s_created_at s1 = s_created_at s) /\
    yielded w1 = yielded w.
Proof.
  intros Ht. unfold open_session, create_session, history_of, has_session.
  run_monad. simpl. unfold has_session.
  destruct (sessions w !! sid) as [s|] eqn:Hs; simpl.
  - rewrite !Hs.
    eexists _, (set_last_activity (clock env (tick w)) s).
    split; [reflexivity|]. simpl. rewrite ?Hs.
    rewrite Nat.add_0_r. repeat split; intros; simplify_eq; auto.
  - rewrite Ht. simpl. rewrite !Hs. simpl. rewrite !lookup_insert_eq.
    eexists _, (set_last_activity (clock env (S (tick w)))
                  {| s_session_id := sid; s_user_id := "default_user";
                     s_created_at := clock env (tick w);
                     s_last_activity := clock env (tick w);
                     s_conversation_history := [] |}).
    split; [reflexivity|]. simpl. rewrite ?lookup_insert_eq.
    rewrite insert_insert_eq, Nat.add_1_r.
    repeat split; intros; simplify_eq; auto.
Qed.

Lemma activity_tick_eq (env : Env) (o : option string) (sid : string) (w w0 : World) :
  sessions w0 = sessions w ->
  tick w0 = tick w + (if given o then 0 else 1) ->
  clock env (tick w0 + (if has_session sid w0 then 0 else 1)) =
  clock env (activity_tick o sid w).
Proof.
  intros Hs Ht. unfold activity_tick, has_session. now rewrite Hs, Ht.
Qed.

Lemma entry_spec (env : Env) (o : option string) (w : World) :
  exists w1 sid s1,
    entry env o w = (w1, Ret sid) /\
    Py.truthy sid = true /\
    (given o = true -> sid = default EmptyString o) /\
    sessions w1 = <[sid := s1]> (sessions w) /\
    s_conversation_history s1 = history_of w sid /\
    s_last_activity s1 = clock env (activity_tick o sid w) /\
    (forall s, sessions w !! sid = Some s ->
       s_user_id s1 = s_user_id s /\ s_created_at s1 = s_created_at s) /\
    yielded w1 = yielded w.
Proof.
  destruct (or_uuid4_spec env o w) as (w0 & sid & Hor & Ht & Hs0 & Hy0 & Htick & Hg).
  destruct (open_session_spec env sid w0 Ht) as (w1 & s1 & Hop & Hs1 & Hh & Hl & Hu & Hy1).
  exists w1, sid, s1. unfold entry.
  rewrite (bind_eq _ _ _ _ _ Hor), (bind_eq _ _ _ _ _ Hop).
  split; [reflexivity|]. split; [assumption|].
  split; [intros H; now apply Hg|].
  split; [now rewrite Hs1, Hs0|].
  split; [rewrite Hh; unfold history_of; now rewrite Hs0|].
  split; [rewrite Hl; now apply activity_tick_eq|].
  split; [rewrite <- Hs0; exact Hu | congruence].
Qed.

(** How [chat] runs: the session is opened, the graph invoked; when the
    graph returns the two entries are appended, when it raises the handler
    answers and the history stays as it was. *)
Lemma chat_run (env : Env) (message : string) (o : option string) (w : World) :
  exists w1 sid s1,
    entry env o w = (w1, Ret sid) /\
    sessions w1 = <[sid := s1]> (sessions w) /\
    s_conversation_history s1 = history_of w sid /\
    s_last_activity s1 = clock env (activity_tick o sid w) /\
    (given o = true -> sid = default EmptyString o) /\
    match graph_invoke env message w1 with
    | (w2, Ret st) =>
        exists w' t1 t2 t3,
          chat env message o w =
            (w', Ret {| cr_response := final_response st; cr_session_id := sid;
                        cr_timestamp := t3 |}) /\
          sessions w' =
            <[sid := extend_history
                       [user_entry message t1; assistant_entry (final_response st) t2] s1]>
              (sessions w)
    | (w2, Raise e) =>
        exists w' t,
          chat env message o w =
            (w', Ret {| cr_response := chat_apology +:+ e; cr_session_id := sid;
                        cr_timestamp := t |}) /\
          sessions w' = <[sid := s1]> (sessions w)
    end.
Proof.
  destruct (or_uuid4_spec env o w) as (w0 & sid & Hor & Ht & Hs0 & Hy0 & Htick & Hg).
  destruct (open_session_spec env sid w0 Ht) as (w1 & s1 & Hop & Hs1 & Hh & Hl & Hu & Hy1).
  exists w1, sid, s1. unfold entry.
  rewrite (bind_eq _ _ _ _ _ Hor), (bind_eq _ _ _ _ _ Hop).
  split; [reflexivity|].
  assert (Hs1' : sessions w1 = <[sid := s1]> (sessions w)) by now rewrite Hs1, Hs0.
  split; [assumption|].
  split; [rewrite Hh; unfold history_of; now rewrite Hs0|].
  split; [rewrite Hl; now apply activity_tick_eq|].
  split; [intros H; now apply Hg|].
  pose proof (keeps_graph_invoke sessions
                (fun _ _ => eq_refl) (fun _ _ => eq_refl) (fun _ _ => eq_refl)
                (fun _ _ => eq_refl) (fun _ _ => eq_refl) env message w1) as Hkeep.
  unfold chat. rewrite (bind_eq _ _ _ _ _ Hor).
  destruct (graph_invoke env message w1) as [w2 [st|e]] eqn:Hgraph; simpl in Hkeep.
  - assert (Hlook : sessions w2 !! sid = Some s1).
    { rewrite Hkeep, Hs1'. apply lookup_insert_eq. }
    eexists _, _, _, _. split.
    + apply try_catch_ret. rewrite (bind_eq _ _ _ _ _ Hop), (bind_eq _ _ _ _ _ Hgraph).
      run_monad. simpl. rewrite Hlook. simpl. rewrite ?Hlook. reflexivity.
    + simpl. rewrite Hlook, Hkeep, Hs1'. now rewrite insert_insert_eq.
  - eexists _, _. split.
    + erewrite try_catch_raise;
        [|rewrite (bind_eq _ _ _ _ _ Hop); apply bind_raise; exact Hgraph].
      unfold or_uuid4. simpl. rewrite Ht. run_monad. reflexivity.
    + simpl. now rewrite Hkeep.
Qed.

(** ** [chat] never raises *)

Lemma search_returns (env : Env) (q : string) (n : nat) (w : World) :
  exists rs, (search env q n w).2 = Ret rs.
Proof.
  unfold search. destruct (ddgs_available env); simpl; [|eexists; reflexivity].
  apply try_catch_returns. intros e w'. eexists; reflexivity.
Qed.



Lemma call_tool_spec (env : Env) (tc : tool_call) (w : World) :
  exists msgs,
    (call_tool env tc w).2 = Ret msgs /\
    (forall t e,
       List.find (fun t => String.eqb t.1 (tc_name tc)) (tools env) = Some t ->
       (t.2 (tc_args tc) w).2 = Raise e ->
       msgs = [ToolMessage (Text ("Error executing " +:+ tc_name tc +:+ ": " +:+ e))
                 (tc_id tc)]).
Proof.
  unfold call_tool, try_catch.
  destruct (List.find _ (tools env)) as [t|] eqn:Hfind.
  - unfold bind. destruct (t.2 (tc_args tc) w) as [w' [j|e]] eqn:Hrun; simpl.
    + eexists. split; [reflexivity|]. intros t' e' [= <-] H'.
      rewrite Hrun in H'. discriminate.
    + eexists. split; [reflexivity|]. intros t' e' [= <-] H'.
      rewrite Hrun in H'. simpl in H'. now injection H' as ->.
  - eexists. split; [reflexivity|]. discriminate.
Qed.



(** With an LLM that is down, and with an LLM that never stops asking for
    tools, [chat] answers with an apology. *)
Example chat_llm_down :
  response_of (chat llm_down_env "list students" None empty_world) =
  Some "I encountered an error: 429 quota exceeded".
Proof. vm_compute. reflexivity. Qed.

Example chat_llm_looping :
  response_of (chat llm_looping_env "list students" None empty_world) =
  Some "I encountered an error while processing your request: Recursion limit of 25 reached".
Proof. vm_compute. reflexivity. Qed.

(** ** Streams: from the shape of a stream to its properties *)

Section ListFacts.

Context {A B : Type}.


Lemma strongly_sorted_snoc_below (a : list nat) (x : nat) :
  StronglySorted lt (a ++ [x]) -> List.Forall (fun k => k < x) a.
Proof.
  induction a as [|y a IH]; simpl; intros H; [constructor|].
  inversion H as [|? ? Ha Hy]; subst.
  constructor; [|now apply IH].
  rewrite List.Forall_forall in Hy. apply Hy, in_or_app. right. now left.
Qed.

Lemma forall2_transfer (R : A -> B -> Prop) (P : A -> Prop) (Q : B -> Prop)
    (ks : list A) (l : list B) :
  (forall k s, P k -> R k s -> Q s) ->
  Forall2 R ks l -> List.Forall P ks -> List.Forall Q l.
Proof.
  intros H HR. induction HR as [|k s ks l Hks _ IH]; intros HP; [constructor|].
  inversion HP; subst. constructor; eauto.
Qed.


Lemma forall2_snoc_inv (R : A -> B -> Prop) (ks : list A) (k : A) (l : list B) :
  Forall2 R (ks ++ [k]) l ->
  exists init final, l = init ++ [final] /\ Forall2 R ks init /\ R k final.
Proof.
  revert l; induction ks as [|k0 ks IH]; simpl; intros l H.
  - inversion H as [|? s ? l' Hk Hl]; subst. inversion Hl; subst.
    exists [], s. repeat split; [constructor | assumption].
  - inversion H as [|? s ? l' Hk Hl]; subst.
    destruct (IH _ Hl) as (init & final & -> & Hinit & Hfinal).
    exists (s :: init), final. repeat split; [now constructor | assumption].
Qed.

End ListFacts.

Lemma pos_of_nat_Z (n : nat) : 0 < n -> Z.pos (Pos.of_nat n) = Z.of_nat n.
Proof.
  intros H. destruct n as [|n]; [lia|].
  rewrite <- Pos.of_nat_succ, Zpos_P_of_succ_nat. lia.
Qed.

Lemma percent_mono (total k1 k2 : nat) :
  k1 <= k2 -> (percent k1 total <= percent k2 total)%Q.
Proof.
  intros H. unfold percent, Qle, Qmult. simpl.
  apply Z.mul_le_mono_nonneg_r; [lia|]. apply Z.mul_le_mono_nonneg_r; lia.
Qed.

Lemma percent_last (total : nat) : 0 < total -> (percent (total - 1) total == 100)%Q.
Proof.
  intros H. unfold percent, Qeq, Qmult. simpl.
  rewrite Pos.mul_1_r, (pos_of_nat_Z total H). lia.
Qed.

Lemma percent_le_100 (total k : nat) : k < total -> (percent k total <= 100)%Q.
Proof.
  intros H. rewrite <- (percent_last total) by lia. apply percent_mono. lia.
Qed.


(** A replay that reaches the last unit is a terminated stream. *)
Lemma replay_terminated (total : nat) (err : option bool) (ks : list nat)
    (l : list Snapshot) :
  0 < total -> indices 0 total total ks -> Forall2 (replayed total err) ks l ->
  exists init final,
    l = init ++ [final] /\ List.Forall open_snapshot init /\ closing_snapshot final /\
    sn_error final = err.
Proof.
  intros Htotal (Hsorted & Hrange & Hlast) HR.
  specialize (Hlast Htotal eq_refl).
  apply last_Some in Hlast as [ks' ->].
  apply forall2_snoc_inv in HR as (init & final & -> & Hinit & Hfinal).
  exists init, final. split; [reflexivity|].
  split; [|split].
  - eapply forall2_transfer; [|exact Hinit|exact (strongly_sorted_snoc_below _ _ Hsorted)].
    intros k s Hk (Hp & Hc & _). simpl in Hk. split.
    + rewrite Hc. intros [= Heq]. apply Nat.eqb_eq in Heq. lia.
    + rewrite Hp. apply percent_le_100. lia.
  - destruct Hfinal as (Hp & Hc & _). split.
    + now rewrite Hc, Nat.eqb_refl.
    + rewrite Hp. now apply percent_last.
  - now destruct Hfinal as (_ & _ & He & _).
Qed.



Lemma indices_nil (i total : nat) : indices i 0 total [].
Proof. repeat split; [constructor | constructor | lia]. Qed.

Lemma indices_range_empty (i total : nat) (ks : list nat) :
  indices i 0 total ks -> ks = [].
Proof.
  intros (_ & Hrange & _). destruct ks as [|k ks]; [reflexivity|].
  inversion Hrange; subst. lia.
Qed.

Lemma indices_cons (i n total : nat) (ks : list nat) :
  indices (S i) n total ks -> indices i (S n) total (i :: ks).
Proof.
  intros (Hsorted & Hrange & Hlast). repeat split.
  - constructor; [assumption|].
    eapply List.Forall_impl; [|exact Hrange]. simpl. lia.
  - constructor; [lia|].
    eapply List.Forall_impl; [|exact Hrange]. simpl. lia.
  - intros _ Htotal. destruct n as [|n].
    + rewrite (indices_range_empty (S i) total ks) by (repeat split; assumption).
      simpl. f_equal. lia.
    + specialize (Hlast ltac:(lia) ltac:(lia)).
      destruct ks as [|k ks]; [discriminate | exact Hlast].
Qed.

Lemma indices_skip (i n total : nat) (ks : list nat) :
  indices (S i) n total ks -> (i =? total - 1) = false -> 0 < total ->
  indices i (S n) total ks.
Proof.
  intros (Hsorted & Hrange & Hlast) Hi Htotal. apply Nat.eqb_neq in Hi. repeat split.
  - assumption.
  - eapply List.Forall_impl; [|exact Hrange]. simpl. lia.
  - intros _ Hsum. apply Hlast; lia.
Qed.

Lemma chars_length (s : string) : length (Py.chars s) = Py.len s.
Proof. unfold Py.chars, Py.len. induction s; simpl; congruence. Qed.

Section Loops.

Variable env : Env.

Lemma word_loop_emits (sid : string) (words : list string) (total i : nat)
    (current_text : string) (w : World) :
  exists w' ks l,
    word_loop env sid total i current_text words w = (w', Ret tt) /\
    yielded w' = yielded w ++ l /\ sessions w' = sessions w /\
    indices i (length words) total ks /\ Forall2 (replayed total None) ks l.
Proof.
  revert i current_text w; induction words as [|word rest IH]; intros i cur w.
  - exists w, [], []. simpl. rewrite app_nil_r.
    do 3 (split; [reflexivity|]). split; [apply indices_nil | constructor].
  - simpl. run_monad.
    match goal with |- context [word_loop env sid total (S i) ?c rest ?w1] =>
      destruct (IH (S i) c w1) as (w' & ks & l & Hrun & Hy & Hs & Hidx & HR)
    end.
    rewrite Hrun. eexists w', (i :: ks), (_ :: l).
    split; [reflexivity|]. simpl in Hy, Hs.
    split; [rewrite Hy, <- app_assoc; reflexivity|].
    split; [exact Hs|]. split; [now apply indices_cons|].
    constructor; [|exact HR]. repeat split.
Qed.

Lemma error_loop_emits (sid : M string) (id : string) (text : string)
    (rest : list ascii) (total i : nat) (w : World) :
  (forall w0, sid w0 = (w0, Ret id)) ->
  exists w' ks l,
    error_loop env sid text total i rest w = (w', Ret tt) /\
    yielded w' = yielded w ++ l /\ sessions w' = sessions w /\
    indices i (length rest) total ks /\ Forall2 (replayed total (Some true)) ks l.
Proof.
  intros Hsid. revert i w; induction rest as [|c rest IH]; intros i w.
  - exists w, [], []. simpl. rewrite app_nil_r.
    do 3 (split; [reflexivity|]). split; [apply indices_nil | constructor].
  - simpl. rewrite (bind_eq _ _ _ _ _ (Hsid w)). run_monad.
    match goal with |- context [error_loop env sid text total (S i) rest ?w1] =>
      destruct (IH (S i) w1) as (w' & ks & l & Hrun & Hy & Hs & Hidx & HR)
    end.
    rewrite Hrun. eexists w', (i :: ks), (_ :: l).
    split; [reflexivity|]. simpl in Hy, Hs.
    split; [rewrite Hy, <- app_assoc; reflexivity|].
    split; [exact Hs|]. split; [now apply indices_cons|].
    constructor; [|exact HR]. repeat split.
Qed.

Lemma char_loop_emits (sid : string) (rest : list ascii) (total i : nat)
    (current_text : string) (w : World) :
  0 < total ->
  exists w' ks l,
    char_loop env sid total i current_text rest w = (w', Ret tt) /\
    yielded w' = yielded w ++ l /\ sessions w' = sessions w /\
    indices i (length rest) total ks /\ Forall2 (replayed total None) ks l.
Proof.
  intros Htotal. revert i current_text w; induction rest as [|c rest IH]; intros i cur w.
  - exists w, [], []. simpl. rewrite app_nil_r.
    do 3 (split; [reflexivity|]). split; [apply indices_nil | constructor].
  - simpl.
    match goal with |- context [if ?b then _ else _] => destruct b eqn:Hcond end.
    + run_monad.
      match goal with |- context [char_loop env sid total (S i) ?t rest ?w1] =>
        destruct (IH (S i) t w1) as (w' & ks & l & Hrun & Hy & Hs & Hidx & HR)
      end.
      rewrite Hrun. eexists w', (i :: ks), (_ :: l).
      split; [reflexivity|]. simpl in Hy, Hs.
      split; [rewrite Hy, <- app_assoc; reflexivity|].
      split; [exact Hs|]. split; [now apply indices_cons|].
      constructor; [|exact HR]. repeat split.
    + run_monad.
      match goal with |- context [char_loop env sid total (S i) ?t rest ?w1] =>
        destruct (IH (S i) t w1) as (w' & ks & l & Hrun & Hy & Hs & Hidx & HR)
      end.
      rewrite Hrun. exists w', ks, l.
      split; [reflexivity|]. split; [exact Hy|]. split; [exact Hs|].
      split; [|exact HR].
      apply indices_skip; [assumption | | assumption].
      apply orb_false_iff in Hcond as [_ Hcond]. exact Hcond.
Qed.

Lemma astream_loop_emits (sid : string) (fragments_left : list string)
    (failure : option string) (full_content : string) (chunk_count : nat) (w : World) :
  exists w' cs l r,
    astream_loop env sid full_content chunk_count fragments_left failure w = (w', r) /\
    yielded w' = yielded w ++ l /\ sessions w' = sessions w /\
    fragments chunk_count cs l /\
    match failure with
    | Some e => r = Raise e
    | None => exists c, r = Ret c
    end.
Proof.
  revert full_content chunk_count w;
    induction fragments_left as [|chunk rest IH]; intros full count w.
  - exists w, [], []. simpl. destruct failure as [e|]; eexists;
      (split; [reflexivity|]); rewrite app_nil_r;
      do 2 (split; [reflexivity|]);
      (split; [split; [constructor | split; constructor] | eauto]).
  - simpl. destruct (Py.truthy chunk).
    + run_monad.
      match goal with |- context [astream_loop env sid ?f ?c rest failure ?w1] =>
        destruct (IH f c w1) as (w' & cs & l & r & Hrun & Hy & Hs & (HR & Hsorted & Hc) & Hr)
      end.
      rewrite Hrun. eexists w', ((count + 1) :: cs), (_ :: l), r.
      split; [reflexivity|]. simpl in Hy, Hs.
      split; [rewrite Hy, <- app_assoc; reflexivity|].
      split; [exact Hs|]. split; [|exact Hr].
      split; [|split].
      * constructor; [|exact HR]. repeat split.
      * constructor; [assumption|].
        eapply List.Forall_impl; [|exact Hc]. simpl. lia.
      * constructor; [lia|].
        eapply List.Forall_impl; [|exact Hc]. simpl. lia.
    + apply IH.
Qed.

(** An error message is never empty, so its replay is a terminated stream. *)
Lemma stream_error_emits (sid : M string) (id prefix e : string) (w : World) :
  (forall w0, sid w0 = (w0, Ret id)) ->
  Py.truthy prefix = true ->
  exists w' total ks l,
    stream_error env sid (prefix +:+ e) w = (w', Ret tt) /\
    yielded w' = yielded w ++ l /\ sessions w' = sessions w /\
    0 < total /\ indices 0 total total ks /\
    Forall2 (replayed total (Some true)) ks l.
Proof.
  intros Hsid Hp. unfold stream_error.
  destruct (error_loop_emits sid id (prefix +:+ e) (Py.chars (prefix +:+ e))
              (Py.len (prefix +:+ e)) 0 w Hsid)
    as (w' & ks & l & Hrun & Hy & Hs & Hidx & HR).
  exists w', (Py.len (prefix +:+ e)), ks, l.
  rewrite chars_length in Hidx.
  do 3 (split; [assumption|]).
  split; [destruct prefix; [discriminate | simpl; lia]|].
  split; assumption.
Qed.

End Loops.

Section Streams.

Variable env : Env.

Lemma bind_oracle {A B : Type} (f : nat -> A) (k : A -> M B) (w : World) :
  bind (oracle f) k w = k (f (tick w)) (set_tick S w).
Proof. reflexivity. Qed.

Lemma bind_yield {B : Type} (s : Snapshot) (k : unit -> M B) (w : World) :
  bind (yield s) k w = k tt (set_yielded (fun out => out ++ [s]) w).
Proof. reflexivity. Qed.

Lemma session_at_some (sid : string) (s : Session) (w : World) :
  sessions w !! sid = Some s -> session_at sid w = (w, Ret s).
Proof. intros H. unfold session_at. run_monad. now rewrite H. Qed.

Lemma session_at_none (sid : string) (w : World) :
  sessions w !! sid = None -> session_at sid w = (w, Raise (key_error sid)).
Proof. intros H. unfold session_at. run_monad. now rewrite H. Qed.

Lemma graph_invoke_frame (message : string) (w : World) :
  yielded (graph_invoke env message w).1 = yielded w /\
  sessions (graph_invoke env message w).1 = sessions w.
Proof.
  split.
  - apply (keeps_graph_invoke yielded); intros; reflexivity.
  - apply (keeps_graph_invoke sessions); intros; reflexivity.
Qed.

Lemma fragments_none (count : nat) : fragments count [] [].
Proof. split; [constructor | split; constructor]. Qed.

(** The replay of an error message, as a stream after the fragments [a]. *)
Lemma error_stream_shape (cs : list nat) (a : list Snapshot) (sid : M string)
    (id prefix e : string) (w : World) :
  (forall w0, sid w0 = (w0, Ret id)) ->
  Py.truthy prefix = true ->
  fragments 0 cs a ->
  exists w' b,
    stream_error env sid (prefix +:+ e) w = (w', Ret tt) /\
    yielded w' = yielded w ++ b /\ sessions w' = sessions w /\
    stream_shape (a ++ b) /\ List.Exists reports_error (a ++ b).
Proof.
  intros Hsid Hp Ha.
  destruct (stream_error_emits env sid id prefix e w Hsid Hp)
    as (w' & total & ks & b & Hrun & Hy & Hs & Htotal & Hidx & HR).
  exists w', b. do 3 (split; [assumption|]).
  split; [now apply (shape_error cs a total ks b)|].
  destruct (replay_terminated total (Some true) ks b Htotal Hidx HR)
    as (init & final & -> & _ & _ & Herr).
  apply List.Exists_exists. exists final. split; [|exact Herr].
  apply in_or_app. right. apply in_or_app. right. now left.
Qed.

(** A replay loop that ran over a whole text produced a silent stream or
    a replay. *)
Lemma replay_shape (total : nat) (ks : list nat) (l : list Snapshot) :
  indices 0 total total ks -> Forall2 (replayed total None) ks l -> stream_shape l.
Proof.
  intros Hidx HR. destruct total as [|n].
  - rewrite (indices_range_empty 0 0 ks Hidx) in HR. inversion HR. constructor.
  - apply (shape_replay (S n) ks l); [lia | assumption | assumption].
Qed.

Lemma stream_admin_spec (sid message : string) (w : World) :
  exists w' c l,
    stream_admin env sid message w = (w', Ret c) /\
    yielded w' = yielded w ++ l /\ sessions w' = sessions w /\ stream_shape l /\
    (forall e, (graph_invoke env message w).2 = Raise e -> List.Exists reports_error l).
Proof.
  unfold stream_admin.
  destruct (graph_invoke_frame message w) as [Hy0 Hs0].
  destruct (graph_invoke env message w) as [w1 [st|e]] eqn:Hg; simpl in Hy0, Hs0.
  - destruct (word_loop_emits env sid (Py.split (final_response st))
                (length (Py.split (final_response st))) 0 EmptyString w1)
      as (w' & ks & l & Hrun & Hy & Hs & Hidx & HR).
    exists w', (final_response st), l. split.
    + apply try_catch_ret. rewrite (bind_eq _ _ _ _ _ Hg). cbv zeta.
      now rewrite (bind_eq _ _ _ _ _ Hrun).
    + split; [congruence|]. split; [congruence|].
      split; [eapply replay_shape; eassumption | discriminate].
  - destruct (error_stream_shape [] [] (ret sid) sid
                "I encountered an error while processing your request: " e w1)
      as (w' & b & Hrun & Hy & Hs & Hshape & Herr);
      [reflexivity | reflexivity | apply fragments_none |].
    exists w', ("I encountered an error while processing your request: " +:+ e), b.
    split.
    + erewrite try_catch_raise by (apply bind_raise; exact Hg). cbv zeta.
      now rewrite (bind_eq _ _ _ _ _ Hrun).
    + split; [congruence|]. split; [congruence|]. split; [exact Hshape|].
      intros _ _. exact Herr.
Qed.

Lemma stream_general_spec (sid message : string) (w : World) :
  exists w' c l,
    stream_general env sid message w = (w', Ret c) /\
    yielded w' = yielded w ++ l /\ sessions w' = sessions w /\ stream_shape l /\
    (forall s, sessions w !! sid = Some s -> llm_fails env message s w ->
               List.Exists reports_error l).
Proof.
  unfold stream_general. cbv zeta.
  destruct (sessions w !! sid) as [s|] eqn:Hlook.
  2: { destruct (error_stream_shape [] [] (ret sid) sid apology (key_error sid) w)
         as (w' & b & Hrun & Hy & Hs & Hshape & Herr);
         [reflexivity | reflexivity | apply fragments_none |].
       exists w', (apology +:+ key_error sid), b. split.
       - erewrite try_catch_raise
           by (apply bind_raise; apply session_at_none; exact Hlook).
         now rewrite (bind_eq _ _ _ _ _ Hrun).
       - do 3 (split; [assumption|]). discriminate. }
  unfold llm_fails, general_prompt.
  set (full_prompt := _build_prompt message (_get_context env message)
                        (s_conversation_history s)).
  assert (Hinner : exists w' c l,
    try_catch
      (if llm_has_astream env then
         stream <- oracle (fun n => llm_astream env n full_prompt);;
         full_content <- astream_loop env sid EmptyString 0 stream.1 stream.2;;
         t <- now env;;
         yield {| sn_response := full_content; sn_session_id := sid; sn_timestamp := t;
                  sn_progress := 100; sn_streaming := None; sn_error := None;
                  sn_complete := Some true |};;
         ret full_content
       else
         response <- oracle (fun n => llm_ainvoke env n full_prompt);;
         full_content <- lift_result response;;
         char_loop env sid (Py.len full_content) 0 EmptyString (Py.chars full_content);;
         ret full_content)
      (fun llm_error =>
         let full_content := apology +:+ llm_error in
         stream_error env (ret sid) full_content;;
         ret full_content) w = (w', Ret c) /\
    yielded w' = yielded w ++ l /\ sessions w' = sessions w /\ stream_shape l /\
    ((if llm_has_astream env
      then exists e, (llm_astream env (tick w) full_prompt).2 = Some e
      else exists e, llm_ainvoke env (tick w) full_prompt = Raise e) ->
     List.Exists reports_error l)).
  { destruct (llm_has_astream env).
    - destruct (llm_astream env (tick w) full_prompt) as [frags failure] eqn:Hstream.
      destruct (astream_loop_emits env sid frags failure EmptyString 0 (set_tick S w))
        as (w1 & cs & a & r & Hrun & Hy1 & Hs1 & Hfr & Hr).
      simpl in Hy1, Hs1.
      destruct failure as [e|].
      + subst r.
        destruct (error_stream_shape cs a (ret sid) sid apology e w1)
          as (w' & b & Herr & Hy & Hs & Hshape & Hex);
          [reflexivity | reflexivity | exact Hfr |].
        exists w', (apology +:+ e), (a ++ b). split.
        * erewrite try_catch_raise.
          2: { rewrite bind_oracle, Hstream. simpl. apply bind_raise. exact Hrun. }
          cbv zeta. now rewrite (bind_eq _ _ _ _ _ Herr).
        * split; [rewrite Hy, Hy1; symmetry; apply List.app_assoc|].
          split; [congruence|]. split; [exact Hshape | intros _; exact Hex].
      + destruct Hr as [c ->].
        eexists _, c, (a ++ [_]). split.
        * apply try_catch_ret. rewrite bind_oracle, Hstream. simpl.
          rewrite (bind_eq _ _ _ _ _ Hrun). unfold now.
          rewrite bind_oracle, bind_yield. reflexivity.
        * simpl. split; [rewrite Hy1; symmetry; apply List.app_assoc|].
          split; [exact Hs1|]. split; [|intros [e He]; discriminate].
          apply (shape_native cs a); [exact Hfr | | reflexivity | reflexivity].
          split; [reflexivity | simpl; reflexivity].
    - destruct (llm_ainvoke env (tick w) full_prompt) as [text|e] eqn:Hinvoke.
      + assert (Hloop : exists w' ks l,
          char_loop env sid (Py.len text) 0 EmptyString (Py.chars text) (set_tick S w)
            = (w', Ret tt) /\
          yielded w' = yielded w ++ l /\ sessions w' = sessions w /\
          indices 0 (Py.len text) (Py.len text) ks /\
          Forall2 (replayed (Py.len text) None) ks l).
        { destruct text as [|c0 text'].
          - exists (set_tick S w), [], []. simpl. rewrite app_nil_r.
            do 3 (split; [reflexivity|]). split; [apply indices_nil | constructor].
          - destruct (char_loop_emits env sid (Py.chars (String c0 text'))
                        (Py.len (String c0 text')) 0 EmptyString (set_tick S w))
              as (w' & ks & l & Hrun & Hy & Hs & Hidx & HR); [simpl; lia|].
            rewrite chars_length in Hidx. exists w', ks, l. auto. }
        destruct Hloop as (w' & ks & l & Hrun & Hy & Hs & Hidx & HR).
        exists w', text, l. split.
        * apply try_catch_ret. rewrite bind_oracle, Hinvoke. simpl.
          rewrite bind_ret_l. now rewrite (bind_eq _ _ _ _ _ Hrun).
        * split; [exact Hy|]. split; [exact Hs|].
          split; [eapply replay_shape; eassumption | intros [e He]; discriminate].
      + destruct (error_stream_shape [] [] (ret sid) sid apology e (set_tick S w))
          as (w' & b & Herr & Hy & Hs & Hshape & Hex);
          [reflexivity | reflexivity | apply fragments_none |].
        exists w', (apology +:+ e), b. split.
        * erewrite try_catch_raise.
          2: { rewrite bind_oracle, Hinvoke. simpl. reflexivity. }
          cbv zeta. now rewrite (bind_eq _ _ _ _ _ Herr).
        * split; [exact Hy|]. split; [exact Hs|].
          split; [exact Hshape | intros _; exact Hex]. }
  destruct Hinner as (w' & c & l & Hrun & Hy & Hs & Hshape & Hfail).
  exists w', c, l. split.
  - apply try_catch_ret. rewrite (bind_eq _ _ _ _ _ (session_at_some sid s w Hlook)).
    exact Hrun.
  - do 3 (split; [assumption|]). intros s' [= <-]. exact Hfail.
Qed.

End Streams.

Lemma bind_modify {B : Type} (f : World -> World) (k : unit -> M B) (w : World) :
  bind (modify f) k w = k tt (f w).
Proof. reflexivity. Qed.

Lemma extend_history_twice (a b : list HistoryEntry) (s : Session) :
  extend_history b (extend_history a s) = extend_history (a ++ b) s.
Proof. unfold extend_history. simpl. now rewrite <- List.app_assoc. Qed.

(** How [stream_chat] runs: the session is opened and the user entry
    appended; the branch streams and returns the answer text; the assistant
    entry is appended when that text is not empty.  The outer handler is
    never entered. *)
Lemma stream_chat_run (env : Env) (message : string) (o : option string) (w : World) :
  exists w1 sid s1,
    entry env o w = (w1, Ret sid) /\
    sessions w1 = <[sid := s1]> (sessions w) /\
    s_conversation_history s1 = history_of w sid /\
    s_last_activity s1 = clock env (activity_tick o sid w) /\
    (given o = true -> sid = default EmptyString o) /\
    exists w' t t' c l,
      stream_chat env message o w = (w', Ret tt) /\
      yielded w' = yielded w ++ l /\ stream_shape l /\
      sessions w' =
        <[sid := extend_history
                   (user_entry message t ::
                    (if Py.truthy c then [assistant_entry c t'] else [])) s1]>
          (sessions w).
Proof.
  destruct (or_uuid4_spec env o w) as (w0 & sid & Hor & Ht & Hs0 & Hy0 & Htick & Hg).
  destruct (open_session_spec env sid w0 Ht) as (w1 & s1 & Hop & Hs1 & Hh & Hl & Hu & Hy1).
  exists w1, sid, s1. unfold entry.
  rewrite (bind_eq _ _ _ _ _ Hor), (bind_eq _ _ _ _ _ Hop).
  split; [reflexivity|].
  assert (Hs1' : sessions w1 = <[sid := s1]> (sessions w)) by now rewrite Hs1, Hs0.
  split; [assumption|].
  split; [rewrite Hh; unfold history_of; now rewrite Hs0|].
  split; [rewrite Hl; now apply activity_tick_eq|].
  split; [intros H; now apply Hg|].
  assert (Hlook1 : sessions w1 !! sid = Some s1).
  { rewrite Hs1'. apply lookup_insert_eq. }
  set (t := clock env (tick w1)).
  set (w2 := set_sessions (fun store =>
                match store !! sid with
                | Some s => <[sid := extend_history [user_entry message t] s]> store
                | None => store
                end) (set_tick S w1)).
  assert (Hs2 : sessions w2 = <[sid := extend_history [user_entry message t] s1]> (sessions w)).
  { subst w2. simpl. rewrite Hlook1, Hs1'. apply insert_insert_eq. }
  assert (Hy2 : yielded w2 = yielded w) by (subst w2; simpl; congruence).
  assert (Hbranch : exists w3 c l,
    (if Py.any_in admin_keywords (Py.lower message)
     then stream_admin env sid message else stream_general env sid message) w2
      = (w3, Ret c) /\
    yielded w3 = yielded w2 ++ l /\ sessions w3 = sessions w2 /\ stream_shape l).
  { destruct (Py.any_in admin_keywords (Py.lower message));
      [destruct (stream_admin_spec env sid message w2) as (w3 & c & l & H1 & H2 & H3 & H4 & _)
      |destruct (stream_general_spec env sid message w2) as (w3 & c & l & H1 & H2 & H3 & H4 & _)];
      exists w3, c, l; auto. }
  destruct Hbranch as (w3 & c & l & Hrun & Hy3 & Hs3 & Hshape).
  assert (Hlook3 : sessions w3 !! sid = Some (extend_history [user_entry message t] s1)).
  { rewrite Hs3, Hs2. apply lookup_insert_eq. }
  assert (Hbody : forall tail : string -> M unit,
    (open_session env sid;;
     _ <- session_at sid;;
     t <- now env;;
     update_session sid (extend_history
       [{| h_role := "user"; h_content := message; h_timestamp := t |}]);;
     full_content <-
       (if Py.any_in admin_keywords (Py.lower message)
        then stream_admin env sid message
        else stream_general env sid message);;
     tail full_content) w0 = tail c w3).
  { intros tail. rewrite (bind_eq _ _ _ _ _ Hop).
    rewrite (bind_eq _ _ _ _ _ (session_at_some sid s1 w1 Hlook1)).
    unfold now. rewrite bind_oracle. unfold update_session. rewrite bind_modify.
    fold t. change (set_sessions _ (set_tick S w1)) with w2.
    now rewrite (bind_eq _ _ _ _ _ Hrun). }
  unfold stream_chat. rewrite (bind_eq _ _ _ _ _ Hor).
  destruct (Py.truthy c) eqn:Hc.
  - eexists _, t, (clock env (tick w3)), c, l. split.
    + apply try_catch_ret. rewrite Hbody, Hc.
      rewrite (bind_eq _ _ _ _ _ (session_at_some sid _ w3 Hlook3)).
      unfold now. rewrite bind_oracle. reflexivity.
    + simpl. split; [congruence|]. split; [exact Hshape|].
      rewrite Hc, Hlook3, Hs3, Hs2, insert_insert_eq, extend_history_twice. reflexivity.
  - exists w3, t, 0%Z, c, l. split.
    + apply try_catch_ret. rewrite Hbody, Hc. reflexivity.
    + split; [congruence|]. split; [exact Hshape|]. rewrite Hc. congruence.
Qed.

(** [chat] and [stream_chat] keep the store free of the empty id, as
    [create_session] does. *)
Lemma chat_store_ok (env : Env) (message : string) (o : option string) (w : World) :
  store_ok w -> store_ok (chat env message o w).1.
Proof.
  unfold store_ok. intros Hok.
  destruct (entry_spec env o w) as (w1 & sid & s1 & Hentry & Ht & _).
  destruct (chat_run env message o w) as (w1' & sid' & s1' & Hentry' & _ & _ & _ & _ & Hrun).
  rewrite Hentry in Hentry'. injection Hentry' as <- <-.
  assert (Hne : sid <> EmptyString) by now apply truthy_not_empty.
  destruct (graph_invoke env message w1) as [w2 [st|e]].
  - destruct Hrun as (w' & t1 & t2 & t3 & -> & Hs). simpl.
    rewrite Hs, lookup_insert_ne; auto.
  - destruct Hrun as (w' & t & -> & Hs). simpl.
    rewrite Hs, lookup_insert_ne; auto.
Qed.

Lemma stream_chat_store_ok (env : Env) (message : string) (o : option string)
    (w : World) :
  store_ok w -> store_ok (stream_chat env message o w).1.
Proof.
  unfold store_ok. intros Hok.
  destruct (entry_spec env o w) as (w1 & sid & s1 & Hentry & Ht & _).
  destruct (stream_chat_run env message o w)
    as (w1' & sid' & s1' & Hentry' & _ & _ & _ & _ & w' & t & t' & c & l & -> & _ & _ & Hs).
  rewrite Hentry in Hentry'. injection Hentry' as <- <-.
  assert (Hne : sid <> EmptyString) by now apply truthy_not_empty.
  simpl. rewrite Hs, lookup_insert_ne; auto.
Qed.

(** A turn of [chat] on an empty store: the session is created and holds
    the two entries. *)
Example chat_first_turn :
  history_of (chat calm_env "hello" (Some "abc") empty_world).1 "abc" =
  [user_entry "hello" 3; assistant_entry "Done." 4].
Proof. vm_compute. reflexivity. Qed.

(** ** Streams: what every shape guarantees *)








(** When the finished answer of the administrative path has no word,
    nothing is streamed at all. *)
Example stream_silent_on_empty_answer :
  snapshots silent_llm_env "list students" None empty_world = [].
Proof. vm_compute. reflexivity. Qed.

(** ** History *)



(** ** Storage: what the operations do to the registry *)

Lemma has_id_true (id : string) (s : Student) : has_id id s = true <-> st_id s = id.
Proof. unfold has_id. apply String.eqb_eq. Qed.

Lemma has_id_false (id : string) (s : Student) : has_id id s = false <-> st_id s <> id.
Proof. unfold has_id. apply String.eqb_neq. Qed.

Lemma existsb_false_forall {A : Type} (p : A -> bool) (l : list A) :
  existsb p l = false <-> forall x, In x l -> p x = false.
Proof.
  induction l as [|y l IH]; simpl; [split; [intros _ x []|reflexivity]|].
  rewrite orb_false_iff, IH. split.
  - intros [Hy Hl] x [<-|Hx]; auto.
  - intros H. split; [apply H; now left | intros x Hx; apply H; now right].
Qed.

Lemma find_none_iff {A : Type} (p : A -> bool) (l : list A) :
  List.find p l = None <-> forall x, In x l -> p x = false.
Proof.
  split; [apply find_none|].
  induction l as [|y l IH]; simpl; [reflexivity|]. intros H.
  rewrite (H y) by now left. apply IH. intros x Hx. apply H. now right.
Qed.

Lemma find_snoc {A : Type} (p : A -> bool) (l : list A) (x : A) :
  List.find p (l ++ [x]) =
  match List.find p l with
  | Some y => Some y
  | None => if p x then Some x else None
  end.
Proof.
  induction l as [|y l IH]; simpl; [reflexivity|]. now destruct (p y).
Qed.

Lemma find_filter_other {A : Type} (p q : A -> bool) (l : list A) :
  (forall x, p x = true -> q x = true) ->
  List.find p (List.filter q l) = List.find p l.
Proof.
  intros H. induction l as [|y l IH]; simpl; [reflexivity|].
  destruct (q y) eqn:Hq; simpl.
  - now destruct (p y).
  - destruct (p y) eqn:Hp; [|exact IH]. apply H in Hp. congruence.
Qed.

Lemma find_filter_none {A : Type} (p q : A -> bool) (l : list A) :
  (forall x, p x = true -> q x = false) ->
  List.find p (List.filter q l) = None.
Proof.
  intros H. apply find_none_iff. intros x Hx. apply filter_In in Hx as [_ Hq].
  destruct (p x) eqn:Hp; [|reflexivity]. apply H in Hp. congruence.
Qed.

Lemma find_map_update {A : Type} (p hit : A -> bool) (f : A -> A) (l : list A) :
  (forall x, p (f x) = p x) ->
  List.find p (map (fun x => if hit x then f x else x) l) =
  option_map (fun x => if hit x then f x else x) (List.find p l).
Proof.
  intros H. induction l as [|y l IH]; simpl; [reflexivity|].
  destruct (hit y) eqn:Hh; rewrite ?H; (destruct (p y); simpl; [now rewrite Hh | exact IH]).
Qed.

Lemma set_field_id (field v : string) (t : Z) (s : Student) :
  st_id (set_field field v t s) = st_id s.
Proof. reflexivity. Qed.

Lemma allowed_fields_spec (field : string) :
  existsb (String.eqb field) allowed_fields = true <-> In field allowed_fields.
Proof.
  rewrite existsb_exists. split.
  - intros (x & Hx & Heq). apply String.eqb_eq in Heq. now subst.
  - intros H. exists field. split; [assumption | apply String.eqb_refl].
Qed.

(** X1. [add_student] never raises.  It answers [True] exactly when sqlite
    answers and no row carries the id or the email; it then appends one row
    (active, created and last active at the reading of the clock) and one
    activity row [Student registered].  When it answers [False] both
    tables are as before. *)
Theorem add_student_outcome (env : Env) (id name department email : string) (w : World) :
  let out := add_student env id name department email w in
  (out.2 = Ret true \/ out.2 = Ret false) /\
  (out.2 = Ret true <->
     sqlite_fault env (tick w) = None /\
     forall s, In s (students w) -> st_id s <> id /\ st_email s <> email) /\
  (out.2 = Ret true ->
     students out.1 =
       students w ++ [{| st_id := id; st_name := name; st_department := department;
                         st_email := email; st_created_at := clock env (tick w + 1);
                         st_last_active := clock env (tick w + 1);
                         st_is_active := true |}] /\
     activity_logs out.1 =
       activity_logs w ++ [{| al_student_id := id; al_activity := "Student registered";
                              al_timestamp := clock env (tick w + 2) |}]) /\
  (out.2 = Ret false -> registry out.1 = registry w).
Proof.
  unfold add_student, registry. run_monad.
  destruct (sqlite_fault env (tick w)) as [e|] eqn:Hfault; simpl.
  { split; [now right|]. split; [split; [discriminate | intros [? _]; discriminate]|].
    split; [discriminate | reflexivity]. }
  destruct (existsb (has_id id) (students w)) eqn:Hid; simpl.
  { split; [now right|]. split; [|split; [discriminate | reflexivity]].
    split; [discriminate|]. intros [_ H]. exfalso.
    apply existsb_exists in Hid as (s & Hin & Hs). apply has_id_true in Hs.
    now destruct (H s Hin). }
  destruct (existsb (has_email email) (students w)) eqn:Hemail; simpl.
  { split; [now right|]. split; [|split; [discriminate | reflexivity]].
    split; [discriminate|]. intros [_ H]. exfalso.
    apply existsb_exists in Hemail as (s & Hin & Hs). apply String.eqb_eq in Hs.
    now destruct (H s Hin). }
  split; [now left|]. split; [|split; [|discriminate]].
  - split; [|reflexivity]. intros _. split; [reflexivity|]. intros s Hin.
    rewrite existsb_false_forall in Hid, Hemail. split.
    + now apply has_id_false, Hid.
    + now apply String.eqb_neq, Hemail.
  - intros _. rewrite Nat.add_1_r. replace (tick w + 2) with (S (S (tick w))) by lia.
    split; reflexivity.
Qed.

(** X2. Round trip.  After [add_student] answered [True], [get_student]
    returns for that id a row with the name, department and email given,
    and for every other id the row it returned before. *)
Theorem add_then_get_student (env : Env) (id name department email : string) (w : World) :
  (add_student env id name department email w).2 = Ret true ->
  let w' := (add_student env id name department email w).1 in
  sqlite_fault env (tick w') = None ->
  (exists s,
     (get_student env id w').2 = Ret (Some s) /\
     st_id s = id /\ st_name s = name /\ st_department s = department /\
     st_email s = email /\ st_is_active s = true) /\
  (forall other, other <> id ->
     (get_student env other w').2 = Ret (row_of other w)).
Proof.
  intros Hadd w' Hfault.
  destruct (add_student_outcome env id name department email w)
    as (_ & [Hiff _] & Hrows & _).
  destruct (Hiff Hadd) as [_ Hfresh]. destruct (Hrows Hadd) as [Hst _].
  fold w' in Hst.
  assert (Hget : forall i, (get_student env i w').2 = Ret (row_of i w')).
  { intros i. unfold get_student, row_of. run_monad. now rewrite Hfault. }
  assert (Hnone : List.find (has_id id) (students w) = None).
  { apply find_none_iff. intros s Hin. apply has_id_false. now apply Hfresh. }
  split.
  - eexists. rewrite Hget. unfold row_of. rewrite Hst, find_snoc, Hnone.
    unfold has_id at 1. simpl. rewrite String.eqb_refl.
    split; [reflexivity|]. repeat split.
  - intros other Hne. rewrite Hget. unfold row_of. rewrite Hst, find_snoc.
    destruct (List.find (has_id other) (students w)); [reflexivity|].
    unfold has_id. simpl. apply String.eqb_neq in Hne.
    rewrite String.eqb_sym, Hne. reflexivity.
Qed.

Lemma add_then_get_student_witness :
  (exists s,
     (get_student calm_env "STU011"
        (add_student calm_env "STU011" "Noor" "Physics" "noor@nust.edu.pk" campus_world).1).2
       = Ret (Some s) /\
     st_id s = "STU011" /\ st_name s = "Noor" /\ st_department s = "Physics" /\
     st_email s = "noor@nust.edu.pk" /\ st_is_active s = true) /\
  (forall other, other <> "STU011" ->
     (get_student calm_env other
        (add_student calm_env "STU011" "Noor" "Physics" "noor@nust.edu.pk" campus_world).1).2
       = Ret (row_of other campus_world)).
Proof.
  apply (add_then_get_student calm_env "STU011" "Noor" "Physics" "noor@nust.edu.pk"
           campus_world).
  - vm_compute. reflexivity.
  - reflexivity.
Defined.

Lemma old_value_of_set_field (field v : string) (t : Z) (s : Student) (col : string) :
  In field allowed_fields -> In col text_columns ->
  old_value_of (set_field field v t s) col =
  if String.eqb col field then v else old_value_of s col.
Proof.
  unfold allowed_fields, text_columns. simpl.
  intros [<-|[<-|[<-|[]]]] [<-|[<-|[<-|[<-|[]]]]]; reflexivity.
Qed.

Lemma filter_all {A : Type} (p : A -> bool) (l : list A) :
  (forall x, In x l -> p x = true) -> List.filter p l = l.
Proof.
  induction l as [|y l IH]; simpl; [reflexivity|]. intros H.
  rewrite (H y) by now left. f_equal. apply IH. intros x Hx. apply H. now right.
Qed.

Lemma filter_none {A : Type} (p : A -> bool) (l : list A) :
  (forall x, In x l -> p x = false) -> List.filter p l = [].
Proof.
  induction l as [|y l IH]; simpl; [reflexivity|]. intros H.
  rewrite (H y) by now left. apply IH. intros x Hx. apply H. now right.
Qed.

Lemma map_update_none {A : Type} (hit : A -> bool) (f : A -> A) (l : list A) :
  (forall x, In x l -> hit x = false) ->
  map (fun x => if hit x then f x else x) l = l.
Proof.
  induction l as [|y l IH]; simpl; [reflexivity|]. intros H.
  rewrite (H y) by now left. f_equal. apply IH. intros x Hx. apply H. now right.
Qed.

(** X3. [update_student] never raises.  For a column outside [name],
    [department], [email] it answers [False] without a connection to
    sqlite.  When it answers [False] both tables are as before.  When it
    answers [True] the row of the id, if there is one, reads the new value
    in that column and the reading of the clock as its last activity, its
    other columns being as before; the row of every other id is as before;
    and one activity row [Updated <column>] is appended, also when no row
    carries the id. *)
Theorem update_student_outcome (env : Env) (id field v : string) (w : World) :
  let out := update_student env id field v w in
  (out.2 = Ret true \/ out.2 = Ret false) /\
  (~ In field allowed_fields -> out = (w, Ret false)) /\
  (out.2 = Ret false -> registry out.1 = registry w) /\
  (out.2 = Ret true ->
     In field allowed_fields /\
     (forall other, other <> id -> row_of other out.1 = row_of other w) /\
     (forall s, row_of id w = Some s ->
        exists s',
          row_of id out.1 = Some s' /\
          (forall col, In col text_columns ->
             old_value_of s' col = if String.eqb col field then v else old_value_of s col) /\
          st_created_at s' = st_created_at s /\
          st_is_active s' = st_is_active s /\
          st_last_active s' = clock env (tick w + 1)) /\
     (row_of id w = None -> students out.1 = students w) /\
     activity_logs out.1 =
       activity_logs w ++ [{| al_student_id := id; al_activity := "Updated " +:+ field;
                              al_timestamp := clock env (tick w + 2) |}]).
Proof.
  unfold update_student, registry.
  destruct (existsb (String.eqb field) allowed_fields) eqn:Hallowed; simpl.
  2: { split; [now right|]. split; [reflexivity|]. split; [reflexivity | discriminate]. }
  apply allowed_fields_spec in Hallowed.
  run_monad.
  destruct (sqlite_fault env (tick w)) as [e|] eqn:Hfault; simpl.
  { split; [now right|]. split; [tauto|]. split; [reflexivity | discriminate]. }
  match goal with |- context [if ?b then _ else _] => destruct b eqn:Hconflict end; simpl.
  { split; [now right|]. split; [tauto|]. split; [reflexivity | discriminate]. }
  split; [now left|]. split; [tauto|]. split; [discriminate|]. intros _.
  split; [assumption|]. unfold row_of. simpl.
  rewrite Nat.add_1_r. replace (tick w + 2) with (S (S (tick w))) by lia.
  split; [|split; [|split; [|reflexivity]]].
  - intros other Hne. rewrite find_map_update by reflexivity.
    destruct (List.find (has_id other) (students w)) as [s|] eqn:Hfind; [|reflexivity].
    apply find_some in Hfind as [_ Hs]. apply has_id_true in Hs. simpl.
    assert (Hs' : has_id id s = false) by (apply has_id_false; congruence).
    now rewrite Hs'.
  - intros s Hfind. rewrite find_map_update by reflexivity. rewrite Hfind. simpl.
    apply find_some in Hfind as [_ Hs]. rewrite Hs.
    eexists. split; [reflexivity|]. split; [|repeat split].
    intros col Hcol. now apply old_value_of_set_field.
  - intros Hnone. apply map_update_none. now apply find_none_iff.
Qed.

(** X4. [delete_student] never raises.  When sqlite fails it answers
    [False] and changes nothing.  Otherwise it answers [True], also for an
    id no row carries: afterwards no row and no activity row carries the
    id, and the rows and activity rows of every other id are as before. *)
Theorem delete_student_outcome (env : Env) (id : string) (w : World) :
  let out := delete_student env id w in
  match sqlite_fault env (tick w) with
  | Some _ => out.2 = Ret false /\ registry out.1 = registry w
  | None =>
      out.2 = Ret true /\
      row_of id out.1 = None /\
      (forall other, other <> id -> row_of other out.1 = row_of other w) /\
      (forall l, In l (activity_logs out.1) <->
                 In l (activity_logs w) /\ al_student_id l <> id) /\
      (row_of id w = None -> students out.1 = students w)
  end.
Proof.
  unfold delete_student, registry. run_monad.
  destruct (sqlite_fault env (tick w)) as [e|]; simpl; [split; reflexivity|].
  split; [reflexivity|]. unfold row_of. simpl.
  split; [|split; [|split]].
  - apply find_filter_none. intros s Hs. now rewrite Hs.
  - intros other Hne. apply find_filter_other. intros s Hs.
    apply has_id_true in Hs. apply negb_true_iff, has_id_false. congruence.
  - intros l. rewrite filter_In, negb_true_iff, String.eqb_neq. reflexivity.
  - intros Hnone. apply filter_all. intros s Hs. apply negb_true_iff.
    rewrite find_none_iff in Hnone. now apply Hnone.
Qed.

(** ** Storage: the constraints of the tables are kept *)

Lemma nodup_snoc {A : Type} (l : list A) (x : A) :
  List.NoDup l -> ~ In x l -> List.NoDup (l ++ [x]).
Proof.
  intros Hl Hx. apply (Permutation_NoDup (l := x :: l)).
  - apply Permutation_cons_append.
  - now constructor.
Qed.

Lemma nodup_map_filter {A B : Type} (f : A -> B) (p : A -> bool) (l : list A) :
  List.NoDup (map f l) -> List.NoDup (map f (List.filter p l)).
Proof.
  induction l as [|x l IH]; simpl; [trivial|]. intros H.
  inversion H as [|? ? Hx Hl]; subst. destruct (p x); simpl; [|auto].
  constructor; [|auto]. intros Hin. apply Hx.
  apply in_map_iff in Hin as (y & <- & Hy). apply filter_In in Hy as [Hy _].
  now apply in_map.
Qed.

(** Replacing the email of the row of [id] by one no other row carries. *)
Lemma nodup_emails_after_update (id field v : string) (t : Z) (rows : list Student) :
  List.NoDup (map st_id rows) -> List.NoDup (map st_email rows) ->
  (String.eqb field "email" = true ->
   forall s, In s rows -> st_id s <> id -> st_email s <> v) ->
  List.NoDup (map st_email
    (map (fun s => if has_id id s then set_field field v t s else s) rows)).
Proof.
  destruct (String.eqb field "email") eqn:Hfield.
  2: { intros _ He _. rewrite map_map.
       erewrite map_ext; [exact He|]. intros s. unfold set_field.
       destruct (has_id id s); simpl; now rewrite ?Hfield. }
  intros Hid He Hfree. specialize (Hfree eq_refl).
  induction rows as [|s rows IH]; simpl; [constructor|].
  inversion Hid as [|? ? Hs Hid']; subst. inversion He as [|? ? Hse He']; subst.
  assert (Hfree' : forall s', In s' rows -> st_id s' <> id -> st_email s' <> v)
    by (intros s' Hin; apply Hfree; now right).
  destruct (has_id id s) eqn:Hhit.
  - apply has_id_true in Hhit.
    assert (Hrest : forall s', In s' rows -> has_id id s' = false).
    { intros s' Hin. apply has_id_false. intros Heq. apply Hs.
      rewrite Hhit, <- Heq. now apply in_map. }
    rewrite (map_update_none _ _ _ Hrest). simpl. rewrite Hfield.
    constructor; [|assumption]. intros Hin.
    apply in_map_iff in Hin as (s' & Heq & Hin).
    apply (Hfree' s' Hin); [|assumption]. now apply has_id_false, Hrest.
  - constructor; [|now apply IH]. intros Hin.
    apply in_map_iff in Hin as (s' & Heq & Hin).
    apply in_map_iff in Hin as (s0 & <- & Hin).
    destruct (has_id id s0) eqn:Hhit0.
    + simpl in Heq. rewrite Hfield in Heq.
      apply (Hfree s); [now left | now apply has_id_false | congruence].
    + apply Hse. rewrite <- Heq. now apply in_map.
Qed.

Lemma consistent_registry (w w' : World) :
  registry w' = registry w -> consistent w -> consistent w'.
Proof.
  unfold registry, consistent, students_keyed, logs_refer_to_students.
  intros [= Hs Hl]. now rewrite Hs, Hl.
Qed.

Lemma add_student_consistent (env : Env) (id name department email : string) :
  preserves consistent (add_student env id name department email).
Proof.
  intros w Hw.
  destruct (add_student_outcome env id name department email w)
    as ([Ht|Hf] & [Hiff _] & Hrows & Hsame).
  2: { eapply consistent_registry; [apply Hsame, Hf | exact Hw]. }
  destruct (Hiff Ht) as [_ Hfresh]. destruct (Hrows Ht) as [Hst Hlogs].
  destruct Hw as [[Hid He] Href].
  unfold consistent, students_keyed, logs_refer_to_students.
  rewrite Hst, Hlogs, !map_app. simpl. repeat split.
  - apply nodup_snoc; [assumption|]. intros Hin.
    apply in_map_iff in Hin as (s & Heq & Hin). now destruct (Hfresh s Hin).
  - apply nodup_snoc; [assumption|]. intros Hin.
    apply in_map_iff in Hin as (s & Heq & Hin). now destruct (Hfresh s Hin).
  - intros l Hl. apply in_app_or in Hl as [Hl|[<-|[]]].
    + destruct (Href l Hl) as (s & Hin & Hs). exists s.
      split; [apply in_or_app; now left | assumption].
    + eexists. split; [apply in_or_app; right; now left | reflexivity].
Qed.

Lemma delete_student_consistent (env : Env) (id : string) :
  preserves consistent (delete_student env id).
Proof.
  intros w [[Hid He] Href]. unfold delete_student. run_monad.
  destruct (sqlite_fault env (tick w)); simpl; [repeat split; assumption|].
  unfold consistent, students_keyed, logs_refer_to_students. simpl.
  repeat split; try now apply nodup_map_filter.
  intros l Hl. apply filter_In in Hl as [Hl Hne].
  destruct (Href l Hl) as (s & Hin & Hs). exists s. split; [|assumption].
  apply filter_In. split; [assumption|]. unfold has_id. now rewrite Hs.
Qed.

(** [update_student] keeps the two tables consistent when a row carries
    the id, which is what [update_student_info] checks first. *)
Lemma update_student_consistent (env : Env) (id field v : string) (w : World) (s : Student) :
  consistent w -> In s (students w) -> st_id s = id ->
  consistent (update_student env id field v w).1.
Proof.
  intros [[Hid He] Href] Hin Hs. unfold update_student.
  destruct (existsb (String.eqb field) allowed_fields); simpl;
    [|repeat split; assumption].
  run_monad.
  destruct (sqlite_fault env (tick w)); simpl; [repeat split; assumption|].
  match goal with |- context [if ?b then _ else _] => destruct b eqn:Hconflict end; simpl;
    [repeat split; assumption|].
  unfold consistent, students_keyed, logs_refer_to_students. simpl.
  split; [split|].
  - rewrite map_map. erewrite map_ext; [exact Hid|].
    intros s'. now destruct (has_id id s').
  - apply nodup_emails_after_update; try assumption.
    intros Hfield s' Hin' Hne.
    rewrite Hfield in Hconflict. simpl in Hconflict.
    assert (Hex : existsb (has_id id) (students w) = true).
    { apply existsb_exists. exists s. split; [assumption | now apply has_id_true]. }
    rewrite Hex in Hconflict. simpl in Hconflict.
    rewrite existsb_false_forall in Hconflict. specialize (Hconflict s' Hin').
    apply has_id_false in Hne. rewrite Hne in Hconflict. simpl in Hconflict.
    now apply String.eqb_neq.
  - intros l Hl. apply in_app_or in Hl as [Hl|[<-|[]]].
    + destruct (Href l Hl) as (s' & Hin' & Hs'). eexists. split.
      * apply in_map_iff. exists s'. split; [reflexivity | assumption].
      * now destruct (has_id id s').
    + eexists. split.
      * apply in_map_iff. exists s. split; [reflexivity | assumption].
      * simpl. now destruct (has_id id s).
Qed.

Section Preserve.

(** [I] is an invariant of the two tables which the three writing
    operations keep. *)
Context (I : World -> Prop).
Hypothesis I_registry : forall w w', registry w' = registry w -> I w -> I w'.
Hypothesis I_add : forall env a b c d, preserves I (add_student env a b c d).
Hypothesis I_delete : forall env a, preserves I (delete_student env a).
Hypothesis I_update : forall env id field v w s,
  I w -> In s (students w) -> st_id s = id -> I (update_student env id field v w).1.

Lemma preserves_ret {A : Type} (a : A) : preserves I (ret a).
Proof. intros w H. exact H. Qed.

Lemma preserves_raise {A : Type} (e : string) : preserves I (@raise A e).
Proof. intros w H. exact H. Qed.

Lemma preserves_get : preserves I get.
Proof. intros w H. exact H. Qed.

Lemma preserves_bind {A B : Type} (m : M A) (k : A -> M B) :
  preserves I m -> (forall a, preserves I (k a)) -> preserves I (bind m k).
Proof.
  intros Hm Hk w Hw. unfold bind. specialize (Hm w Hw).
  destruct (m w) as [w' [a|e]]; simpl in *; [now apply Hk | assumption].
Qed.

Lemma preserves_try_catch {A : Type} (m : M A) (h : string -> M A) :
  preserves I m -> (forall e, preserves I (h e)) -> preserves I (try_catch m h).
Proof.
  intros Hm Hh w Hw. unfold try_catch. specialize (Hm w Hw).
  destruct (m w) as [w' [a|e]]; simpl in *; [assumption | now apply Hh].
Qed.

Lemma preserves_modify (f : World -> World) :
  (forall w, registry (f w) = registry w) -> preserves I (modify f).
Proof. intros H w Hw. simpl. eapply I_registry; [apply H | exact Hw]. Qed.

Lemma preserves_oracle {A : Type} (f : nat -> A) : preserves I (oracle f).
Proof. intros w Hw. simpl. eapply I_registry; [|exact Hw]. reflexivity. Qed.

Lemma preserves_lift_result {A : Type} (r : result A) : preserves I (lift_result r).
Proof. destruct r; [apply preserves_ret | apply preserves_raise]. Qed.

(** A body that does not write the tables keeps the invariant. *)
Lemma keeps_preserves {A : Type} (m : M A) : keeps registry m -> preserves I m.
Proof. intros H w Hw. eapply I_registry; [apply H | exact Hw]. Qed.

(** Decomposing a body along its structure. *)
Ltac pres_step :=
  first
    [ apply preserves_ret | apply preserves_raise | apply preserves_get
    | apply preserves_oracle | apply preserves_lift_result
    | apply preserves_modify; intros ?; reflexivity
    | apply preserves_bind; [|intros ?]
    | apply preserves_try_catch; [|intros ?]
    | assumption
    | match goal with
      | |- preserves _ (match ?x with _ => _ end) => destruct x
      | |- preserves _ (let _ := _ in _) => cbv zeta
      end ].

Ltac pres := repeat pres_step.

Variable env : Env.

Lemma preserves_now : preserves I (now env).
Proof. apply preserves_oracle. Qed.

Lemma preserves_sqlite3_connect : preserves I (sqlite3_connect env).
Proof. unfold sqlite3_connect. pres. Qed.

Lemma preserves_notify (call : Notification) : preserves I (notify env call).
Proof. unfold notify. pres. Qed.

Lemma preserves_get_student (id : string) : preserves I (get_student env id).
Proof. unfold get_student. pres. Qed.

Lemma preserves_list_students : preserves I (list_students env).
Proof. unfold list_students. pres. Qed.

Lemma preserves_get_campus_analytics : preserves I (get_campus_analytics env).
Proof.
  unfold get_campus_analytics. pres. Qed.

Lemma preserves_bind_at {A B : Type} (m : M A) (k : A -> M B) (w : World) :
  I (m w).1 -> (forall a, preserves I (k a)) -> I (bind m k w).1.
Proof.
  intros Hm Hk. unfold bind.
  destruct (m w) as [w' [a|e]]; simpl in *; [now apply Hk | assumption].
Qed.

Lemma get_student_found (id : string) (s : Student) (w w1 : World) :
  get_student env id w = (w1, Ret (Some s)) -> In s (students w1) /\ st_id s = id.
Proof.
  unfold get_student. run_monad. destruct (sqlite_fault env (tick w)); simpl; [discriminate|].
  intros [= <- Hfind]. apply find_some in Hfind as [Hin Hs].
  split; [exact Hin | now apply has_id_true].
Qed.

Lemma preserves_update_student_info (id field v : string) :
  preserves I (update_student_info env id field v).
Proof.
  unfold update_student_info.
  apply preserves_try_catch; [|intros e; apply preserves_ret].
  intros w Hw. pose proof (preserves_get_student id w Hw) as Hw1.
  unfold bind at 1.
  destruct (get_student env id w) as [w1 [[s|]|e]] eqn:Hget; simpl in Hw1 |- *;
    try assumption.
  apply get_student_found in Hget as [Hin Hs].
  apply preserves_bind_at; [now apply (I_update env id field v w1 s)|].
  intros success. pres.
Qed.

Lemma preserves_tools :
  Forall (fun t => forall args, preserves I (t.2 args)) (tools env).
Proof.
  unfold tools.
  repeat constructor; intros args; simpl; unfold arg;
    repeat first
      [ apply I_add | apply I_delete | apply preserves_update_student_info
      | pres_step ].
Qed.

Lemma preserves_call_tool (tc : tool_call) : preserves I (call_tool env tc).
Proof.
  unfold call_tool. apply preserves_try_catch; [|intros e; apply preserves_ret].
  destruct (List.find _ (tools env)) as [t|] eqn:Hfind; [|apply preserves_ret].
  apply find_some in Hfind as [Hin _].
  pose proof preserves_tools as Htools. rewrite List.Forall_forall in Htools.
  apply preserves_bind; [now apply Htools | intros r; apply preserves_ret].
Qed.

Lemma preserves_call_tools_loop (calls : list tool_call) :
  preserves I (call_tools_loop env calls).
Proof.
  induction calls as [|tc calls IH]; simpl; [apply preserves_ret|].
  apply preserves_bind; [apply preserves_call_tool|]. intros r.
  apply preserves_bind; [exact IH|]. intros r'. apply preserves_ret.
Qed.

Lemma preserves_graph_invoke (message : string) : preserves I (graph_invoke env message).
Proof.
  unfold graph_invoke. generalize (recursion_limit env) as fuel.
  generalize classify_node as n.
  generalize ({| messages := [HumanMessage message]; query := message;
                 op_type := unset; final_answer := EmptyString |}) as st.
  intros st n fuel. revert n st. induction fuel as [|fuel IH]; intros n st;
    (destruct (decide (n = END)) as [->|Hn];
     [rewrite graph_run_end; apply preserves_ret|]).
  - rewrite graph_run_out_of_fuel by assumption. apply preserves_raise.
  - rewrite graph_run_step by assumption.
    apply preserves_bind; [|intros next; apply IH].
    destruct n; simpl; try apply preserves_ret.
    + apply preserves_bind; [|intros; apply preserves_ret].
      apply keeps_preserves. apply keeps_handle_nust_query; intros; reflexivity.
    + apply preserves_bind; [|intros; apply preserves_ret].
      apply keeps_preserves. apply keeps_call_model; intros; reflexivity.
    + apply preserves_bind; [apply preserves_call_tools_loop | intros; apply preserves_ret].
Qed.

Ltac pres_turn :=
  repeat first [ apply preserves_graph_invoke | pres_step ].

Lemma preserves_or_uuid4 (o : option string) : preserves I (or_uuid4 env o).
Proof. unfold or_uuid4, uuid4. pres. Qed.

Lemma preserves_open_session (sid : string) : preserves I (open_session env sid).
Proof. unfold open_session, create_session, session_at, update_session, uuid4. pres. Qed.

Lemma preserves_chat (message : string) (o : option string) :
  preserves I (chat env message o).
Proof.
  unfold chat. apply preserves_bind; [apply preserves_or_uuid4|]. intros sid.
  apply preserves_try_catch.
  - apply preserves_bind; [apply preserves_open_session|]. intros _.
    apply preserves_bind; [apply preserves_graph_invoke|]. intros st.
    unfold session_at, update_session. pres.
  - intros e. cbv zeta.
    apply preserves_bind; [apply preserves_or_uuid4|]. intros sid'. pres.
Qed.

Lemma preserves_word_loop (sid : string) (total : nat) (words : list string) :
  forall i current_text, preserves I (word_loop env sid total i current_text words).
Proof.
  induction words as [|word rest IH]; intros i cur; simpl; [apply preserves_ret|].
  unfold yield. pres. apply IH.
Qed.

Lemma preserves_error_loop (sid : M string) (text : string) (total : nat)
    (rest : list ascii) :
  preserves I sid -> forall i, preserves I (error_loop env sid text total i rest).
Proof.
  intros Hsid. induction rest as [|c rest IH]; intros i; simpl; [apply preserves_ret|].
  unfold yield. pres. apply IH.
Qed.

Lemma preserves_stream_error (sid : M string) (text : string) :
  preserves I sid -> preserves I (stream_error env sid text).
Proof. intros H. unfold stream_error. now apply preserves_error_loop. Qed.

Lemma preserves_char_loop (sid : string) (total : nat) (rest : list ascii) :
  forall i current_text, preserves I (char_loop env sid total i current_text rest).
Proof.
  induction rest as [|c rest IH]; intros i cur; simpl; [apply preserves_ret|].
  apply preserves_bind; [|intros _; apply IH].
  match goal with |- context [if ?b then _ else _] => destruct b end;
    unfold yield; pres.
Qed.

Lemma preserves_astream_loop (sid : string) (fragments_left : list string)
    (failure : option string) :
  forall full_content chunk_count,
    preserves I (astream_loop env sid full_content chunk_count fragments_left failure).
Proof.
  induction fragments_left as [|chunk rest IH]; intros full count; simpl.
  - destruct failure; [apply preserves_raise | apply preserves_ret].
  - destruct (Py.truthy chunk); [|apply IH].
    unfold yield. pres. apply IH.
Qed.

Lemma preserves_stream_admin (sid message : string) :
  preserves I (stream_admin env sid message).
Proof.
  unfold stream_admin. apply preserves_try_catch.
  - apply preserves_bind; [apply preserves_graph_invoke|]. intros st. cbv zeta.
    apply preserves_bind; [apply preserves_word_loop | intros; apply preserves_ret].
  - intros e. cbv zeta.
    apply preserves_bind; [|intros; apply preserves_ret].
    apply preserves_stream_error, preserves_ret.
Qed.

Lemma preserves_stream_general (sid message : string) :
  preserves I (stream_general env sid message).
Proof.
  unfold stream_general. cbv zeta. apply preserves_try_catch.
  - apply preserves_bind; [unfold session_at; pres|]. intros session.
    apply preserves_try_catch.
    + destruct (llm_has_astream env).
      * apply preserves_bind; [apply preserves_oracle|]. intros stream.
        apply preserves_bind; [apply preserves_astream_loop|]. intros c.
        unfold yield. pres.
      * apply preserves_bind; [apply preserves_oracle|]. intros response.
        apply preserves_bind; [apply preserves_lift_result|]. intros c.
        apply preserves_bind; [apply preserves_char_loop | intros; apply preserves_ret].
    + intros e. apply preserves_bind; [|intros; apply preserves_ret].
      apply preserves_stream_error, preserves_ret.
  - intros e. apply preserves_bind; [|intros; apply preserves_ret].
    apply preserves_stream_error, preserves_ret.
Qed.

Lemma preserves_stream_chat (message : string) (o : option string) :
  preserves I (stream_chat env message o).
Proof.
  unfold stream_chat. apply preserves_bind; [apply preserves_or_uuid4|]. intros sid.
  apply preserves_try_catch.
  - apply preserves_bind; [apply preserves_open_session|]. intros _.
    apply preserves_bind; [unfold session_at; pres|]. intros _.
    apply preserves_bind; [apply preserves_oracle|]. intros t.
    apply preserves_bind; [unfold update_session; pres|]. intros _.
    apply preserves_bind.
    + destruct (Py.any_in admin_keywords (Py.lower message));
        [apply preserves_stream_admin | apply preserves_stream_general].
    + intros c. destruct (Py.truthy c); [|apply preserves_ret].
      unfold session_at, update_session. pres.
  - intros e. apply preserves_stream_error, preserves_or_uuid4.
Qed.

End Preserve.

Lemma campus_world_consistent : consistent campus_world.
Proof.
  split; [split|]; [| |intros l []]; simpl;
    repeat (apply List.NoDup_cons; [simpl; intuition discriminate|]);
    apply List.NoDup_nil.
Qed.

(** X5. The constraints of the two tables are kept by everything the agent
    does.  On a registry where ids and emails are unique and every activity
    row belongs to a student, each tool of the registry, whatever its
    arguments, and each turn of [chat] and of [stream_chat], whatever the
    collaborators answer, leaves a registry with the same properties. *)
Theorem turn_keeps_registry_consistent (env : Env) (w : World) :
  consistent w ->
  Forall (fun t => forall args, consistent (t.2 args w).1) (tools env) /\
  (forall message o, consistent (chat env message o w).1) /\
  (forall message o, consistent (stream_chat env message o w).1).
Proof.
  intros Hw.
  assert (Hreg : forall w0 w', registry w' = registry w0 -> consistent w0 -> consistent w')
    by (intros w0 w' H; now apply consistent_registry).
  split; [|split].
  - pose proof (preserves_tools consistent Hreg add_student_consistent
                  delete_student_consistent update_student_consistent env) as Htools.
    eapply List.Forall_impl; [|exact Htools]. intros t Ht args. now apply Ht.
  - intros message o.
    now apply (preserves_chat consistent Hreg add_student_consistent
                 delete_student_consistent update_student_consistent).
  - intros message o.
    now apply (preserves_stream_chat consistent Hreg add_student_consistent
                 delete_student_consistent update_student_consistent).
Qed.

Lemma turn_keeps_registry_consistent_witness :
  Forall (fun t => forall args, consistent (t.2 args campus_world).1) (tools calm_env) /\
  (forall message o, consistent (chat calm_env message o campus_world).1) /\
  (forall message o, consistent (stream_chat calm_env message o campus_world).1).
Proof.
  apply (turn_keeps_registry_consistent calm_env campus_world).
  exact campus_world_consistent.
Defined.

(** ** Storage: listing and aggregates *)

Section SortingBy.

(** [ltb] compares keys that are totally ordered. *)
Context {A : Type} (ltb : A -> A -> bool).
Hypothesis ltb_asym : forall x y, ltb x y = true -> ltb y x = false.
Hypothesis ltb_trans : forall x y z, ltb x y = false -> ltb y z = false -> ltb x z = false.

Lemma insert_desc_perm_by (x : A) (l : list A) :
  Permutation (insert_desc ltb x l) (x :: l).
Proof.
  induction l as [|y l IH]; simpl; [reflexivity|].
  destruct (ltb x y); [|reflexivity].
  rewrite IH. apply perm_swap.
Qed.

Lemma sort_desc_perm_by (l : list A) : Permutation (sort_desc ltb l) l.
Proof.
  induction l as [|x l IH]; simpl; [reflexivity|].
  unfold sort_desc in *. simpl. rewrite insert_desc_perm_by. now constructor.
Qed.

Lemma insert_desc_sorted_by (x : A) (l : list A) :
  StronglySorted (fun a b => ltb a b = false) l ->
  StronglySorted (fun a b => ltb a b = false) (insert_desc ltb x l).
Proof.
  induction l as [|y l IH]; simpl; intros Hl; [repeat constructor|].
  inversion Hl as [|? ? Hl' Hy]; subst.
  destruct (ltb x y) eqn:Hxy.
  - constructor; [now apply IH|].
    rewrite List.Forall_forall. intros z Hz.
    apply (Permutation_in _ (insert_desc_perm_by x l)) in Hz as [<-|Hz].
    + now apply ltb_asym.
    + rewrite List.Forall_forall in Hy. now apply Hy.
  - constructor; [assumption|]. constructor; [assumption|].
    rewrite List.Forall_forall in *. intros z Hz. eapply ltb_trans; eauto.
Qed.

Lemma sort_desc_sorted_by (l : list A) :
  StronglySorted (fun a b => ltb a b = false) (sort_desc ltb l).
Proof.
  induction l as [|x l IH]; [constructor|].
  unfold sort_desc in *. simpl. now apply insert_desc_sorted_by.
Qed.

End SortingBy.

Lemma strongly_sorted_impl {A : Type} (R R' : A -> A -> Prop) (l : list A) :
  (forall x y, R x y -> R' x y) -> StronglySorted R l -> StronglySorted R' l.
Proof.
  intros H. induction 1 as [|x l Hl IH Hx]; constructor; [assumption|].
  eapply List.Forall_impl; [|exact Hx]. apply H.
Qed.

(** X6. When sqlite answers, [list_students] returns every row of the
    table exactly once, the most recently created first; the tool
    [list_all_students] then reports as [total_count] the number of rows
    of the table. *)
Theorem list_students_newest_first (env : Env) (w : World) :
  sqlite_fault env (tick w) = None ->
  exists rows,
    (list_students env w).2 = Ret rows /\
    Permutation rows (students w) /\
    newest_first rows /\
    exists j,
      (list_all_students env w).2 = Ret j /\
      json_get "success" j = Some (JBool true) /\
      json_get "total_count" j = Some (count_json (length (students w))) /\
      json_get "students" j = Some (JList (map student_dict rows)).
Proof.
  intros Hok. unfold list_all_students, list_students. run_monad. rewrite Hok. simpl.
  eexists. split; [reflexivity|].
  set (ltb := fun x y : Student => (st_created_at x <? st_created_at y)%Z).
  assert (Hperm : Permutation (sort_desc ltb (students w)) (students w))
    by apply sort_desc_perm_by.
  split; [exact Hperm|]. split.
  - unfold newest_first.
    apply (strongly_sorted_impl (fun a b => ltb a b = false)).
    + subst ltb. simpl. intros x y H. apply Z.ltb_ge in H. exact H.
    + apply sort_desc_sorted_by; subst ltb; simpl; intros; lia.
  - eexists. split; [reflexivity|]. simpl.
    split; [reflexivity|]. split; [|reflexivity].
    unfold count_json. now rewrite (Permutation_length Hperm).
Qed.

Lemma list_students_newest_first_witness :
  exists rows,
    (list_students calm_env campus_world).2 = Ret rows /\
    Permutation rows (students campus_world) /\
    newest_first rows /\
    exists j,
      (list_all_students calm_env campus_world).2 = Ret j /\
      json_get "success" j = Some (JBool true) /\
      json_get "total_count" j = Some (count_json (length (students campus_world))) /\
      json_get "students" j = Some (JList (map student_dict rows)).
Proof. apply (list_students_newest_first calm_env campus_world). reflexivity. Defined.

Lemma breakdown_total_insert (d : gmap string nat) (k : string) (n : nat) :
  breakdown_total (<[k := n]> d) = n + breakdown_total d - default 0 (d !! k).
Proof.
  unfold breakdown_total.
  assert (Hcomm : forall (m : gmap string nat) (j1 j2 : string) (z1 z2 y : nat),
            j1 <> j2 -> m !! j1 = Some z1 -> m !! j2 = Some z2 ->
            z1 + (z2 + y) = z2 + (z1 + y)) by (intros; lia).
  destruct (d !! k) as [old|] eqn:Hk; simpl.
  - rewrite <- (insert_delete_eq d k n).
    rewrite map_fold_insert_L; [|apply Hcomm|apply lookup_delete_eq].
    rewrite (map_fold_delete_L _ _ k old d); [lia|apply Hcomm|assumption].
  - rewrite map_fold_insert_L; [lia|apply Hcomm|assumption].
Qed.

Lemma breakdown_total_dept (rows : list Student) :
  breakdown_total (dept_breakdown rows) = length rows.
Proof.
  induction rows as [|s rows IH]; simpl; [reflexivity|].
  rewrite breakdown_total_insert, IH.
  destruct (dept_breakdown rows !! st_department s) as [n|] eqn:Hd; simpl; [|lia].
  assert (n <= length rows); [|lia].
  rewrite <- IH. unfold breakdown_total.
  rewrite (map_fold_delete_L _ _ (st_department s) n); [lia| intros; lia |assumption].
Qed.

(** X7. When sqlite answers, the counts of the department breakdown add up
    to the total number of students, every department listed has at least
    one student, and the recent enrollments are at most the total. *)
Theorem department_counts_add_up (env : Env) (w : World) :
  sqlite_fault env (tick w) = None ->
  exists a,
    (get_campus_analytics env w).2 = Ret a /\
    breakdown_total (department_breakdown a) = total_students a /\
    (forall d n, department_breakdown a !! d = Some n -> 1 <= n) /\
    recent_enrollments a <= total_students a.
Proof.
  intros Hok. unfold get_campus_analytics. run_monad. rewrite Hok. simpl.
  eexists. split; [reflexivity|]. simpl.
  split; [apply breakdown_total_dept|]. split.
  - intros d n. rewrite dept_breakdown_lookup.
    destruct (count_dept d (students w)) eqn:Hc; simpl; [discriminate|].
    intros [= <-]. lia.
  - apply List.filter_length_le.
Qed.

Lemma department_counts_add_up_witness :
  exists a,
    (get_campus_analytics calm_env campus_world).2 = Ret a /\
    breakdown_total (department_breakdown a) = total_students a /\
    (forall d n, department_breakdown a !! d = Some n -> 1 <= n) /\
    recent_enrollments a <= total_students a.
Proof. apply (department_counts_add_up calm_env campus_world). reflexivity. Defined.

Lemma py_round2_bounds (x : Q) :
  (0 <= x)%Q -> (x <= 100)%Q -> (0 <= py_round2 x)%Q /\ (py_round2 x <= 100)%Q.
Proof.
  intros H0 H100. unfold py_round2.
  set (y := (x * 100)%Q). set (f := Qfloor y).
  assert (Hy0 : (0 <= y)%Q).
  { subst y. apply Qmult_le_0_compat; [assumption | discriminate]. }
  assert (Hy1 : (y <= 10000)%Q).
  { subst y. change (10000 : Q) with (100 * 100)%Q.
    apply Qmult_le_compat_r; [assumption | discriminate]. }
  assert (Hf0 : (0 <= f)%Z).
  { subst f. change 0%Z with (Qfloor 0). now apply Qfloor_resp_le. }
  assert (Hf1 : (f <= 10000)%Z).
  { subst f. change 10000%Z with (Qfloor 10000). now apply Qfloor_resp_le. }
  assert (Hn : forall n : Z, (0 <= n <= 10000)%Z -> (0 <= n # 100)%Q /\ (n # 100 <= 100)%Q).
  { intros n Hn. unfold Qle. simpl. lia. }
  assert (Hup : (inject_Z f < y)%Q -> (f + 1 <= 10000)%Z).
  { intros Hlt. assert (Hlt' : (inject_Z f < 10000)%Q) by (eapply Qlt_le_trans; eauto).
    change (10000 : Q) with (inject_Z 10000) in Hlt'.
    rewrite <- Zlt_Qlt in Hlt'. lia. }
  destruct (Qcompare_spec (y - inject_Z f) (1 # 2)) as [Heq|Hlt|Hgt].
  - destruct (Z.even f); apply Hn; [lia|]. split; [lia|]. apply Hup.
    apply (Qplus_lt_l _ _ (- inject_Z f)). rewrite Qplus_opp_r.
    unfold Qminus in Heq. rewrite Heq. reflexivity.
  - apply Hn. lia.
  - apply Hn. split; [lia|]. apply Hup.
    apply (Qplus_lt_l _ _ (- inject_Z f)). rewrite Qplus_opp_r.
    eapply Qlt_trans; [|exact Hgt]. reflexivity.
Qed.

Lemma count_active_le_students (t : Z) (w : World) :
  logs_refer_to_students w -> count_active t (activity_logs w) <= length (students w).
Proof.
  intros Href. unfold count_active.
  rewrite <- (length_map st_id (students w)).
  apply NoDup_incl_length; [apply NoDup_ListNoDup, NoDup_remove_dups|].
  intros id Hid. rewrite <- list_elem_of_In, elem_of_remove_dups, list_elem_of_In in Hid.
  apply in_map_iff in Hid as (l & <- & Hl). apply filter_In in Hl as [Hl _].
  destruct (Href l Hl) as (s & Hin & Hs). rewrite <- Hs. now apply in_map.
Qed.

(** X8. On a registry where every activity row belongs to a student, the
    number of active students is at most the total and the activity rate
    lies between 0 and 100. *)
Theorem activity_rate_within_bounds (env : Env) (w : World) :
  sqlite_fault env (tick w) = None ->
  logs_refer_to_students w ->
  exists a,
    (get_campus_analytics env w).2 = Ret a /\
    active_last_7_days a <= total_students a /\
    (0 <= activity_rate a)%Q /\ (activity_rate a <= 100)%Q.
Proof.
  intros Hok Href. unfold get_campus_analytics. run_monad. rewrite Hok. simpl.
  eexists. split; [reflexivity|]. simpl.
  pose proof (count_active_le_students (clock env (S (S (tick w)))) w Href) as Hle.
  split; [exact Hle|]. apply py_round2_bounds.
  - apply Qmult_le_0_compat; [|discriminate]. unfold Qle. simpl. lia.
  - change (100 : Q) with (1 * 100)%Q at 2.
    apply Qmult_le_compat_r; [|discriminate]. unfold Qle. simpl.
    rewrite Z.mul_1_r, Z.mul_1_l.
    destruct (length (students w)) as [|n] eqn:Hlen; simpl; [lia|].
    rewrite Nat.max_0_r. lia.
Qed.

(** ** Tool registry: results and effects *)

Lemma activity_rate_within_bounds_witness :
  exists a,
    (get_campus_analytics calm_env enrolled_world).2 = Ret a /\
    active_last_7_days a <= total_students a /\
    (0 <= activity_rate a)%Q /\ (activity_rate a <= 100)%Q.
Proof.
  apply (activity_rate_within_bounds calm_env enrolled_world).
  - reflexivity.
  - apply add_student_consistent, campus_world_consistent.
Defined.

(** X9. A tool of the registry raises only to refuse a call that lacks one
    of its arguments, and then before doing anything.  Otherwise it
    returns an object that carries a boolean [success] or an [error]
    text. *)
Theorem tool_results_are_objects (env : Env) :
  Forall (fun t => forall args w,
    match (t.2 args w).2 with
    | Ret j =>
        (exists b, json_get "success" j = Some (JBool b)) \/
        (exists e, json_get "error" j = Some (JStr e))
    | Raise e =>
        (exists key, assoc key args = None /\ e = validation_error env t.1 key) /\
        (t.2 args w).1 = w
    end) (tools env).
Proof.
  unfold tools.
  repeat constructor; intros args w; simpl; unfold arg;
    unfold add_student_tool, get_student_info, update_student_info,
      delete_student_tool, list_all_students, get_campus_analytics_tool,
      add_student, get_student, update_student, delete_student, list_students,
      get_campus_analytics;
    run_monad; cases; eauto.
Qed.

(** X10. A tool changes the registry or calls the email service only when
    it reports [success: true].  Besides, only [add_student_tool] and
    [update_student_info] call the email service, once, and the three
    reading tools never change anything. *)
Theorem tool_effects_imply_success (env : Env) :
  Forall (fun t => forall args w,
    let out := t.2 args w in
    (registry out.1 = registry w /\ outbox out.1 = outbox w) \/
    (reports_success out /\
     (((t.1 = "add_student_tool" \/ t.1 = "update_student_info") /\
       exists call, outbox out.1 = outbox w ++ [call]) \/
      (t.1 = "delete_student_tool" /\ outbox out.1 = outbox w)))) (tools env) /\
  (forall args w t,
     In t (tools env) ->
     In t.1 ["get_student_info"; "list_all_students"; "get_campus_analytics"] ->
     registry (t.2 args w).1 = registry w /\ outbox (t.2 args w).1 = outbox w).
Proof.
  assert (Hall : Forall (fun t => forall args w,
    let out := t.2 args w in
    ((registry out.1 = registry w /\ outbox out.1 = outbox w) \/
     (reports_success out /\
      (((t.1 = "add_student_tool" \/ t.1 = "update_student_info") /\
        exists call, outbox out.1 = outbox w ++ [call]) \/
       (t.1 = "delete_student_tool" /\ outbox out.1 = outbox w)))) /\
    (In t.1 ["get_student_info"; "list_all_students"; "get_campus_analytics"] ->
     registry out.1 = registry w /\ outbox out.1 = outbox w)) (tools env)).
  { unfold tools, reports_success.
    repeat match goal with
           | |- Forall _ (_ :: _) => apply List.Forall_cons
           | |- Forall _ [] => apply List.Forall_nil
           end;
      intros args w; cbv zeta; cbn [fst snd];
      (split; [|intros Hname; cbn [In] in Hname;
                first [ exfalso; intuition discriminate | clear Hname ]]);
      unfold arg;
      unfold add_student_tool, get_student_info, update_student_info,
        delete_student_tool, list_all_students, get_campus_analytics_tool,
        add_student, get_student, update_student, delete_student, list_students,
        get_campus_analytics, registry;
      run_monad; cases;
      first [ split; reflexivity
            | left; split; reflexivity
            | right; split; [eexists; split; reflexivity|];
              first [ left; split; [auto|]; eexists; reflexivity
                    | right; split; reflexivity ] ]. }
  split.
  - eapply List.Forall_impl; [|exact Hall]. intros t Ht args w. apply Ht.
  - intros args w t Hin Hname. rewrite List.Forall_forall in Hall.
    now apply (Hall t Hin args w).
Qed.

Lemma call_tool_answers (env : Env) (tc : tool_call) (w : World) :
  exists content,
    (call_tool env tc w).2 =
    Ret (if registered env (tc_name tc) then [ToolMessage content (tc_id tc)] else []).
Proof.
  unfold call_tool, registered, try_catch.
  destruct (List.find _ (tools env)) as [t|] eqn:Hfind.
  - assert (Hreg : existsb (fun t => String.eqb t.1 (tc_name tc)) (tools env) = true).
    { apply find_some in Hfind. apply existsb_exists. now exists t. }
    rewrite Hreg. unfold bind.
    destruct (t.2 (tc_args tc) w) as [w' [j|e]]; simpl; eexists; reflexivity.
  - assert (Hreg : existsb (fun t => String.eqb t.1 (tc_name tc)) (tools env) = false).
    { apply existsb_false_forall. now apply find_none_iff. }
    rewrite Hreg. exists (Text EmptyString). reflexivity.
Qed.

(** X11. [call_tools] never raises.  It answers the calls of the last
    message in their order, with one [ToolMessage] carrying the id of the
    call for each call that names a registered tool, and with no message at
    all for a call that names no registered tool. *)
Theorem call_tools_answers_registered_calls (env : Env) (st : UnifiedAgentState)
    (w : World) :
  exists msgs,
    (call_tools env st w).2 = Ret msgs /\
    map answered_call msgs =
      map (fun tc => Some (tc_id tc))
        (List.filter (fun tc => registered env (tc_name tc)) (pending_calls (messages st))).
Proof.
  unfold call_tools. generalize (pending_calls (messages st)) as calls.
  intros calls. revert w. induction calls as [|tc calls IH]; intros w; simpl.
  - exists []. split; reflexivity.
  - destruct (call_tool_answers env tc w) as [content Hcall]. unfold bind.
    destruct (call_tool env tc w) as [w1 r1]. simpl in Hcall. subst r1.
    destruct (IH w1) as (more & Hmore & Hids).
    destruct (call_tools_loop env calls w1) as [w2 r2]. simpl in Hmore. subst r2.
    eexists. split; [reflexivity|]. rewrite map_app, Hids.
    now destruct (registered env (tc_name tc)).
Qed.

(** ** The graph: how a run ends *)

Lemma call_model_returns (env : Env) (st : UnifiedAgentState) (w : World) :
  exists w' content calls, call_model env st w = (w', Ret (AIMessage content calls)).
Proof.
  unfold call_model. run_monad.
  destruct (llm_with_tools_invoke env (tick w) _) as [[c calls]|e]; simpl;
    eexists _, _, _; reflexivity.
Qed.

Lemma call_tools_loop_returns (env : Env) (calls : list tool_call) (w : World) :
  exists w' msgs, call_tools_loop env calls w = (w', Ret msgs).
Proof.
  revert w. induction calls as [|tc calls IH]; intros w; simpl.
  - eexists _, _. reflexivity.
  - destruct (call_tool_spec env tc w) as (r & Hr & _). unfold bind.
    destruct (call_tool env tc w) as [w1 r1]. simpl in Hr. subst r1.
    destruct (IH w1) as (w2 & more & ->). eexists _, _. reflexivity.
Qed.

Lemma pending_calls_snoc (ms : list message) (content : string) (calls : list tool_call) :
  pending_calls (ms ++ [AIMessage content calls]) = calls.
Proof. unfold pending_calls. now rewrite last_snoc. Qed.

Lemma final_response_last_ai (st : UnifiedAgentState) (pre : list message)
    (content : string) (calls : list tool_call) :
  final_answer st = EmptyString ->
  messages st = pre ++ [AIMessage content calls] ->
  final_response st = content.
Proof.
  intros Ha Hm. unfold final_response. rewrite Ha, Hm. simpl.
  now rewrite rev_unit.
Qed.

Lemma handle_nust_query_returns (env : Env) (st : UnifiedAgentState) (w : World) :
  exists w' answer,
    handle_nust_query env st w =
    (w', Ret {| messages := messages st; query := query st; op_type := op_type st;
                final_answer := answer |}).
Proof.
  unfold handle_nust_query.
  destruct (search_returns env (query st) 3 w) as [rs Hrs].
  destruct (search env (query st) 3 w) as [w1 r1] eqn:Hsearch. simpl in Hrs. subst r1.
  rewrite (bind_eq _ _ _ _ _ Hsearch). run_monad.
  match goal with |- context [llm_invoke env ?n ?p] => destruct (llm_invoke env n p) end;
    simpl; eexists _, _; reflexivity.
Qed.

(** The loop between the model and the tools, from either node. *)
Lemma agent_loop_outcome (env : Env) (message : string) (fuel : nat) :
  forall n st w,
    n = agent \/ n = tools_node ->
    query st = message -> op_type st = classify message ->
    final_answer st = EmptyString ->
    (exists pre, messages st = HumanMessage message :: pre) ->
    match graph_run env fuel n st w with
    | (_, Ret st') =>
        query st' = message /\ op_type st' = classify message /\
        final_answer st' = EmptyString /\
        exists pre content,
          messages st' = HumanMessage message :: pre ++ [AIMessage content []]
    | (_, Raise e) => e = recursion_error env
    end.
Proof.
  induction fuel as [|fuel IH]; intros n st w Hn Hq Hop Hfa [pre Hms].
  - rewrite graph_run_out_of_fuel by (destruct Hn; subst; discriminate). reflexivity.
  - rewrite graph_run_step by (destruct Hn; subst; discriminate).
    destruct Hn as [-> | ->]; cbn [graph_step].
    + destruct (call_model_returns env st w) as (w1 & content & calls & Hcall).
      unfold bind. rewrite Hcall. cbn [ret fst snd].
      unfold should_continue. cbn [set_messages messages].
      rewrite pending_calls_snoc. destruct calls as [|tc calls].
      * rewrite graph_run_end. simpl.
        repeat split; try assumption. exists pre, content. now rewrite Hms.
      * apply IH; simpl; auto. exists (pre ++ [AIMessage content (tc :: calls)]).
        now rewrite Hms.
    + unfold call_tools.
      destruct (call_tools_loop_returns env (pending_calls (messages st)) w)
        as (w1 & msgs & Hcall).
      unfold bind. rewrite Hcall. cbn [ret fst snd].
      apply IH; simpl; auto. exists (pre ++ msgs). now rewrite Hms.
Qed.

(** X12. The graph raises only when the bound on its steps is reached.
    When it returns, the state holds the utterance and its class; after
    the information handler the messages are the utterance alone and the
    answer is the one the handler wrote; otherwise the last message is an
    answer of the model that asks for no tool, and that answer is the
    response read off the state. *)
Theorem graph_invoke_outcome (env : Env) (message : string) (w : World) :
  match graph_invoke env message w with
  | (_, Ret st) =>
      query st = message /\ op_type st = classify message /\
      match classify message with
      | nust_info => messages st = [HumanMessage message]
      | _ =>
          final_answer st = EmptyString /\
          exists pre content,
            messages st = HumanMessage message :: pre ++ [AIMessage content []] /\
            final_response st = content
      end
  | (_, Raise e) =>
      e = recursion_error env /\
      (classify message = nust_info -> recursion_limit env < 2)
  end.
Proof.
  unfold graph_invoke. destruct (recursion_limit env) as [|fuel].
  { rewrite graph_run_out_of_fuel by discriminate. simpl. split; [reflexivity | lia]. }
  rewrite graph_run_step by discriminate. cbn [graph_step]. rewrite bind_ret_l.
  set (st0 := classify_query
                {| messages := [HumanMessage message]; query := message;
                   op_type := unset; final_answer := EmptyString |}).
  pose proof (agent_loop_outcome env message fuel agent st0 w
                (or_introl eq_refl) eq_refl eq_refl eq_refl (ex_intro _ [] eq_refl))
    as Hloop.
  assert (Hagent :
    match graph_run env fuel agent st0 w with
    | (_, Ret st) =>
        query st = message /\ op_type st = classify message /\
        final_answer st = EmptyString /\
        exists pre content,
          messages st = HumanMessage message :: pre ++ [AIMessage content []] /\
          final_response st = content
    | (_, Raise e) => e = recursion_error env
    end).
  { destruct (graph_run env fuel agent st0 w) as [w' [st|e]]; [|assumption].
    destruct Hloop as (Hq & Hop & Hfa & pre & content & Hms).
    repeat split; try assumption. exists pre, content. split; [assumption|].
    apply (final_response_last_ai st (HumanMessage message :: pre) content []);
      [assumption | now rewrite Hms]. }
  clear Hloop. cbn [fst snd]. change (op_type st0) with (classify message).
  destruct (classify message) eqn:Hclass.
  - destruct fuel as [|fuel].
    { rewrite graph_run_out_of_fuel by discriminate. simpl. split; [reflexivity | lia]. }
    rewrite graph_run_step by discriminate. cbn [graph_step].
    destruct (handle_nust_query_returns env st0 w) as (w1 & answer & Hrun).
    unfold bind. rewrite Hrun. cbn [ret fst snd]. rewrite graph_run_end.
    simpl. rewrite Hclass. repeat split.
  - destruct (graph_run env fuel agent st0 w) as [w' [st|e]].
    + exact Hagent.
    + split; [assumption | discriminate].
  - destruct (graph_run env fuel agent st0 w) as [w' [st|e]].
    + exact Hagent.
    + split; [assumption | discriminate].
  - unfold classify in Hclass.
    destruct (Py.any_in nust_keywords _); [discriminate|].
    destruct (Py.any_in admin_keywords _); discriminate.
Qed.

Lemma search_run (env : Env) (q : string) (n : nat) (w : World) :
  exists rs,
    search env q n w =
    ((if ddgs_available env
      then set_tick S (set_search_log (fun log => log ++ [(nust_query q, n)]) w)
      else w), Ret rs).
Proof.
  unfold search. destruct (ddgs_available env); simpl; [|eexists; reflexivity].
  run_monad. simpl.
  destruct (ddgs_text env (tick w) (nust_query q) n); eexists; reflexivity.
Qed.

Lemma handle_nust_query_run (env : Env) (st : UnifiedAgentState) (w : World) :
  exists prompt,
    let w1 := (search env (query st) 3 w).1 in
    handle_nust_query env st w =
    (set_tick S w1,
     Ret {| messages := messages st; query := query st; op_type := op_type st;
            final_answer :=
              match llm_invoke env (tick w1) prompt with
              | Ret a => a
              | Raise e =>
                  "I apologize, but I encountered an error while processing your NUST query: "
                  +:+ e
              end |}).
Proof.
  unfold handle_nust_query.
  destruct (search_run env (query st) 3 w) as [rs Hsearch].
  rewrite (bind_eq _ _ _ _ _ Hsearch). rewrite Hsearch. cbn [fst].
  run_monad.
  match goal with |- context [llm_invoke env ?n ?p] =>
    exists p; destruct (llm_invoke env n p) end; reflexivity.
Qed.

(** X13. An information query is answered by the information handler in
    two steps of the graph: the registry and the outbox are untouched, the
    search provider receives exactly one query when it is available, the
    LLM is consulted once and no tool runs; the answer is the text of the
    LLM, or the apology carrying the detail of its failure. *)
Theorem information_path (env : Env) (message : string) (w : World) :
  classify message = nust_info ->
  2 <= recursion_limit env ->
  exists w' st prompt,
    graph_invoke env message w = (w', Ret st) /\
    registry w' = registry w /\ outbox w' = outbox w /\
    search_log w' =
      search_log w ++ (if ddgs_available env then [(nust_query message, 3)] else []) /\
    tick w' = tick w + (if ddgs_available env then 2 else 1) /\
    messages st = [HumanMessage message] /\
    final_answer st =
      match llm_invoke env (tick w + (if ddgs_available env then 1 else 0)) prompt with
      | Ret a => a
      | Raise e =>
          "I apologize, but I encountered an error while processing your NUST query: "
          +:+ e
      end.
Proof.
  intros Hclass Hfuel. unfold graph_invoke.
  destruct (recursion_limit env) as [|[|fuel]]; try lia.
  rewrite graph_run_step by discriminate. cbn [graph_step]. rewrite bind_ret_l.
  set (st0 := classify_query
                {| messages := [HumanMessage message]; query := message;
                   op_type := unset; final_answer := EmptyString |}).
  cbn [fst snd]. change (op_type st0) with (classify message). rewrite Hclass.
  rewrite graph_run_step by discriminate. cbn [graph_step].
  destruct (handle_nust_query_run env st0 w) as [prompt Hrun]. cbv zeta in Hrun.
  unfold bind. rewrite Hrun. cbn [ret fst snd]. rewrite graph_run_end.
  destruct (search_run env (query st0) 3 w) as [rs Hsearch]. rewrite Hsearch.
  eexists _, _, prompt. split; [reflexivity|].
  change (query st0) with message.
  destruct (ddgs_available env); simpl.
  - rewrite Nat.add_1_r. repeat split. lia.
  - rewrite Nat.add_0_r, app_nil_r. repeat split. lia.
Qed.

Lemma information_path_witness :
  exists w' st prompt,
    graph_invoke calm_env "What is NUST?" empty_world = (w', Ret st) /\
    registry w' = registry empty_world /\ outbox w' = outbox empty_world /\
    search_log w' =
      search_log empty_world
        ++ (if ddgs_available calm_env then [(nust_query "What is NUST?", 3)] else []) /\
    tick w' = tick empty_world + (if ddgs_available calm_env then 2 else 1) /\
    messages st = [HumanMessage "What is NUST?"] /\
    final_answer st =
      match llm_invoke calm_env
              (tick empty_world + (if ddgs_available calm_env then 1 else 0)) prompt with
      | Ret a => a
      | Raise e =>
          "I apologize, but I encountered an error while processing your NUST query: "
          +:+ e
      end.
Proof.
  apply (information_path calm_env "What is NUST?" empty_world).
  - reflexivity.
  - simpl. lia.
Defined.

(** X14. Outside the information path, when the first answer of the model
    asks for no tool (or the model fails), the graph ends after two steps:
    no tool has run, the world is as before but for the one consultation
    of the model, and the response is the text of the model (or the
    apology carrying the detail of its failure). *)
Theorem direct_answer_path (env : Env) (message : string) (w : World) :
  classify message <> nust_info ->
  2 <= recursion_limit env ->
  match llm_with_tools_invoke env (tick w)
          [HumanMessage system_message; HumanMessage message] with
  | Ret (content, []) =>
      exists st, graph_invoke env message w = (set_tick S w, Ret st) /\
                 final_response st = content
  | Ret (_, _ :: _) => True
  | Raise e =>
      exists st, graph_invoke env message w = (set_tick S w, Ret st) /\
                 final_response st = "I encountered an error: " +:+ e
  end.
Proof.
  intros Hc Hfuel. unfold graph_invoke.
  destruct (recursion_limit env) as [|[|fuel]]; try lia.
  rewrite graph_run_step by discriminate.
  cbn [graph_step]. rewrite bind_ret_l. cbn [fst snd].
  assert (Hnode : match op_type (classify_query
                    {| messages := [HumanMessage message]; query := message;
                       op_type := unset; final_answer := EmptyString |}) with
                  | nust_info => nust_handler | _ => agent end = agent).
  { simpl. destruct (classify message); congruence. }
  rewrite Hnode. rewrite graph_run_step by discriminate.
  cbn [graph_step]. unfold call_model. run_monad. cbn [messages classify_query].
  destruct (llm_with_tools_invoke env (tick w) _) as [[content [|tc calls]]|e];
    [| exact Logic.I |]; cbn; rewrite graph_run_end;
    eexists; (split; reflexivity).
Qed.

Lemma direct_answer_path_witness :
  exists st, graph_invoke calm_env "hello" empty_world = (set_tick S empty_world, Ret st) /\
             final_response st = "Done.".
Proof.
  apply (direct_answer_path calm_env "hello" empty_world).
  - discriminate.
  - simpl. lia.
Defined.

(** ** Session store: creating a session *)

(** X15. [create_session] never raises and never changes a session the
    store holds.  It returns the id given when one is given (not empty),
    a fresh uuid otherwise; after the call the store holds a session under
    the id returned, which [get_session_info] returns: the one it held
    before, or else a new one with the user given, the reading of the
    clock as its creation and last-activity time, and an empty history. *)
Theorem create_session_outcome (env : Env) (user_id : string) (o : option string)
    (w : World) :
  exists w' sid s,
    create_session env user_id o w = (w', Ret sid) /\
    (given o = true -> sid = default EmptyString o) /\
    (given o = false -> sid = uuid_str (uuid4_int (uuid_bits env (tick w)))) /\
    (forall k old, sessions w !! k = Some old -> sessions w' !! k = Some old) /\
    (forall k, k <> sid -> sessions w' !! k = sessions w !! k) /\
    (get_session_info sid w').2 = Ret (Some s) /\
    (sessions w !! sid = None ->
       exists t,
         s = {| s_session_id := sid; s_user_id := user_id; s_created_at := t;
                s_last_activity := t; s_conversation_history := [] |}) /\
    registry w' = registry w /\ yielded w' = yielded w.
Proof.
  unfold create_session, get_session_info, registry. run_monad.
  destruct (given o) eqn:Hg; simpl.
  - destruct (has_session (default EmptyString o) w) eqn:Hhas; simpl.
    + apply has_session_spec in Hhas as [s Hs].
      exists w, (default EmptyString o), s. rewrite Hs.
      repeat split; auto; try discriminate; try (intros; congruence).
    + rewrite Hhas. simpl. eexists _, (default EmptyString o), _.
      split; [reflexivity|]. simpl. rewrite lookup_insert_eq.
      assert (Hnone : sessions w !! default EmptyString o = None).
      { unfold has_session in Hhas. now destruct (sessions w !! default EmptyString o). }
      repeat split; auto; try discriminate.
      * intros k old Hk. rewrite lookup_insert_ne; [assumption | congruence].
      * intros k Hk. now rewrite lookup_insert_ne.
      * intros _. eexists. reflexivity.
  - set (sid := uuid_str (uuid4_int (uuid_bits env (tick w)))).
    unfold has_session. simpl.
    destruct (sessions w !! sid) as [s|] eqn:Hs; simpl.
    + eexists _, sid, s. split; [reflexivity|]. simpl. rewrite Hs.
      repeat split; auto; try discriminate; try (intros; congruence).
    + eexists _, sid, _. split; [reflexivity|]. simpl. rewrite lookup_insert_eq.
      repeat split; auto; try discriminate.
      * intros k old Hk. rewrite lookup_insert_ne; [assumption | congruence].
      * intros k Hk. now rewrite lookup_insert_ne.
      * intros _. eexists. reflexivity.
Qed.

(** ** Streaming: what the general branch leaves untouched *)

Section Untouched.

(** [proj] is a part of the world that the session store, the stream and
    the oracles do not write. *)
Context {X : Type} (proj : World -> X).
Hypothesis proj_tick : forall f w, proj (set_tick f w) = proj w.
Hypothesis proj_sessions : forall f w, proj (set_sessions f w) = proj w.
Hypothesis proj_yielded : forall f w, proj (set_yielded f w) = proj w.

Variable env : Env.

Ltac untouched_step :=
  first
    [ apply keeps_ret | apply keeps_raise | apply keeps_get
    | apply keeps_oracle; exact proj_tick | apply keeps_lift_result
    | apply keeps_modify; intros ?; solve [auto]
    | apply keeps_bind; [|intros ?]
    | apply keeps_try_catch; [|intros ?]
    | assumption
    | match goal with
      | |- keeps _ (match ?x with _ => _ end) => destruct x
      | |- keeps _ (let _ := _ in _) => cbv zeta
      end ].

Ltac untouched := repeat untouched_step.

Lemma untouched_or_uuid4 (o : option string) : keeps proj (or_uuid4 env o).
Proof. unfold or_uuid4, uuid4. untouched. Qed.

Lemma untouched_session_at (sid : string) : keeps proj (session_at sid).
Proof. unfold session_at. untouched. Qed.

Lemma untouched_update_session (sid : string) (f : Session -> Session) :
  keeps proj (update_session sid f).
Proof. unfold update_session. untouched. Qed.

Lemma untouched_open_session (sid : string) : keeps proj (open_session env sid).
Proof. unfold open_session, create_session, session_at, update_session, uuid4. untouched. Qed.

Lemma untouched_yield (s : Snapshot) : keeps proj (yield s).
Proof. unfold yield. untouched. Qed.

Lemma untouched_error_loop (sid : M string) (text : string) (total : nat)
    (rest : list ascii) :
  keeps proj sid -> forall i, keeps proj (error_loop env sid text total i rest).
Proof.
  intros Hsid. induction rest as [|c rest IH]; intros i; simpl; [apply keeps_ret|].
  apply keeps_bind; [exact Hsid|]. intros id.
  apply keeps_bind; [apply keeps_oracle; exact proj_tick|]. intros t.
  apply keeps_bind; [apply untouched_yield | intros _; apply IH].
Qed.

Lemma untouched_stream_error (sid : M string) (text : string) :
  keeps proj sid -> keeps proj (stream_error env sid text).
Proof. intros H. unfold stream_error. now apply untouched_error_loop. Qed.

Lemma untouched_char_loop (sid : string) (total : nat) (rest : list ascii) :
  forall i current_text, keeps proj (char_loop env sid total i current_text rest).
Proof.
  induction rest as [|c rest IH]; intros i cur; simpl; [apply keeps_ret|].
  apply keeps_bind; [|intros _; apply IH].
  match goal with |- context [if ?b then _ else _] => destruct b end;
    [|apply keeps_ret].
  apply keeps_bind; [apply keeps_oracle; exact proj_tick|]. intros t.
  apply untouched_yield.
Qed.

Lemma untouched_astream_loop (sid : string) (fragments_left : list string)
    (failure : option string) :
  forall full_content chunk_count,
    keeps proj (astream_loop env sid full_content chunk_count fragments_left failure).
Proof.
  induction fragments_left as [|chunk rest IH]; intros full count; simpl.
  - destruct failure; [apply keeps_raise | apply keeps_ret].
  - destruct (Py.truthy chunk); [|apply IH].
    apply keeps_bind; [apply keeps_oracle; exact proj_tick|]. intros t.
    apply keeps_bind; [apply untouched_yield | intros _; apply IH].
Qed.

Lemma untouched_stream_general (sid message : string) :
  keeps proj (stream_general env sid message).
Proof.
  unfold stream_general. cbv zeta. apply keeps_try_catch.
  - apply keeps_bind; [apply untouched_session_at|]. intros session.
    apply keeps_try_catch.
    + destruct (llm_has_astream env).
      * apply keeps_bind; [apply keeps_oracle; exact proj_tick|]. intros stream.
        apply keeps_bind; [apply untouched_astream_loop|]. intros c.
        apply keeps_bind; [apply keeps_oracle; exact proj_tick|]. intros t.
        apply keeps_bind; [apply untouched_yield | intros; apply keeps_ret].
      * apply keeps_bind; [apply keeps_oracle; exact proj_tick|]. intros response.
        apply keeps_bind; [apply keeps_lift_result|]. intros c.
        apply keeps_bind; [apply untouched_char_loop | intros; apply keeps_ret].
    + intros e. apply keeps_bind; [|intros; apply keeps_ret].
      apply untouched_stream_error, keeps_ret.
  - intros e. apply keeps_bind; [|intros; apply keeps_ret].
    apply untouched_stream_error, keeps_ret.
Qed.

Lemma untouched_stream_chat (message : string) (o : option string) :
  Py.any_in admin_keywords (Py.lower message) = false ->
  keeps proj (stream_chat env message o).
Proof.
  intros Hgeneral. unfold stream_chat. rewrite Hgeneral.
  apply keeps_bind; [apply untouched_or_uuid4|]. intros sid.
  apply keeps_try_catch.
  - apply keeps_bind; [apply untouched_open_session|]. intros _.
    apply keeps_bind; [apply untouched_session_at|]. intros _.
    apply keeps_bind; [apply keeps_oracle; exact proj_tick|]. intros t.
    apply keeps_bind; [apply untouched_update_session|]. intros _.
    apply keeps_bind; [apply untouched_stream_general|]. intros c.
    destruct (Py.truthy c); [|apply keeps_ret].
    apply keeps_bind; [apply untouched_session_at|]. intros _.
    apply keeps_bind; [apply keeps_oracle; exact proj_tick|]. intros t'.
    apply untouched_update_session.
  - intros e. apply untouched_stream_error, untouched_or_uuid4.
Qed.

End Untouched.

(** X16. A turn of [stream_chat] for an utterance without an
    administrative keyword does not run the graph: the registry, the
    outbox and the log of the search provider are as before, also for an
    information query, for which [chat] consults the search provider. *)
Theorem stream_without_admin_keyword (env : Env) (message : string)
    (o : option string) (w : World) :
  ~ mentions_any admin_keywords message ->
  let w' := (stream_chat env message o w).1 in
  registry w' = registry w /\ outbox w' = outbox w /\ search_log w' = search_log w.
Proof.
  intros Hgeneral.
  assert (H : Py.any_in admin_keywords (Py.lower message) = false).
  { destruct (Py.any_in admin_keywords (Py.lower message)) eqn:Hany; [|reflexivity].
    exfalso. apply Hgeneral. now apply any_in_lower_mentions. }
  repeat split.
  - apply (untouched_stream_chat registry); auto.
  - apply (untouched_stream_chat outbox); auto.
  - apply (untouched_stream_chat search_log); auto.
Qed.

Lemma stream_without_admin_keyword_witness :
  let w' := (stream_chat calm_env "What is NUST?" None campus_world).1 in
  registry w' = registry campus_world /\ outbox w' = outbox campus_world /\
  search_log w' = search_log campus_world.
Proof.
  apply (stream_without_admin_keyword calm_env "What is NUST?" None campus_world).
  intros H. apply any_in_lower_mentions in H. vm_compute in H. discriminate.
Defined.

(** ** Streaming: the session id and the text of the closing snapshot *)

Lemma take_all (s : string) : Py.take (Py.len s) s = s.
Proof. induction s as [|c s IH]; simpl; [reflexivity | now f_equal]. Qed.

Lemma text_of_chars (s : string) : text_of (Py.chars s) = s.
Proof. apply string_of_list_ascii_of_string. Qed.

Lemma closes_with_nil (sid text : string) : closes_with sid text [].
Proof. split; [constructor | discriminate]. Qed.

Lemma closes_with_cons (sid text : string) (s : Snapshot) (l : list Snapshot) :
  sn_session_id s = sid -> l <> [] -> closes_with sid text l ->
  closes_with sid text (s :: l).
Proof.
  intros Hs Hne [Hall Hlast]. split; [now constructor|].
  intros final. destruct l as [|x l]; [congruence|]. exact (Hlast final).
Qed.

Lemma closes_with_single (sid : string) (s : Snapshot) :
  sn_session_id s = sid -> closes_with sid (sn_response s) [s].
Proof.
  intros Hs. split; [now repeat constructor|]. now intros final [= <-].
Qed.

Lemma closes_with_app (sid text : string) (a b : list Snapshot) :
  Forall (fun s => sn_session_id s = sid) a -> b <> [] -> closes_with sid text b ->
  closes_with sid text (a ++ b).
Proof.
  intros Ha Hne [Hb Hlast]. split; [apply List.Forall_app; now split|].
  intros final Hfinal. apply Hlast. rewrite <- Hfinal.
  destruct b as [|x b] using rev_ind; [congruence|].
  now rewrite List.app_assoc, !last_snoc.
Qed.

Lemma app_same_nil {A : Type} (a l : list A) : a = a ++ l -> l = [].
Proof.
  intros H. symmetry. apply (app_inv_head a). now rewrite app_nil_r.
Qed.

Section ClosingText.

Variable env : Env.

Lemma word_loop_closes (sid : string) (total : nat) (words : list string) :
  forall i current_text w,
    i + length words = total ->
    exists w' l,
      word_loop env sid total i current_text words w = (w', Ret tt) /\
      yielded w' = yielded w ++ l /\ sessions w' = sessions w /\
      (words <> [] -> l <> []) /\
      closes_with sid (current_text +:+ Py.join " " words) l.
Proof.
  induction words as [|word rest IH]; intros i cur w Hlen.
  - exists w, []. simpl. rewrite app_nil_r.
    do 3 (split; [reflexivity|]). split; [congruence | apply closes_with_nil].
  - simpl in Hlen. simpl word_loop. run_monad.
    match goal with |- context [word_loop env sid total (S i) ?c rest ?w1] =>
      destruct (IH (S i) c w1) as (w' & l & Hrun & Hy & Hs & Hne & Hclose); [lia|]
    end.
    rewrite Hrun. eexists w', (_ :: l). split; [reflexivity|]. simpl in Hy, Hs.
    split; [rewrite Hy, <- List.app_assoc; reflexivity|].
    split; [exact Hs|]. split; [discriminate|].
    destruct rest as [|word' rest'].
    + simpl in Hrun. injection Hrun as <-.
      assert (l = []) as ->.
      { simpl in Hy. now apply app_same_nil in Hy. }
      simpl in Hlen.
      replace (i <? total - 1) with false by (symmetry; apply Nat.ltb_ge; lia).
      rewrite append_empty_r.
      match goal with |- closes_with _ ?t [?s] =>
        change t with (sn_response s) end.
      now apply closes_with_single.
    + apply closes_with_cons; [reflexivity | apply Hne; discriminate |].
      simpl in Hlen.
      replace (i <? total - 1) with true in Hclose by (symmetry; apply Nat.ltb_lt; lia).
      change (Py.join " " (word :: word' :: rest'))
        with (word +:+ " " +:+ Py.join " " (word' :: rest')).
      now rewrite !append_assoc in Hclose.
Qed.

Lemma error_loop_closes (sid : M string) (id text : string) (total : nat)
    (rest : list ascii) :
  (forall w0, sid w0 = (w0, Ret id)) ->
  forall i w,
    exists w' l,
      error_loop env sid text total i rest w = (w', Ret tt) /\
      yielded w' = yielded w ++ l /\ sessions w' = sessions w /\
      (rest <> [] -> l <> []) /\
      closes_with id (Py.take (i + length rest) text) l.
Proof.
  intros Hsid. induction rest as [|c rest IH]; intros i w.
  - exists w, []. simpl. rewrite app_nil_r.
    do 3 (split; [reflexivity|]). split; [congruence | apply closes_with_nil].
  - simpl error_loop. rewrite (bind_eq _ _ _ _ _ (Hsid w)). run_monad.
    match goal with |- context [error_loop env sid text total (S i) rest ?w1] =>
      destruct (IH (S i) w1) as (w' & l & Hrun & Hy & Hs & Hne & Hclose)
    end.
    rewrite Hrun. eexists w', (_ :: l). split; [reflexivity|]. simpl in Hy, Hs.
    split; [rewrite Hy, <- List.app_assoc; reflexivity|].
    split; [exact Hs|]. split; [discriminate|].
    destruct rest as [|c' rest'].
    + simpl in Hrun. injection Hrun as <-.
      assert (l = []) as ->.
      { simpl in Hy. now apply app_same_nil in Hy. }
      simpl length.
      match goal with |- closes_with _ ?t [?s] =>
        change t with (sn_response s) end.
      now apply closes_with_single.
    + apply closes_with_cons; [reflexivity | apply Hne; discriminate |].
      replace (i + length (c :: c' :: rest')) with (S i + length (c' :: rest'))
        by (simpl; lia).
      exact Hclose.
Qed.

Lemma stream_error_closes (sid : M string) (id prefix e : string) (w : World) :
  (forall w0, sid w0 = (w0, Ret id)) ->
  Py.truthy prefix = true ->
  exists w' l,
    stream_error env sid (prefix +:+ e) w = (w', Ret tt) /\
    yielded w' = yielded w ++ l /\ sessions w' = sessions w /\
    l <> [] /\ closes_with id (prefix +:+ e) l.
Proof.
  intros Hsid Hp. unfold stream_error.
  destruct (error_loop_closes sid id (prefix +:+ e) (Py.len (prefix +:+ e))
              (Py.chars (prefix +:+ e)) Hsid 0 w)
    as (w' & l & Hrun & Hy & Hs & Hne & Hclose).
  simpl in Hclose. rewrite chars_length in Hclose.
  exists w', l. do 3 (split; [assumption|]). split.
  - apply Hne. destruct prefix; [discriminate | discriminate].
  - now rewrite take_all in Hclose.
Qed.

Lemma char_loop_closes (sid : string) (total : nat) (rest : list ascii) :
  forall i current_text w,
    i + length rest = total ->
    exists w' l,
      char_loop env sid total i current_text rest w = (w', Ret tt) /\
      yielded w' = yielded w ++ l /\ sessions w' = sessions w /\
      (rest <> [] -> l <> []) /\
      closes_with sid (current_text +:+ text_of rest) l.
Proof.
  induction rest as [|c rest IH]; intros i cur w Hlen.
  - exists w, []. simpl. rewrite app_nil_r.
    do 3 (split; [reflexivity|]). split; [congruence | apply closes_with_nil].
  - simpl in Hlen. simpl char_loop.
    match goal with |- context [if ?b then _ else _] => destruct b eqn:Hcond end.
    + run_monad.
      match goal with |- context [char_loop env sid total (S i) ?t rest ?w1] =>
        destruct (IH (S i) t w1) as (w' & l & Hrun & Hy & Hs & Hne & Hclose); [lia|]
      end.
      rewrite Hrun. eexists w', (_ :: l). split; [reflexivity|]. simpl in Hy, Hs.
      split; [rewrite Hy, <- List.app_assoc; reflexivity|].
      split; [exact Hs|]. split; [discriminate|].
      destruct rest as [|c' rest'].
      * simpl in Hrun. injection Hrun as <-.
        assert (l = []) as -> by (simpl in Hy; now apply app_same_nil in Hy).
        match goal with |- closes_with _ ?t [?s] =>
          change t with (sn_response s) end.
        now apply closes_with_single.
      * apply closes_with_cons; [reflexivity | apply Hne; discriminate |].
        rewrite append_assoc in Hclose. exact Hclose.
    + run_monad.
      match goal with |- context [char_loop env sid total (S i) ?t rest ?w1] =>
        destruct (IH (S i) t w1) as (w' & l & Hrun & Hy & Hs & Hne & Hclose); [lia|]
      end.
      rewrite Hrun. exists w', l. split; [reflexivity|].
      split; [exact Hy|]. split; [exact Hs|].
      assert (Hrest : rest <> []).
      { intros ->. simpl in Hlen.
        apply orb_false_iff in Hcond as [_ Hcond].
        apply Nat.eqb_neq in Hcond. lia. }
      split; [intros _; now apply Hne|].
      rewrite append_assoc in Hclose. exact Hclose.
Qed.

Lemma astream_loop_ids (sid : string) (fragments_left : list string)
    (failure : option string) :
  forall full_content chunk_count w,
    exists w' l r,
      astream_loop env sid full_content chunk_count fragments_left failure w = (w', r) /\
      yielded w' = yielded w ++ l /\ sessions w' = sessions w /\
      Forall (fun s => sn_session_id s = sid) l /\
      match failure with
      | Some e => r = Raise e
      | None => exists c, r = Ret c
      end.
Proof.
  induction fragments_left as [|chunk rest IH]; intros full count w.
  - exists w, []. simpl. destruct failure as [e|]; eexists;
      (split; [reflexivity|]); rewrite app_nil_r;
      do 2 (split; [reflexivity|]); (split; [constructor | eauto]).
  - simpl. destruct (Py.truthy chunk); [|apply IH].
    run_monad.
    match goal with |- context [astream_loop env sid ?f ?c rest failure ?w1] =>
      destruct (IH f c w1) as (w' & l & r & Hrun & Hy & Hs & Hall & Hr)
    end.
    rewrite Hrun. eexists w', (_ :: l), r.
    split; [reflexivity|]. simpl in Hy, Hs.
    split; [rewrite Hy, <- List.app_assoc; reflexivity|].
    split; [exact Hs|]. split; [|exact Hr]. now constructor.
Qed.

Lemma stream_admin_closes (sid message : string) (w : World) :
  exists w' c l,
    stream_admin env sid message w = (w', Ret c) /\
    yielded w' = yielded w ++ l /\ sessions w' = sessions w /\
    (closes_with sid c l \/ closes_with sid (Py.join " " (Py.split c)) l).
Proof.
  unfold stream_admin.
  destruct (graph_invoke_frame env message w) as [Hy0 Hs0].
  destruct (graph_invoke env message w) as [w1 [st|e]] eqn:Hg; simpl in Hy0, Hs0.
  - destruct (word_loop_closes sid (length (Py.split (final_response st)))
                (Py.split (final_response st)) 0 EmptyString w1 eq_refl)
      as (w' & l & Hrun & Hy & Hs & _ & Hclose).
    exists w', (final_response st), l. split.
    + apply try_catch_ret. rewrite (bind_eq _ _ _ _ _ Hg). cbv zeta.
      now rewrite (bind_eq _ _ _ _ _ Hrun).
    + split; [congruence|]. split; [congruence|]. now right.
  - destruct (stream_error_closes (ret sid) sid
                "I encountered an error while processing your request: " e w1)
      as (w' & l & Hrun & Hy & Hs & _ & Hclose); [reflexivity | reflexivity |].
    exists w', ("I encountered an error while processing your request: " +:+ e), l.
    split.
    + erewrite try_catch_raise by (apply bind_raise; exact Hg). cbv zeta.
      now rewrite (bind_eq _ _ _ _ _ Hrun).
    + split; [congruence|]. split; [congruence|]. now left.
Qed.

Lemma stream_general_closes (sid message : string) (w : World) :
  exists w' c l,
    stream_general env sid message w = (w', Ret c) /\
    yielded w' = yielded w ++ l /\ sessions w' = sessions w /\
    closes_with sid c l.
Proof.
  unfold stream_general. cbv zeta.
  destruct (sessions w !! sid) as [s|] eqn:Hlook.
  2: { destruct (stream_error_closes (ret sid) sid apology (key_error sid) w)
         as (w' & l & Hrun & Hy & Hs & _ & Hclose); [reflexivity | reflexivity |].
       exists w', (apology +:+ key_error sid), l. split.
       - erewrite try_catch_raise
           by (apply bind_raise; apply session_at_none; exact Hlook).
         now rewrite (bind_eq _ _ _ _ _ Hrun).
       - do 2 (split; [assumption|]). assumption. }
  set (full_prompt := _build_prompt message (_get_context env message)
                        (s_conversation_history s)).
  assert (Hinner : exists w' c l,
    try_catch
      (if llm_has_astream env then
         stream <- oracle (fun n => llm_astream env n full_prompt);;
         full_content <- astream_loop env sid EmptyString 0 stream.1 stream.2;;
         t <- now env;;
         yield {| sn_response := full_content; sn_session_id := sid; sn_timestamp := t;
                  sn_progress := 100; sn_streaming := None; sn_error := None;
                  sn_complete := Some true |};;
         ret full_content
       else
         response <- oracle (fun n => llm_ainvoke env n full_prompt);;
         full_content <- lift_result response;;
         char_loop env sid (Py.len full_content) 0 EmptyString (Py.chars full_content);;
         ret full_content)
      (fun llm_error =>
         let full_content := apology +:+ llm_error in
         stream_error env (ret sid) full_content;;
         ret full_content) w = (w', Ret c) /\
    yielded w' = yielded w ++ l /\ sessions w' = sessions w /\ closes_with sid c l).
  { destruct (llm_has_astream env).
    - destruct (llm_astream env (tick w) full_prompt) as [frags failure] eqn:Hstream.
      destruct (astream_loop_ids sid frags failure EmptyString 0 (set_tick S w))
        as (w1 & a & r & Hrun & Hy1 & Hs1 & Hids & Hr).
      simpl in Hy1, Hs1.
      destruct failure as [e|].
      + subst r.
        destruct (stream_error_closes (ret sid) sid apology e w1)
          as (w' & b & Herr & Hy & Hs & Hne & Hclose); [reflexivity | reflexivity |].
        exists w', (apology +:+ e), (a ++ b). split.
        * erewrite try_catch_raise.
          2: { rewrite bind_oracle, Hstream. simpl. apply bind_raise. exact Hrun. }
          cbv zeta. now rewrite (bind_eq _ _ _ _ _ Herr).
        * split; [rewrite Hy, Hy1; symmetry; apply List.app_assoc|].
          split; [congruence|].
          now apply closes_with_app.
      + destruct Hr as [c ->].
        eexists _, c, (a ++ [_]). split.
        * apply try_catch_ret. rewrite bind_oracle, Hstream. simpl.
          rewrite (bind_eq _ _ _ _ _ Hrun). unfold now.
          rewrite bind_oracle, bind_yield. reflexivity.
        * simpl. split; [rewrite Hy1; symmetry; apply List.app_assoc|].
          split; [exact Hs1|]. split.
          -- apply List.Forall_app. split; [assumption | now repeat constructor].
          -- intros final. rewrite last_snoc. now intros [= <-].
    - destruct (llm_ainvoke env (tick w) full_prompt) as [text|e] eqn:Hinvoke.
      + destruct (char_loop_closes sid (Py.len text) (Py.chars text) 0 EmptyString
                    (set_tick S w))
          as (w' & l & Hrun & Hy & Hs & _ & Hclose); [apply chars_length|].
        rewrite text_of_chars in Hclose. simpl in Hclose, Hy, Hs.
        exists w', text, l. split.
        * apply try_catch_ret. rewrite bind_oracle, Hinvoke. simpl.
          rewrite bind_ret_l. now rewrite (bind_eq _ _ _ _ _ Hrun).
        * split; [exact Hy|]. split; [exact Hs | exact Hclose].
      + destruct (stream_error_closes (ret sid) sid apology e (set_tick S w))
          as (w' & b & Herr & Hy & Hs & _ & Hclose); [reflexivity | reflexivity |].
        exists w', (apology +:+ e), b. split.
        * erewrite try_catch_raise.
          2: { rewrite bind_oracle, Hinvoke. simpl. reflexivity. }
          cbv zeta. now rewrite (bind_eq _ _ _ _ _ Herr).
        * split; [exact Hy|]. split; [exact Hs | exact Hclose]. }
  destruct Hinner as (w' & c & l & Hrun & Hy & Hs & Hclose).
  exists w', c, l. split.
  - apply try_catch_ret. rewrite (bind_eq _ _ _ _ _ (session_at_some sid s w Hlook)).
    exact Hrun.
  - do 2 (split; [assumption|]). assumption.
Qed.

End ClosingText.

(** X17. Every snapshot of a stream carries the session id of the turn
    (the one given, when one is given).  The last snapshot carries the
    whole answer: the text the turn stores in the history, or, when the
    answer is the finished answer of the graph replayed word by word, that
    text with every run of white space turned into one space and none
    left at its ends.  Without an administrative keyword in the utterance
    it is always the stored text itself. *)
Theorem stream_closing_snapshot (env : Env) (message : string) (o : option string)
    (w : World) :
  let out := stream_chat env message o (set_yielded (fun _ => []) w) in
  exists sid answer t t',
    (given o = true -> sid = default EmptyString o) /\
    Forall (fun s => sn_session_id s = sid) (yielded out.1) /\
    (forall final, last (yielded out.1) = Some final ->
       sn_response final = answer \/
       sn_response final = Py.join " " (Py.split answer)) /\
    (~ mentions_any admin_keywords message ->
     forall final, last (yielded out.1) = Some final -> sn_response final = answer) /\
    history_of out.1 sid =
      history_of w sid
        ++ user_entry message t
           :: (if Py.truthy answer then [assistant_entry answer t'] else []).
Proof.
  set (w00 := set_yielded (fun _ => []) w). cbv zeta.
  destruct (or_uuid4_spec env o w00) as (w0 & sid & Hor & Ht & Hs0 & Hy0 & Htick & Hg).
  destruct (open_session_spec env sid w0 Ht) as (w1 & s1 & Hop & Hs1 & Hh & Hl & Hu & Hy1).
  assert (Hs1' : sessions w1 = <[sid := s1]> (sessions w)) by (rewrite Hs1, Hs0; reflexivity).
  assert (Hlook1 : sessions w1 !! sid = Some s1).
  { rewrite Hs1'. apply lookup_insert_eq. }
  assert (Hh' : s_conversation_history s1 = history_of w sid).
  { rewrite Hh. unfold history_of. now rewrite Hs0. }
  set (t := clock env (tick w1)).
  set (w2 := set_sessions (fun store =>
                match store !! sid with
                | Some s => <[sid := extend_history [user_entry message t] s]> store
                | None => store
                end) (set_tick S w1)).
  assert (Hs2 : sessions w2 = <[sid := extend_history [user_entry message t] s1]> (sessions w)).
  { subst w2. simpl. rewrite Hlook1, Hs1'. apply insert_insert_eq. }
  assert (Hy2 : yielded w2 = []) by (subst w2; simpl; rewrite Hy1, Hy0; reflexivity).
  assert (Hbranch : exists w3 c l,
    (if Py.any_in admin_keywords (Py.lower message)
     then stream_admin env sid message else stream_general env sid message) w2
      = (w3, Ret c) /\
    yielded w3 = l /\ sessions w3 = sessions w2 /\
    (closes_with sid c l \/ closes_with sid (Py.join " " (Py.split c)) l) /\
    (~ mentions_any admin_keywords message -> closes_with sid c l)).
  { destruct (Py.any_in admin_keywords (Py.lower message)) eqn:Hany.
    - destruct (stream_admin_closes env sid message w2) as (w3 & c & l & H1 & H2 & H3 & H4).
      exists w3, c, l. rewrite Hy2 in H2. do 4 (split; [assumption|]).
      intros Hn. exfalso. apply Hn. now apply any_in_lower_mentions.
    - destruct (stream_general_closes env sid message w2) as (w3 & c & l & H1 & H2 & H3 & H4).
      exists w3, c, l. rewrite Hy2 in H2. do 3 (split; [assumption|]).
      split; [now left | intros _; assumption]. }
  destruct Hbranch as (w3 & c & l & Hrun & Hy3 & Hs3 & Hclose & Hgeneral).
  assert (Hlook3 : sessions w3 !! sid = Some (extend_history [user_entry message t] s1)).
  { rewrite Hs3, Hs2. apply lookup_insert_eq. }
  assert (Hbody : forall tail : string -> M unit,
    (open_session env sid;;
     _ <- session_at sid;;
     t <- now env;;
     update_session sid (extend_history
       [{| h_role := "user"; h_content := message; h_timestamp := t |}]);;
     full_content <-
       (if Py.any_in admin_keywords (Py.lower message)
        then stream_admin env sid message
        else stream_general env sid message);;
     tail full_content) w0 = tail c w3).
  { intros tail. rewrite (bind_eq _ _ _ _ _ Hop).
    rewrite (bind_eq _ _ _ _ _ (session_at_some sid s1 w1 Hlook1)).
    unfold now. rewrite bind_oracle. unfold update_session. rewrite bind_modify.
    fold t. change (set_sessions _ (set_tick S w1)) with w2.
    now rewrite (bind_eq _ _ _ _ _ Hrun). }
  assert (Hout : exists w' t',
    stream_chat env message o w00 = (w', Ret tt) /\ yielded w' = l /\
    sessions w' =
      <[sid := extend_history
                 (user_entry message t ::
                  (if Py.truthy c then [assistant_entry c t'] else [])) s1]>
        (sessions w)).
  { unfold stream_chat. rewrite (bind_eq _ _ _ _ _ Hor).
    destruct (Py.truthy c) eqn:Hc.
    - eexists _, (clock env (tick w3)). split.
      + apply try_catch_ret. rewrite Hbody, Hc.
        rewrite (bind_eq _ _ _ _ _ (session_at_some sid _ w3 Hlook3)).
        unfold now. rewrite bind_oracle. reflexivity.
      + simpl. split; [assumption|].
        rewrite Hlook3, Hs3, Hs2, insert_insert_eq, extend_history_twice. reflexivity.
    - exists w3, 0%Z. split.
      + apply try_catch_ret. rewrite Hbody, Hc. reflexivity.
      + split; [assumption|]. congruence. }
  destruct Hout as (w' & t' & Hstream & Hy & Hs).
  rewrite Hstream. cbn [fst]. rewrite Hy.
  exists sid, c, t, t'.
  split; [intros H; now apply Hg|].
  split; [destruct Hclose as [[H _]|[H _]]; exact H|].
  split; [intros final Hfinal; destruct Hclose as [[_ H]|[_ H]]; [left | right]; now apply H|].
  split; [intros Hn final Hfinal; now apply (Hgeneral Hn)|].
  unfold history_of at 1. rewrite Hs, lookup_insert_eq. simpl. now rewrite Hh'.
Qed.

(** ** The prompt of the general branch *)

Lemma truthy_app_r (a b : string) : Py.truthy b = true -> Py.truthy (a +:+ b) = true.
Proof. destruct a; simpl; auto. Qed.

Lemma rstrip_app (a b : string) :
  Py.truthy (Py.rstrip b) = true -> Py.rstrip (a +:+ b) = a +:+ Py.rstrip b.
Proof.
  intros Hb. induction a as [|c a IH]; simpl; [reflexivity|].
  rewrite IH, (truthy_app_r a _ Hb), andb_false_r. reflexivity.
Qed.

Lemma rstrip_truthy_app (a b : string) :
  Py.truthy (Py.rstrip b) = true -> Py.truthy (Py.rstrip (a +:+ b)) = true.
Proof. intros Hb. rewrite rstrip_app by assumption. now apply truthy_app_r. Qed.

Lemma lstrip_app_nonspace (c : ascii) (a b : string) :
  Py.isspace c = false -> Py.lstrip (String c a +:+ b) = String c a +:+ b.
Proof. intros Hc. simpl. now rewrite Hc. Qed.

Lemma fold_left_transcript (entries : list HistoryEntry) (init : string) :
  fold_left (fun acc msg =>
      acc +:+ (if String.eqb (h_role msg) "user" then "User" else "Assistant")
      +:+ ": " +:+ h_content msg +:+ Py.nl) entries init
  = init +:+ transcript entries.
Proof.
  revert init. induction entries as [|e entries IH]; intros init;
    cbn [fold_left transcript foldr].
  - now rewrite append_empty_r.
  - rewrite IH. unfold rendered. now rewrite !append_assoc.
Qed.

Lemma last_entries_idempotent {A : Type} (n : nat) (l : list A) :
  last_entries n (last_entries n l) = last_entries n l.
Proof.
  unfold last_entries. rewrite length_skipn.
  replace (length l - (length l - n) - n) with 0 by lia. reflexivity.
Qed.

(** X18. The prompt [_build_prompt] returns is the system prompt, the
    context block when the context is not empty, the last six entries of
    the history, one line each, and the utterance, in this order; the
    utterance, the context and the entries appear verbatim, and all that
    the final [strip] removes is the blank after [Assistant:].  Earlier
    entries of the history do not enter the prompt. *)
Theorem build_prompt_form (message context : string) (history : list HistoryEntry) :
  _build_prompt message context history =
    build_system_prompt +:+ Py.nl +:+ Py.nl
    +:+ (if Py.truthy context
         then Py.nl +:+ "Relevant Context:" +:+ Py.nl +:+ context +:+ Py.nl
         else EmptyString)
    +:+ Py.nl +:+ "Conversation History:" +:+ Py.nl
    +:+ transcript (last_entries 6 history)
    +:+ Py.nl +:+ Py.nl +:+ "User: " +:+ message +:+ Py.nl +:+ "Assistant:" /\
  length (last_entries 6 history) <= 6 /\
  _build_prompt message context history =
    _build_prompt message context (last_entries 6 history).
Proof.
  assert (Hform : forall h,
    _build_prompt message context h =
      build_system_prompt +:+ Py.nl +:+ Py.nl
      +:+ (if Py.truthy context
           then Py.nl +:+ "Relevant Context:" +:+ Py.nl +:+ context +:+ Py.nl
           else EmptyString)
      +:+ Py.nl +:+ "Conversation History:" +:+ Py.nl
      +:+ transcript (last_entries 6 h)
      +:+ Py.nl +:+ Py.nl +:+ "User: " +:+ message +:+ Py.nl +:+ "Assistant:").
  { intros h. unfold _build_prompt. cbv zeta.
    rewrite fold_left_transcript. fold (last_entries 6 h).
    change (EmptyString +:+ transcript (last_entries 6 h))
      with (transcript (last_entries 6 h)).
    unfold Py.strip.
    assert (Hhead : exists c tail, build_system_prompt = String c tail /\
                                   Py.isspace c = false).
    { eexists _, _. split; [vm_compute; reflexivity | reflexivity]. }
    destruct Hhead as (c & tail & Hhead & Hc).
    generalize dependent build_system_prompt. intros bsp ->.
    rewrite lstrip_app_nonspace by assumption.
    rewrite !rstrip_app by (repeat apply rstrip_truthy_app; reflexivity).
    reflexivity. }
  split; [apply Hform|]. split.
  - unfold last_entries. rewrite length_skipn. lia.
  - rewrite (Hform history), (Hform (last_entries 6 history)).
    now rewrite last_entries_idempotent.
Qed.

(** ** Context of the general branch and empty retrievals *)

(** X19. [_get_context] consults the corpus exactly for the utterances that
    mention [nust], [national university] or [sciences technology], in any
    casing; every such utterance is an information query for the
    classifier.  The converse fails: an utterance that mentions
    [islamabad university] and none of the three is an information query
    and gets no context. *)
Theorem get_context_only_for_information (env : Env) (message : string) :
  (mentions_any context_keywords message ->
     _get_context env message =
       Py.join Py.nl (map page_content (retrieve_context (json_docs env) message)) /\
     classify message = nust_info) /\
  (~ mentions_any context_keywords message -> _get_context env message = EmptyString) /\
  (mentions "islamabad university" message ->
   ~ mentions_any context_keywords message ->
     classify message = nust_info /\ _get_context env message = EmptyString).
Proof.
  pose proof (any_in_lower_mentions context_keywords message) as Hctx.
  pose proof (any_in_lower_mentions nust_keywords message) as Hnust.
  assert (Hsub : mentions_any context_keywords message -> mentions_any nust_keywords message).
  { intros (k & Hin & Hk). exists k. split; [|exact Hk].
    unfold context_keywords, nust_keywords in *. simpl in *. tauto. }
  assert (Hinfo : mentions_any nust_keywords message -> classify message = nust_info).
  { intros H. apply Hnust in H. unfold classify. now rewrite H. }
  unfold _get_context. fold context_keywords.
  destruct (Py.any_in context_keywords (Py.lower message)) eqn:Hany.
  - assert (Hm : mentions_any context_keywords message) by now apply Hctx.
    split; [intros _; split; [reflexivity | auto]|].
    split; [intros Hn; now destruct Hn|]. intros _ Hn. now destruct Hn.
  - assert (Hn : ~ mentions_any context_keywords message).
    { intros H. apply Hctx in H. congruence. }
    split; [intros H; now destruct Hn|]. split; [reflexivity|].
    intros Hi _. split; [|reflexivity]. apply Hinfo.
    exists "islamabad university". split; [|exact Hi].
    unfold nust_keywords. simpl. tauto.
Qed.

Lemma isspace_lower_char (c : ascii) : Py.isspace c = true -> Py.lower_char c = c.
Proof. destruct c as [[] [] [] [] [] [] [] []]; simpl; intros H; try reflexivity; discriminate H. Qed.

Lemma blank_lower (s : string) : blank s -> blank (Py.lower s).
Proof.
  unfold blank. induction s as [|c s IH]; simpl; [auto|]. intros [Hc Hs].
  rewrite (isspace_lower_char c Hc). auto.
Qed.

Lemma split_blank (s : string) : blank s -> Py.split s = [].
Proof.
  unfold blank, Py.split. induction s as [|c s IH]; simpl; [reflexivity|].
  intros [Hc Hs]. rewrite Hc. simpl. auto.
Qed.

Lemma retrieve_context_scored (corpus : list Document) (q : string) :
  retrieve_context corpus q =
  map fst (firstn 3 (sort_desc score_ltb
    (map (fun d => (d, spec_score (Py.split (Py.lower q)) d))
       (List.filter (fun d => 0 <? spec_score (Py.split (Py.lower q)) d) corpus)))).
Proof.
  unfold retrieve_context. destruct corpus as [|d0 corpus']; [reflexivity|].
  now rewrite score_docs_spec.
Qed.

(** [retrieve_context] returns nothing exactly when no entry of the
    corpus has a positive score for the query; this is the case for every
    query made of white space only, the empty one included. *)
Theorem retrieve_context_empty (corpus : list Document) (q : string) :
  (retrieve_context corpus q = [] <->
   forall d, In d corpus -> spec_score (Py.split (Py.lower q)) d = 0) /\
  (blank q -> retrieve_context corpus q = []).
Proof.
  assert (Hiff : retrieve_context corpus q = [] <->
                 forall d, In d corpus -> spec_score (Py.split (Py.lower q)) d = 0).
  { rewrite retrieve_context_scored.
    set (score := spec_score (Py.split (Py.lower q))).
    set (scored := map (fun d => (d, score d)) (List.filter (fun d => 0 <? score d) corpus)).
    pose proof (sort_desc_perm_by score_ltb scored) as Hperm.
    split.
    - intros Hnil d Hd. destruct (score d) as [|n] eqn:Hs; [reflexivity|]. exfalso.
      assert (Hin : In (d, score d) scored).
      { unfold scored. apply in_map_iff. exists d. split; [reflexivity|].
        apply filter_In. split; [assumption|]. apply Nat.ltb_lt. lia. }
      apply (Permutation_in _ (Permutation_sym Hperm)) in Hin.
      destruct (sort_desc score_ltb scored) as [|x l]; [destruct Hin|].
      simpl in Hnil. discriminate.
    - intros Hzero.
      assert (Hscored : scored = []).
      { unfold scored. rewrite filter_none; [reflexivity|].
        intros d Hd. apply Nat.ltb_ge. rewrite (Hzero d Hd). lia. }
      rewrite Hscored. reflexivity. }
  split; [exact Hiff|]. intros Hblank. apply Hiff. intros d _.
  rewrite (split_blank _ (blank_lower q Hblank)). reflexivity.
Qed.

(** ** Email service *)

Lemma take_length (n : nat) (s : string) : Py.len (Py.take n s) <= n.
Proof.
  revert s. induction n as [|n IH]; intros [|c s]; simpl; try lia.
  specialize (IH s). lia.
Qed.

Lemma len_app (a b : string) : Py.len (a +:+ b) = Py.len a + Py.len b.
Proof. unfold Py.len. induction a as [|c a IH]; simpl; [reflexivity | now rewrite IH]. Qed.

Lemma preview_of_bounded (message : string) :
  Py.len (preview_of message) <= 103 /\
  (Py.len message <= 100 -> preview_of message = message) /\
  Py.startswith (Py.take 100 message) (preview_of message) = true.
Proof.
  unfold preview_of. destruct (100 <? Py.len message) eqn:Hlen.
  - apply Nat.ltb_lt in Hlen. split; [|split].
    + rewrite len_app. pose proof (take_length 100 message) as Htake.
      change (Py.len "...") with 3. lia.
    + lia.
    + apply startswith_spec. eexists. reflexivity.
  - apply Nat.ltb_ge in Hlen. split; [lia|]. split; [reflexivity|].
    apply startswith_spec. exists EmptyString. rewrite append_empty_r.
    clear -Hlen. unfold Py.len in Hlen. revert Hlen. generalize 100.
    induction message as [|c s IH]; intros [|n] H; simpl in *; try reflexivity; try lia.
    f_equal. apply IH. lia.
Qed.

(** X20. [send_email] never raises.  Its answer names the recipient and the
    subject given, or the default subject naming the student when none is
    given.  Without both credentials no delivery is attempted: the answer
    reports success in mock mode, with a preview of at most 103 characters
    that is the message itself when it has at most 100.  With credentials
    one delivery is attempted, of the message and of its HTML rendering:
    the answer reports success outside mock mode when it went through, and
    otherwise a failure that carries the detail of the exception. *)
Theorem send_email_outcome (env : Env) (mailer : Mailer)
    (student_id recipient_email message : string) (subject : option string) (w : World) :
  let subject' :=
    if given subject then default EmptyString subject
    else "NUST Campus Admin Notification for Student " +:+ student_id in
  exists w' r,
    send_email env mailer student_id recipient_email message subject w = (w', Ret r) /\
    em_recipient r = recipient_email /\ em_subject r = subject' /\
    registry w' = registry w /\
    if given (gmail_email mailer) && given (gmail_app_password mailer) then
      tick w' = tick w + 2 /\
      match smtp mailer (tick w) (default EmptyString (gmail_email mailer)) recipient_email
              subject' message (_convert_to_html message) with
      | None =>
          em_success r = true /\ em_mock r = false /\
          em_message r = "Email sent successfully" /\ em_error r = None
      | Some detail =>
          em_success r = false /\
          em_message r = "Failed to send email: " +:+ detail /\
          em_error r = Some detail
      end
    else
      tick w' = tick w + 1 /\
      em_success r = true /\ em_mock r = true /\
      em_message r = "Email sent successfully (mock mode - no actual email sent)" /\
      exists p, em_preview r = Some p /\ Py.len p <= 103 /\
                (Py.len message <= 100 -> p = message).
Proof.
  cbv zeta. unfold send_email, _create_mock_email_response, registry.
  destruct (given (gmail_email mailer)); simpl.
  2: { run_monad. eexists _, _. split; [reflexivity|]. simpl.
       do 3 (split; [reflexivity|]). split; [lia|]. do 3 (split; [reflexivity|]).
       eexists. split; [reflexivity|].
       destruct (preview_of_bounded message) as (H1 & H2 & _). auto. }
  destruct (given (gmail_app_password mailer)); simpl.
  2: { run_monad. eexists _, _. split; [reflexivity|]. simpl.
       do 3 (split; [reflexivity|]). split; [lia|]. do 3 (split; [reflexivity|]).
       eexists. split; [reflexivity|].
       destruct (preview_of_bounded message) as (H1 & H2 & _). auto. }
  run_monad.
  match goal with |- context [smtp mailer (tick w) ?a ?b ?c ?d ?e] =>
    destruct (smtp mailer (tick w) a b c d e) as [detail|] eqn:Hsmtp
  end; simpl; eexists _, _; (split; [reflexivity|]); simpl;
    do 3 (split; [reflexivity|]); (split; [lia|]); repeat split.
Qed.

Lemma format_complete (t : list piece) (kwargs : gmap string string) :
  forallb (fun name => match kwargs !! name with Some _ => true | None => false end)
    (holes t) = true ->
  exists s, format t kwargs = Ret s.
Proof.
  induction t as [|[text|name] t IH]; simpl; intros H.
  - eexists. reflexivity.
  - destruct (IH H) as [out ->]. eexists. reflexivity.
  - apply andb_true_iff in H as [Hname H].
    destruct (kwargs !! name); [|discriminate].
    destruct (IH H) as [out ->]. eexists. reflexivity.
Qed.

Lemma format_incomplete (t : list piece) (kwargs : gmap string string) :
  forallb (fun name => match kwargs !! name with Some _ => true | None => false end)
    (holes t) = false ->
  exists e, format t kwargs = Raise e.
Proof.
  induction t as [|[text|name] t IH]; simpl; intros H.
  - discriminate.
  - destruct (IH H) as [e ->]. eexists. reflexivity.
  - destruct (kwargs !! name); [|eexists; reflexivity].
    simpl in H. destruct (IH H) as [e ->]. eexists. reflexivity.
Qed.

Lemma setdefault_lookup (key value : string) (kwargs : gmap string string) (name : string) :
  setdefault key value kwargs !! name =
  match kwargs !! name with
  | Some v => Some v
  | None => if String.eqb name key then Some value else None
  end.
Proof.
  unfold setdefault. destruct (String.eqb_spec name key) as [->|Hne].
  - destruct (kwargs !! key) eqn:Hk; [now rewrite Hk | now rewrite lookup_insert_eq].
  - destruct (kwargs !! key) eqn:Hk; [now destruct (kwargs !! name)|].
    rewrite lookup_insert_ne by congruence. now destruct (kwargs !! name).
Qed.

(** After the three [setdefault], a field is present exactly when
    [_format_template] can fill it. *)
Lemma dated_lookup (a b c : string) (kwargs : gmap string string) (name : string) :
  match setdefault "update_date" c
          (setdefault "created_date" b (setdefault "send_date" a kwargs)) !! name with
  | Some _ => true
  | None => false
  end = fills kwargs name.
Proof.
  rewrite !setdefault_lookup. unfold fills.
  destruct (kwargs !! name); [reflexivity|]. simpl.
  destruct (String.eqb name "send_date"); [reflexivity|].
  destruct (String.eqb name "created_date"); [reflexivity|].
  now destruct (String.eqb name "update_date").
Qed.

Lemma strip_template (l0 l0' body l3 : string) :
  (forall x, Py.lstrip (l0 +:+ x) = l0' +:+ x) ->
  Py.truthy l0' = true ->
  Py.truthy (Py.rstrip l3) = true ->
  Py.strip (l0 +:+ body +:+ l3 +:+ EmptyString) = l0' +:+ body +:+ Py.rstrip l3.
Proof.
  intros Hl Ht Hr. unfold Py.strip. rewrite Hl, append_empty_r.
  rewrite rstrip_app by now apply rstrip_truthy_app.
  now rewrite rstrip_app.
Qed.

Section FormatTemplate.

Context (env : Env) (mailer : Mailer) (bullet : string).

Lemma format_template_step (depth : nat) (template_type : string)
    (kwargs : gmap string string) (w : World) :
  format_template env mailer bullet (S depth) template_type kwargs w =
  let w3 := set_tick S (set_tick S (set_tick S w)) in
  let data := template_data bullet template_type in
  match format (tp_subject data) (dated env mailer kwargs w),
        format (tp_template data) (dated env mailer kwargs w) with
  | Ret s, Ret b => (w3, Ret {| fm_subject := s; fm_body := Py.strip b |})
  | _, _ =>
      format_template env mailer bullet depth "general_notification"
        (fallback (dated env mailer kwargs w)) w3
  end.
Proof.
  unfold dated, fallback. cbv beta zeta. cbn [format_template]. run_monad.
  cbn [tick set_tick].
  replace (tick w + 1) with (S (tick w)) by lia.
  replace (tick w + 2) with (S (S (tick w))) by lia.
  destruct (format (tp_subject _) _) as [s|e]; [|reflexivity].
  destruct (format (tp_template _) _) as [b|e]; reflexivity.
Qed.

Lemma template_data_cases (template_type : string) :
  (assoc template_type (templates bullet) <> None /\
   (template_type = "welcome" \/ template_type = "profile_update" \/
    template_type = "general_notification")) \/
  (assoc template_type (templates bullet) = None /\
   template_data bullet template_type = template_data bullet "general_notification").
Proof.
  destruct (String.eqb_spec "welcome" template_type) as [<-|H1];
    [left; split; [discriminate | tauto]|].
  destruct (String.eqb_spec "profile_update" template_type) as [<-|H2];
    [left; split; [discriminate | tauto]|].
  destruct (String.eqb_spec "general_notification" template_type) as [<-|H3];
    [left; split; [discriminate | tauto]|].
  right.
  assert (Hnone : assoc template_type (templates bullet) = None).
  { unfold templates. cbn [assoc].
    apply String.eqb_neq in H1, H2, H3. now rewrite H1, H2, H3. }
  split; [exact Hnone|]. unfold template_data at 1. now rewrite Hnone.
Qed.

Lemma subject_of_template (template_type : string) :
  exists text, tp_subject (template_data bullet template_type) = [Lit text] /\
    (assoc template_type (templates bullet) = None ->
     text = "NUST Campus Notification").
Proof.
  destruct (template_data_cases template_type) as [[Hsome [H|[H|H]]]|[Hnone H]];
    [subst template_type.. | rewrite H];
    eexists; (split; [reflexivity|]); try discriminate; reflexivity.
Qed.

Lemma format_general (kw : gmap string string) (n c d : string) :
  kw !! "student_name" = Some n -> kw !! "message_content" = Some c ->
  kw !! "send_date" = Some d ->
  exists b,
    format (tp_template (template_data bullet "general_notification")) kw = Ret b /\
    Py.strip b = general_body n c d.
Proof.
  intros Hn Hc Hd.
  cbv [template_data templates assoc default from_option id tp_template
       String.eqb Ascii.eqb Bool.eqb andb format].
  rewrite Hn, Hc, Hd. eexists. split; [reflexivity|].
  unfold general_body.
  set (l1 := Py.lines [","; EmptyString; EmptyString]).
  set (l2 := Py.lines [EmptyString; EmptyString; "This message was sent on: "]).
  match goal with |- Py.strip (?a +:+ _ +:+ _ +:+ _ +:+ _ +:+ _ +:+ ?z +:+ _) = _ =>
    set (l0 := a); set (l3 := z)
  end.
  replace (l0 +:+ n +:+ l1 +:+ c +:+ l2 +:+ d +:+ l3 +:+ EmptyString)
    with (l0 +:+ (n +:+ l1 +:+ c +:+ l2 +:+ d) +:+ l3 +:+ EmptyString)
    by (now rewrite !append_assoc).
  rewrite (strip_template l0 "Dear "); [|reflexivity..].
  rewrite !append_assoc. reflexivity.
Qed.

Ltac rstrip_truthy := repeat first [ reflexivity | apply rstrip_truthy_app ].

Lemma format_welcome (kw : gmap string string) (n i d e c : string) :
  kw !! "student_name" = Some n -> kw !! "student_id" = Some i ->
  kw !! "department" = Some d -> kw !! "email" = Some e ->
  kw !! "created_date" = Some c ->
  exists b post,
    format (tp_template (template_data bullet "welcome")) kw = Ret b /\
    Py.strip b = "Dear " +:+ n +:+ "," +:+ post.
Proof.
  intros Hn Hi Hd He Hc.
  cbv [template_data templates assoc default from_option id tp_template
       String.eqb Ascii.eqb Bool.eqb andb format].
  rewrite Hn, Hi, Hd, He, Hc. eexists _, _. split; [reflexivity|].
  match goal with
  | |- Py.strip (?a +:+ n +:+ ?l1 +:+ i +:+ ?l2 +:+ d +:+ ?l3 +:+ e +:+ ?l4 +:+ c
                 +:+ ?z +:+ EmptyString) = _ =>
      set (l0 := a); set (lz := z);
      replace (l0 +:+ n +:+ l1 +:+ i +:+ l2 +:+ d +:+ l3 +:+ e +:+ l4 +:+ c
               +:+ lz +:+ EmptyString)
        with (l0 +:+ (n +:+ l1 +:+ i +:+ l2 +:+ d +:+ l3 +:+ e +:+ l4 +:+ c)
              +:+ lz +:+ EmptyString)
        by (now rewrite !append_assoc)
  end.
  rewrite (strip_template l0 "Dear "); [|reflexivity|reflexivity|].
  - rewrite !append_assoc. unfold Py.lines at 1. cbn [Py.join].
    rewrite !append_assoc. reflexivity.
  - subst lz. unfold Py.lines. cbn [Py.join]. rstrip_truthy.
Qed.

Lemma format_update (kw : gmap string string) (n f o v u : string) :
  kw !! "student_name" = Some n -> kw !! "field_updated" = Some f ->
  kw !! "old_value" = Some o -> kw !! "new_value" = Some v ->
  kw !! "update_date" = Some u ->
  exists b post,
    format (tp_template (template_data bullet "profile_update")) kw = Ret b /\
    Py.strip b = "Dear " +:+ n +:+ "," +:+ post.
Proof.
  intros Hn Hf Ho Hv Hu.
  cbv [template_data templates assoc default from_option id tp_template
       String.eqb Ascii.eqb Bool.eqb andb format].
  rewrite Hn, Hf, Ho, Hv, Hu. eexists _, _. split; [reflexivity|].
  match goal with
  | |- Py.strip (?a +:+ n +:+ ?l1 +:+ f +:+ ?l2 +:+ o +:+ ?l3 +:+ v +:+ ?l4 +:+ u
                 +:+ ?z +:+ EmptyString) = _ =>
      set (l0 := a); set (lz := z);
      replace (l0 +:+ n +:+ l1 +:+ f +:+ l2 +:+ o +:+ l3 +:+ v +:+ l4 +:+ u
               +:+ lz +:+ EmptyString)
        with (l0 +:+ (n +:+ l1 +:+ f +:+ l2 +:+ o +:+ l3 +:+ v +:+ l4 +:+ u)
              +:+ lz +:+ EmptyString)
        by (now rewrite !append_assoc)
  end.
  rewrite (strip_template l0 "Dear "); [|reflexivity|reflexivity|].
  - rewrite !append_assoc. unfold Py.lines at 1. cbn [Py.join].
    rewrite !append_assoc. reflexivity.
  - subst lz. unfold Py.lines. cbn [Py.join]. rstrip_truthy.
Qed.

End FormatTemplate.

Lemma forallb_fills (a b c : string) (kwargs : gmap string string) (names : list string) :
  forallb (fun name =>
    match setdefault "update_date" c
            (setdefault "created_date" b (setdefault "send_date" a kwargs)) !! name with
    | Some _ => true
    | None => false
    end) names = forallb (fills kwargs) names.
Proof.
  induction names as [|name names IH]; simpl; [reflexivity|].
  now rewrite dated_lookup, IH.
Qed.

(** X21. [_format_template] returns for every template type and every
    keyword arguments, provided two nested calls are still allowed: its
    handler calls it again at most once.  When the template asked for (the
    general notification for an unknown type) can be filled from the
    arguments and the three dates the function supplies, the answer has the
    subject of that template, after three readings of the clock.
    Otherwise the answer is the general notification, after six readings:
    its body names the student given ([Student] when none is), carries the
    value passed as [message] ([Campus notification] when none is, whatever
    is passed as [message_content]) and the date of the second call, and
    has no white space at its ends. *)
Theorem format_template_total (env : Env) (mailer : Mailer) (bullet : string)
    (depth : nat) (template_type : string) (kwargs : gmap string string) (w : World) :
  2 <= depth ->
  exists w' f,
    format_template env mailer bullet depth template_type kwargs w = (w', Ret f) /\
    registry w' = registry w /\
    if complete bullet template_type kwargs then
      tick w' = tick w + 3 /\
      tp_subject (template_data bullet template_type) = [Lit (fm_subject f)]
    else
      tick w' = tick w + 6 /\
      fm_subject f = "NUST Campus Notification" /\
      fm_body f =
        general_body (default "Student" (kwargs !! "student_name"))
          (default "Campus notification" (kwargs !! "message"))
          (strftime mailer "%Y-%m-%d %H:%M:%S" (clock env (tick w + 3))).
Proof.
  intros Hdepth. destruct depth as [|[|depth]]; try lia.
  rewrite format_template_step. cbv zeta. unfold dated, fallback.
  destruct (subject_of_template bullet template_type) as (text & Hsubj & _).
  rewrite Hsubj. cbn [format].
  unfold complete. rewrite <- (forallb_fills
    (strftime mailer "%Y-%m-%d %H:%M:%S" (clock env (tick w)))
    (strftime mailer "%Y-%m-%d" (clock env (tick w + 1)))
    (strftime mailer "%Y-%m-%d %H:%M:%S" (clock env (tick w + 2)))).
  match goal with |- context [forallb ?p ?l] => destruct (forallb p l) eqn:Hall end.
  - apply format_complete in Hall as [b Hb]. rewrite Hb.
    eexists _, _. split; [reflexivity|]. split; [reflexivity|]. simpl.
    split; [lia|]. now rewrite append_empty_r.
  - apply format_incomplete in Hall as [e He]. rewrite He.
    rewrite format_template_step. cbv zeta. unfold dated, fallback.
    destruct (subject_of_template bullet "general_notification") as (text' & Hsubj' & _).
    assert (Htext : text' = "NUST Campus Notification").
    { cbv in Hsubj'. now injection Hsubj' as <-. }
    rewrite Hsubj'. cbn [format].
    match goal with |- context [format (tp_template _) ?kw] =>
      destruct (format_general bullet kw
                  (default "Student" (kwargs !! "student_name"))
                  (default "Campus notification" (kwargs !! "message"))
                  (strftime mailer "%Y-%m-%d %H:%M:%S" (clock env (tick w + 3))))
        as (b & Hb & Hstrip)
    end.
    + rewrite !setdefault_lookup, lookup_insert_eq. simpl.
      now destruct (kwargs !! "student_name").
    + rewrite !setdefault_lookup, lookup_insert_ne, lookup_insert_eq by discriminate.
      simpl. now destruct (kwargs !! "message").
    + rewrite !setdefault_lookup, !lookup_insert_ne, lookup_empty by discriminate.
      simpl. do 3 f_equal. simpl. lia.
    + rewrite Hb. eexists _, _. split; [reflexivity|]. split; [reflexivity|]. simpl.
      split; [lia|]. split; [now rewrite append_empty_r, Htext | exact Hstrip].
Qed.

Lemma format_template_total_witness :
  exists w' f,
    format_template calm_env demo_mailer "*" 2 "reminder" ∅ empty_world = (w', Ret f) /\
    registry w' = registry empty_world /\
    if complete "*" "reminder" ∅ then
      tick w' = tick empty_world + 3 /\
      tp_subject (template_data "*" "reminder") = [Lit (fm_subject f)]
    else
      tick w' = tick empty_world + 6 /\
      fm_subject f = "NUST Campus Notification" /\
      fm_body f =
        general_body (default "Student" ((∅ : gmap string string) !! "student_name"))
          (default "Campus notification" ((∅ : gmap string string) !! "message"))
          (strftime demo_mailer "%Y-%m-%d %H:%M:%S" (clock calm_env (tick empty_world + 3))).
Proof. apply (format_template_total calm_env demo_mailer "*" 2 "reminder" ∅ empty_world). lia. Defined.

(** X22. The two notifications of the service never raise, provided two
    nested calls are still allowed.  The welcome email and the update
    notification always use their own template (the fallback to the general
    notification is never taken): the answer carries the subject of the
    template and the recipient given, and the body begins with [Dear],
    the name of the student and a comma.  Without credentials the answer
    reports success in mock mode with a preview of the body; with
    credentials it reports success exactly when the one delivery attempted,
    of the body and its HTML rendering, went through. *)
Theorem notification_emails (env : Env) (mailer : Mailer) (bullet : string) :
  2 <= stack_depth mailer ->
  (forall student_id recipient_email student_name department email w,
     exists w' r body,
       service_send_welcome_email env mailer bullet student_id recipient_email
         student_name department email w = (w', Ret r) /\
       em_subject r = "Welcome to NUST Campus - Account Created" /\
       em_recipient r = recipient_email /\
       Py.startswith ("Dear " +:+ student_name +:+ ",") body = true /\
       if given (gmail_email mailer) && given (gmail_app_password mailer) then
         (em_success r = true <->
          smtp mailer (tick w + 3) (default EmptyString (gmail_email mailer))
            recipient_email "Welcome to NUST Campus - Account Created" body
            (_convert_to_html body) = None)
       else
         em_success r = true /\ em_mock r = true /\
         em_preview r = Some (preview_of body)) /\
  (forall student_id recipient_email student_name field_updated old_value new_value w,
     exists w' r body,
       service_send_update_notification env mailer bullet student_id recipient_email
         student_name field_updated old_value new_value w = (w', Ret r) /\
       em_subject r = "Profile Update Notification - NUST Campus" /\
       em_recipient r = recipient_email /\
       Py.startswith ("Dear " +:+ student_name +:+ ",") body = true /\
       if given (gmail_email mailer) && given (gmail_app_password mailer) then
         (em_success r = true <->
          smtp mailer (tick w + 3) (default EmptyString (gmail_email mailer))
            recipient_email "Profile Update Notification - NUST Campus" body
            (_convert_to_html body) = None)
       else
         em_success r = true /\ em_mock r = true /\
         em_preview r = Some (preview_of body)).
Proof.
  intros Hdepth.
  assert (Hsend : forall student_id recipient_email body subject w3,
    Py.truthy subject = true ->
    exists w' r,
      send_email env mailer student_id recipient_email body (Some subject) w3 = (w', Ret r) /\
      em_subject r = subject /\ em_recipient r = recipient_email /\
      if given (gmail_email mailer) && given (gmail_app_password mailer) then
        (em_success r = true <->
         smtp mailer (tick w3) (default EmptyString (gmail_email mailer))
           recipient_email subject body (_convert_to_html body) = None)
      else
        em_success r = true /\ em_mock r = true /\
        em_preview r = Some (preview_of body)).
  { intros student_id recipient_email body subject w3 Hsubject.
    unfold send_email, _create_mock_email_response.
    change (given (Some subject)) with (Py.truthy subject). rewrite Hsubject.
    cbn [default from_option id].
    destruct (given (gmail_email mailer)); simpl;
      [|run_monad; eexists _, _; repeat split].
    destruct (given (gmail_app_password mailer)); simpl;
      [|run_monad; eexists _, _; repeat split].
    run_monad.
    match goal with |- context [smtp mailer (tick w3) ?a ?b ?c ?d ?e] =>
      destruct (smtp mailer (tick w3) a b c d e) as [detail|] eqn:Hsmtp
    end; simpl; eexists _, _; (split; [reflexivity|]); simpl;
      do 2 (split; [reflexivity|]); split; intros; congruence. }
  destruct (stack_depth mailer) as [|depth] eqn:Hstack; [lia|].
  split.
  - intros student_id recipient_email student_name department email w.
    unfold service_send_welcome_email, _format_template. rewrite Hstack.
    unfold bind at 1. rewrite format_template_step. cbv zeta. unfold dated, fallback.
    destruct (subject_of_template bullet "welcome") as (text & Hsubj & _).
    assert (Htext : text = "Welcome to NUST Campus - Account Created").
    { cbv in Hsubj. now injection Hsubj as <-. }
    rewrite Hsubj. cbn [format].
    match goal with |- context [format (tp_template _) ?kw] =>
      destruct (format_welcome bullet kw student_name student_id department email
                  (strftime mailer "%Y-%m-%d" (clock env (tick w + 1))))
        as (b & post & Hb & Hstrip)
    end;
      try (rewrite !setdefault_lookup; repeat (rewrite lookup_insert_ne by discriminate);
           rewrite ?lookup_insert_eq, ?lookup_empty; reflexivity).
    rewrite Hb. cbn [fm_body fm_subject]. rewrite append_empty_r, Htext.
    match goal with |- context [send_email env mailer ?a ?b ?c (Some ?d) ?w3] =>
      destruct (Hsend a b c d w3 eq_refl) as (w' & r & Hrun & Hs & Hr & Hout)
    end.
    exists w', r, (Py.strip b). split; [exact Hrun|].
    split; [exact Hs|]. split; [exact Hr|]. split.
    + rewrite Hstrip. apply startswith_spec. exists post. now rewrite !append_assoc.
    + simpl tick in Hout. replace (tick w + 3) with (S (S (S (tick w)))) by lia.
      exact Hout.
  - intros student_id recipient_email student_name field_updated old_value new_value w.
    unfold service_send_update_notification, _format_template. rewrite Hstack.
    unfold bind at 1. rewrite format_template_step. cbv zeta. unfold dated, fallback.
    destruct (subject_of_template bullet "profile_update") as (text & Hsubj & _).
    assert (Htext : text = "Profile Update Notification - NUST Campus").
    { cbv in Hsubj. now injection Hsubj as <-. }
    rewrite Hsubj. cbn [format].
    match goal with |- context [format (tp_template _) ?kw] =>
      destruct (format_update bullet kw student_name field_updated old_value new_value
                  (strftime mailer "%Y-%m-%d %H:%M:%S" (clock env (tick w + 2))))
        as (b & post & Hb & Hstrip)
    end;
      try (rewrite !setdefault_lookup; repeat (rewrite lookup_insert_ne by discriminate);
           rewrite ?lookup_insert_eq, ?lookup_empty; reflexivity).
    rewrite Hb. cbn [fm_body fm_subject]. rewrite append_empty_r, Htext.
    match goal with |- context [send_email env mailer ?a ?b ?c (Some ?d) ?w3] =>
      destruct (Hsend a b c d w3 eq_refl) as (w' & r & Hrun & Hs & Hr & Hout)
    end.
    exists w', r, (Py.strip b). split; [exact Hrun|].
    split; [exact Hs|]. split; [exact Hr|]. split.
    + rewrite Hstrip. apply startswith_spec. exists post. now rewrite !append_assoc.
    + simpl tick in Hout. replace (tick w + 3) with (S (S (S (tick w)))) by lia.
      exact Hout.
Qed.

Lemma notification_emails_witness :
  (forall student_id recipient_email student_name department email w,
     exists w' r body,
       service_send_welcome_email calm_env demo_mailer "*" student_id recipient_email
         student_name department email w = (w', Ret r) /\
       em_subject r = "Welcome to NUST Campus - Account Created" /\
       em_recipient r = recipient_email /\
       Py.startswith ("Dear " +:+ student_name +:+ ",") body = true /\
       if given (gmail_email demo_mailer) && given (gmail_app_password demo_mailer) then
         (em_success r = true <->
          smtp demo_mailer (tick w + 3) (default EmptyString (gmail_email demo_mailer))
            recipient_email "Welcome to NUST Campus - Account Created" body
            (_convert_to_html body) = None)
       else
         em_success r = true /\ em_mock r = true /\
         em_preview r = Some (preview_of body)) /\
  (forall student_id recipient_email student_name field_updated old_value new_value w,
     exists w' r body,
       service_send_update_notification calm_env demo_mailer "*" student_id recipient_email
         student_name field_updated old_value new_value w = (w', Ret r) /\
       em_subject r = "Profile Update Notification - NUST Campus" /\
       em_recipient r = recipient_email /\
       Py.startswith ("Dear " +:+ student_name +:+ ",") body = true /\
       if given (gmail_email demo_mailer) && given (gmail_app_password demo_mailer) then
         (em_success r = true <->
          smtp demo_mailer (tick w + 3) (default EmptyString (gmail_email demo_mailer))
            recipient_email "Profile Update Notification - NUST Campus" body
            (_convert_to_html body) = None)
       else
         em_success r = true /\ em_mock r = true /\
         em_preview r = Some (preview_of body)).
Proof. apply (notification_emails calm_env demo_mailer "*"). simpl. lia. Defined.

(** ** Chat tables *)

(** Running the monadic operations of a method of the storage. *)
Ltac run_db :=
  cbv beta iota zeta delta
    [Db.bind Db.ret Db.raise Db.try_catch Db.get Db.modify Db.oracle
     Db.sqlite3_connect Db.current_timestamp].

Lemma db_has_id_true (sid : string) (s : SessionRow) :
  Db.has_id sid s = true <-> ss_id s = sid.
Proof. unfold Db.has_id. apply String.eqb_eq. Qed.

Lemma db_has_id_false (sid : string) (s : SessionRow) :
  Db.has_id sid s = false <-> ss_id s <> sid.
Proof. unfold Db.has_id. apply String.eqb_neq. Qed.

Lemma map_unchanged {A : Type} (f : A -> A) (l : list A) :
  (forall x, In x l -> f x = x) -> map f l = l.
Proof.
  induction l as [|y l IH]; simpl; [reflexivity|]. intros H.
  rewrite (H y) by now left. f_equal. apply IH. intros x Hx. apply H. now right.
Qed.

Lemma flat_map_nil {A B : Type} (f : A -> list B) (l : list A) :
  (forall x, In x l -> f x = []) -> flat_map f l = [].
Proof.
  induction l as [|y l IH]; simpl; [reflexivity|]. intros H.
  rewrite (H y) by now left. apply IH. intros x Hx. apply H. now right.
Qed.

Lemma flat_map_single {A : Type} (f : A -> list A) (l : list A) :
  (forall x, In x l -> f x = [x]) -> flat_map f l = l.
Proof.
  induction l as [|y l IH]; simpl; [reflexivity|]. intros H.
  rewrite (H y) by now left. simpl. f_equal. apply IH. intros x Hx. apply H. now right.
Qed.

(** X23. The life of a chat session in the storage, when sqlite answers.
    [create_session] succeeds exactly when no row, active or not, carries
    the id; [get_session] then returns the row, owned by the user given and
    active.  A deletion by another user answers [True] and changes
    nothing.  A deletion by the owner answers [True], and afterwards
    [get_session] finds nothing, the messages of the session are listed for
    nobody although they are still stored, and the id cannot be created
    again. *)
Theorem chat_session_lifecycle (env : Env) (sid : string) (uid other : Z) (db : Tables) :
  fault_free env ->
  let created := Db.create_session env sid uid db in
  (created.2 = Ret true \/ created.2 = Ret false) /\
  (created.2 = Ret true <-> forall s, In s (t_sessions db) -> ss_id s <> sid) /\
  (created.2 = Ret false -> chat_data created.1 = chat_data db) /\
  (created.2 = Ret true ->
     (exists s,
        (Db.get_session env sid created.1).2 = Ret (Some s) /\
        ss_id s = sid /\ ss_user_id s = uid /\ ss_is_active s = true) /\
     (other <> uid ->
        (Db.delete_session env sid other created.1).2 = Ret true /\
        chat_data (Db.delete_session env sid other created.1).1 = chat_data created.1) /\
     let deleted := Db.delete_session env sid uid created.1 in
     deleted.2 = Ret true /\
     (Db.get_session env sid deleted.1).2 = Ret None /\
     (forall reader, (Db.get_session_messages env sid reader deleted.1).2 = Ret []) /\
     t_messages deleted.1 = t_messages db /\
     (forall user, (Db.create_session env sid user deleted.1).2 = Ret false)).
Proof.
  intros Hfree. cbv zeta.
  unfold Db.create_session, Db.get_session, Db.delete_session, Db.get_session_messages,
    chat_data.
  run_db. rewrite !Hfree. cbn [t_sessions t_messages t_sequence t_tick].
  destruct (existsb (Db.has_id sid) (t_sessions db)) eqn:Hex;
    cbn [fst snd t_sessions t_messages t_sequence t_tick Db.set_sessions].
  { split; [now right|]. split; [|split; [reflexivity | discriminate]].
    split; [discriminate|]. intros Hnone. exfalso.
    apply existsb_exists in Hex as (s & Hin & Hs). apply db_has_id_true in Hs.
    now apply (Hnone s). }
  assert (Hnone : forall s, In s (t_sessions db) -> Db.has_id sid s = false)
    by now apply existsb_false_forall.
  split; [now left|]. split; [|split; [discriminate|]].
  { split; [|reflexivity]. intros _ s Hin. now apply db_has_id_false, Hnone. }
  intros _. rewrite ?Hfree.
  cbn [fst snd t_sessions t_messages t_sequence t_tick Db.set_sessions].
  set (row := {| ss_id := sid; ss_user_id := uid;
                 ss_created_at := clock env (S (t_tick db));
                 ss_last_activity := clock env (S (t_tick db)); ss_is_active := true |}).
  assert (Hrow : Db.has_id sid row = true) by (apply db_has_id_true; reflexivity).
  assert (Hfind : forall p, List.find (fun s => Db.has_id sid s && p s) (t_sessions db) = None).
  { intros p. apply find_none_iff. intros s Hin. now rewrite (Hnone s Hin). }
  split; [|split].
  - exists row. rewrite find_snoc, Hfind, Hrow. simpl. repeat split.
  - intros Hother. split; [reflexivity|]. f_equal. apply map_unchanged.
    intros s Hin. unfold Db.deactivate. apply in_app_or in Hin as [Hin|[<-|[]]].
    + now rewrite (Hnone s Hin).
    + rewrite Hrow. unfold Db.owned_by. simpl.
      destruct (Z.eqb_spec uid other); [congruence | reflexivity].
  - rewrite ?Hfree.
    cbn [fst snd t_sessions t_messages t_sequence t_tick Db.set_sessions].
    assert (Hmap : map (Db.deactivate sid uid) (t_sessions db ++ [row]) =
                   t_sessions db ++ [{| ss_id := sid; ss_user_id := uid;
                     ss_created_at := clock env (S (t_tick db));
                     ss_last_activity := clock env (S (t_tick db));
                     ss_is_active := false |}]).
    { rewrite map_app. f_equal.
      - apply map_unchanged. intros s Hin. unfold Db.deactivate.
        now rewrite (Hnone s Hin).
      - simpl. unfold Db.deactivate. rewrite Hrow. unfold Db.owned_by. simpl.
        now rewrite Z.eqb_refl. }
    rewrite Hmap. split; [reflexivity|]. split; [|split; [|split]].
    + rewrite find_snoc, Hfind. simpl. now rewrite andb_false_r.
    + intros reader. f_equal. unfold Db.joined. cbn [t_sessions t_messages].
      rewrite flat_map_nil; [reflexivity|]. intros m Hm.
      apply filter_In in Hm as [_ Hm]. unfold Db.of_session in Hm.
      apply String.eqb_eq in Hm. rewrite Hm.
      rewrite filter_none; [reflexivity|]. intros s Hin.
      apply in_app_or in Hin as [Hin|[<-|[]]].
      * now rewrite (Hnone s Hin).
      * simpl. now rewrite andb_false_r.
    + reflexivity.
    + intros user. rewrite existsb_app. simpl.
      unfold Db.has_id at 2. simpl. rewrite String.eqb_refl, orb_true_r. reflexivity.
Qed.

(** X24. [save_message] never raises.  It answers [True] exactly when
    sqlite answers and the type is [user] or [ai]; the session is not
    looked at.  It then appends one message, under the next id of the
    counter, stamped with the reading of the clock, and stamps the last
    activity of the rows of the session, which are none when the session
    does not exist.  When it answers [False] the tables and the counter are
    as before. *)
Theorem save_message_outcome (env : Env) (sid : string) (uid : Z)
    (message_type content : string) (db : Tables) :
  let out := Db.save_message env sid uid message_type content db in
  (out.2 = Ret true \/ out.2 = Ret false) /\
  (out.2 = Ret true <->
     sqlite_fault env (t_tick db) = None /\
     (message_type = "user" \/ message_type = "ai")) /\
  (out.2 = Ret false ->
     chat_data out.1 = chat_data db /\ t_sequence out.1 = t_sequence db) /\
  (out.2 = Ret true ->
     t_messages out.1 =
       t_messages db ++
       [{| mg_id := t_sequence db + 1; mg_session_id := sid; mg_user_id := uid;
           mg_message_type := message_type; mg_content := content;
           mg_created_at := clock env (t_tick db + 1) |}] /\
     t_sequence out.1 = (t_sequence db + 1)%Z /\
     t_sessions out.1 = map (Db.touch sid (clock env (t_tick db + 2))) (t_sessions db) /\
     ((forall s, In s (t_sessions db) -> ss_id s <> sid) ->
      t_sessions out.1 = t_sessions db)).
Proof.
  cbv zeta. unfold Db.save_message, chat_data. run_db.
  cbn [t_sessions t_messages t_sequence t_tick].
  destruct (sqlite_fault env (t_tick db)) as [e|] eqn:Hfault;
    cbn [fst snd t_sessions t_messages t_sequence t_tick].
  { split; [now right|]. split; [split; [discriminate | intros [? _]; discriminate]|].
    split; [intros _; split; reflexivity | discriminate]. }
  assert (Htype : Db.message_type_ok message_type = true <->
                  message_type = "user" \/ message_type = "ai").
  { unfold Db.message_type_ok. rewrite orb_true_iff, !String.eqb_eq. reflexivity. }
  destruct (Db.message_type_ok message_type) eqn:Hok;
    cbn [fst snd t_sessions t_messages t_sequence t_tick Db.set_sessions Db.set_messages
         Db.set_sequence].
  - split; [now left|]. split; [split; [intros _; split; [reflexivity | now apply Htype]
                                       | reflexivity]|].
    split; [discriminate|]. intros _.
    replace (t_tick db + 1) with (S (t_tick db)) by lia.
    replace (t_tick db + 2) with (S (S (t_tick db))) by lia.
    do 3 (split; [reflexivity|]).
    intros Hnone. apply map_unchanged. intros s Hin. unfold Db.touch.
    now rewrite (proj2 (db_has_id_false sid s) (Hnone s Hin)).
  - split; [now right|]. split.
    + split; [discriminate|]. intros [_ H]. apply Htype in H. discriminate.
    + split; [intros _; split; reflexivity | discriminate].
Qed.

Lemma at_most_one_session (sid : string) (p : SessionRow -> bool) (rows : list SessionRow) :
  List.NoDup (map ss_id rows) ->
  List.filter (fun s => Db.has_id sid s && p s) rows = [] \/
  exists s, List.filter (fun s => Db.has_id sid s && p s) rows = [s].
Proof.
  induction rows as [|r rows IH]; simpl; intros Hnd; [now left|].
  inversion Hnd as [|? ? Hr Hnd']; subst.
  destruct (Db.has_id sid r) eqn:Hid; simpl; [|now apply IH].
  assert (Hrest : List.filter (fun s => Db.has_id sid s && p s) rows = []).
  { apply filter_none. intros s Hin.
    destruct (Db.has_id sid s) eqn:Hs; [|reflexivity]. exfalso. apply Hr.
    apply db_has_id_true in Hid, Hs. rewrite Hid, <- Hs. now apply in_map. }
  rewrite Hrest. destruct (p r); [right; now exists r | now left].
Qed.

(** X25. On a table of sessions with unique ids, and when sqlite answers,
    [get_session_messages] lists messages only to the owner of an active
    session: it returns every message stored under the id of the session,
    whoever saved it, the oldest first; for any other user, and for a
    deleted or unknown session, it returns nothing. *)
Theorem session_messages_visibility (env : Env) (sid : string) (uid : Z) (db : Tables) :
  sqlite_fault env (t_tick db) = None ->
  sessions_keyed db ->
  exists rows,
    (Db.get_session_messages env sid uid db).2 = Ret rows /\
    oldest_first rows /\
    (active_session sid uid db ->
       Permutation rows (List.filter (Db.of_session sid) (t_messages db))) /\
    (~ active_session sid uid db -> rows = []).
Proof.
  intros Hok Hkeyed. unfold Db.get_session_messages. run_db. rewrite Hok.
  cbn [fst snd t_sessions t_messages t_sequence t_tick].
  eexists. split; [reflexivity|].
  set (ltb := fun x y : MessageRow => (mg_created_at y <? mg_created_at x)%Z).
  split; [|split].
  - unfold oldest_first.
    apply (strongly_sorted_impl (fun a b => ltb a b = false)).
    + subst ltb. simpl. intros x y H. apply Z.ltb_ge in H. exact H.
    + apply sort_desc_sorted_by; subst ltb; simpl; intros; lia.
  - intros (s & Hin & Hs & Hu & Ha).
    rewrite (sort_desc_perm_by ltb). unfold Db.joined. cbn [t_sessions t_messages].
    rewrite flat_map_single; [reflexivity|]. intros m Hm.
    apply filter_In in Hm as [_ Hm]. apply String.eqb_eq in Hm. rewrite Hm.
    assert (Hs' : In s (List.filter (fun s0 => Db.has_id sid s0 && Db.owned_by uid s0
                                               && ss_is_active s0) (t_sessions db))).
    { apply filter_In. split; [assumption|].
      rewrite (proj2 (db_has_id_true sid s) Hs), Ha. unfold Db.owned_by.
      rewrite Hu, Z.eqb_refl. reflexivity. }
    destruct (at_most_one_session sid
                (fun s0 => Db.owned_by uid s0 && ss_is_active s0) (t_sessions db) Hkeyed)
      as [Hnil|[s0 Hone]].
    + erewrite filter_ext in Hs'; [rewrite Hnil in Hs'; destruct Hs'|].
      intros a. cbv beta. now rewrite andb_assoc.
    + erewrite filter_ext; [rewrite Hone; reflexivity|].
      intros a. cbv beta. now rewrite andb_assoc.
  - intros Hnot.
    assert (Hjoined : Db.joined sid uid
              {| t_sessions := t_sessions db; t_messages := t_messages db;
                 t_sequence := t_sequence db; t_tick := S (t_tick db) |} = []).
    { unfold Db.joined. cbn [t_sessions t_messages].
      apply flat_map_nil. intros m Hm.
      apply filter_In in Hm as [_ Hm]. apply String.eqb_eq in Hm. rewrite Hm.
      rewrite filter_none; [reflexivity|]. intros s Hin.
      destruct (Db.has_id sid s && Db.owned_by uid s && ss_is_active s) eqn:Hall;
        [|reflexivity].
      exfalso. apply Hnot. exists s.
      apply andb_true_iff in Hall as [Hall Ha]. apply andb_true_iff in Hall as [Hid Hu].
      split; [assumption|]. split; [now apply db_has_id_true|].
      split; [now apply Z.eqb_eq | assumption]. }
    rewrite Hjoined. reflexivity.
Qed.

(** X26. [delete_session_messages] never raises.  It answers [True] exactly
    when sqlite answers and the user owns a row of the session, active or
    deleted; it then removes every message of the session and no other
    message.  Otherwise the messages are as before.  The sessions are never
    changed. *)
Theorem delete_session_messages_outcome (env : Env) (sid : string) (uid : Z) (db : Tables) :
  let out := Db.delete_session_messages env sid uid db in
  (out.2 = Ret true \/ out.2 = Ret false) /\
  (out.2 = Ret true <->
     sqlite_fault env (t_tick db) = None /\
     exists s, In s (t_sessions db) /\ ss_id s = sid /\ ss_user_id s = uid) /\
  t_sessions out.1 = t_sessions db /\
  (out.2 = Ret true ->
     forall m, In m (t_messages out.1) <->
               In m (t_messages db) /\ mg_session_id m <> sid) /\
  (out.2 = Ret false -> t_messages out.1 = t_messages db).
Proof.
  cbv zeta. unfold Db.delete_session_messages. run_db.
  cbn [t_sessions t_messages t_sequence t_tick].
  destruct (sqlite_fault env (t_tick db)) as [e|] eqn:Hfault;
    cbn [fst snd t_sessions t_messages t_sequence t_tick].
  { split; [now right|]. split; [split; [discriminate | intros [? _]; discriminate]|].
    split; [reflexivity|]. split; [discriminate | reflexivity]. }
  destruct (List.find _ (t_sessions db)) as [s|] eqn:Hfind;
    cbn [fst snd t_sessions t_messages t_sequence t_tick Db.set_messages].
  - apply find_some in Hfind as [Hin Hs]. apply andb_true_iff in Hs as [Hid Hu].
    split; [now left|]. split.
    + split; [|reflexivity]. intros _. split; [reflexivity|]. exists s.
      split; [assumption|]. split; [now apply db_has_id_true | now apply Z.eqb_eq].
    + split; [reflexivity|]. split; [|discriminate]. intros _ m.
      rewrite filter_In, negb_true_iff. unfold Db.of_session.
      now rewrite String.eqb_neq.
  - split; [now right|]. split.
    + split; [discriminate|]. intros [_ (s & Hin & Hs & Hu)]. exfalso.
      rewrite find_none_iff in Hfind. specialize (Hfind s Hin).
      rewrite (proj2 (db_has_id_true sid s) Hs) in Hfind. unfold Db.owned_by in Hfind.
      rewrite Hu, Z.eqb_refl in Hfind. discriminate.
    + split; [reflexivity|]. split; [discriminate | reflexivity].
Qed.

Lemma chat_session_lifecycle_witness :
  fault_free calm_env /\
  (Db.create_session calm_env "s2" 7 sample_tables).2 = Ret true.
Proof.
  assert (H : fault_free calm_env) by (intros n; reflexivity).
  split; [exact H|].
  destruct (chat_session_lifecycle calm_env "s2" 7 8 sample_tables H) as (_ & Hiff & _).
  apply Hiff. simpl. intros s [<-|[]]. simpl. discriminate.
Defined.

Lemma session_messages_visibility_witness :
  exists rows,
    (Db.get_session_messages calm_env "s1" 7 sample_tables).2 = Ret rows /\
    oldest_first rows /\
    (active_session "s1" 7 sample_tables ->
       Permutation rows (List.filter (Db.of_session "s1") (t_messages sample_tables))) /\
    (~ active_session "s1" 7 sample_tables -> rows = []).
Proof.
  apply (session_messages_visibility calm_env "s1" 7 sample_tables).
  - reflexivity.
  - unfold sessions_keyed. simpl.
    apply List.NoDup_cons; [simpl; tauto | apply List.NoDup_nil].
Defined.

(** ** HTTP layer *)

Lemma get_session_run (env : Env) (sid : string) (db : Tables) :
  Db.get_session env sid db =
  match sqlite_fault env (t_tick db) with
  | Some e => (ticked 1 db, Raise e)
  | None =>
      (ticked 1 db,
       Ret (List.find (fun s => Db.has_id sid s && ss_is_active s) (t_sessions db)))
  end.
Proof.
  unfold Db.get_session. run_db.
  destruct (sqlite_fault env (t_tick db)); reflexivity.
Qed.

Lemma save_message_run (env : Env) (sid : string) (uid : Z) (type content : string)
    (db : Tables) :
  Db.save_message env sid uid type content db =
  match sqlite_fault env (t_tick db) with
  | Some e => (ticked 1 db, Ret false)
  | None =>
      if Db.message_type_ok type
      then ({| t_sessions :=
                 map (Db.touch sid (clock env (S (S (t_tick db))))) (t_sessions db);
               t_messages :=
                 t_messages db ++
                 [{| mg_id := t_sequence db + 1; mg_session_id := sid; mg_user_id := uid;
                     mg_message_type := type; mg_content := content;
                     mg_created_at := clock env (S (t_tick db)) |}];
               t_sequence := t_sequence db + 1;
               t_tick := S (S (S (t_tick db))) |}, Ret true)
      else (ticked 1 db, Ret false)
  end.
Proof.
  unfold Db.save_message. run_db. cbn [t_sessions t_messages t_sequence t_tick].
  destruct (sqlite_fault env (t_tick db)); [reflexivity|].
  destruct (Db.message_type_ok type); reflexivity.
Qed.

Lemma delete_session_run (env : Env) (sid : string) (uid : Z) (db : Tables) :
  Db.delete_session env sid uid db =
  match sqlite_fault env (t_tick db) with
  | Some e => (ticked 1 db, Ret false)
  | None =>
      ({| t_sessions := map (Db.deactivate sid uid) (t_sessions db);
          t_messages := t_messages db; t_sequence := t_sequence db;
          t_tick := S (t_tick db) |}, Ret true)
  end.
Proof.
  unfold Db.delete_session. run_db. cbn [t_sessions t_messages t_sequence t_tick].
  destruct (sqlite_fault env (t_tick db)); reflexivity.
Qed.

Lemma touch_id (sid : string) (t : Z) (s : SessionRow) : ss_id (Db.touch sid t s) = ss_id s.
Proof. unfold Db.touch. now destruct (Db.has_id sid s). Qed.

Lemma deactivate_id (sid : string) (uid : Z) (s : SessionRow) :
  ss_id (Db.deactivate sid uid s) = ss_id s.
Proof. unfold Db.deactivate. now destruct (Db.has_id sid s && Db.owned_by uid s). Qed.

Lemma map_ids_touch (sid : string) (t : Z) (rows : list SessionRow) :
  map ss_id (map (Db.touch sid t) rows) = map ss_id rows.
Proof. rewrite map_map. apply map_ext. intros s. apply touch_id. Qed.

Lemma map_ids_deactivate (sid : string) (uid : Z) (rows : list SessionRow) :
  map ss_id (map (Db.deactivate sid uid) rows) = map ss_id rows.
Proof. rewrite map_map. apply map_ext. intros s. apply deactivate_id. Qed.

(** On keyed sessions a row is known by its id. *)
Lemma keyed_unique (rows : list SessionRow) (s s' : SessionRow) :
  List.NoDup (map ss_id rows) -> In s rows -> In s' rows -> ss_id s = ss_id s' -> s = s'.
Proof.
  induction rows as [|r rows IH]; simpl; intros Hnd Hs Hs' Heq; [contradiction|].
  inversion Hnd as [|? ? Hr Hnd']; subst.
  destruct Hs as [->|Hs], Hs' as [->|Hs'].
  - reflexivity.
  - exfalso. apply Hr. rewrite Heq. apply in_map_iff. now exists s'.
  - exfalso. apply Hr. rewrite <- Heq. apply in_map_iff. now exists s.
  - now apply IH.
Qed.

(** What [get_session] finds on keyed sessions. *)
Lemma find_active_some (sid : string) (db : Tables) (s : SessionRow) :
  sessions_keyed db ->
  List.find (fun s => Db.has_id sid s && ss_is_active s) (t_sessions db) = Some s ->
  In s (t_sessions db) /\ ss_id s = sid /\ ss_is_active s = true /\
  forall uid, active_session sid uid db <-> ss_user_id s = uid.
Proof.
  intros Hkeyed Hfind. apply find_some in Hfind as [Hin Hs].
  apply andb_true_iff in Hs as [Hid Hact]. apply db_has_id_true in Hid.
  do 3 (split; [assumption|]). intros uid. split.
  - intros (s' & Hin' & Hid' & Hu & _).
    rewrite (keyed_unique _ s s' Hkeyed Hin Hin'); [assumption | congruence].
  - intros Hu. now exists s.
Qed.

Lemma find_active_none (sid : string) (db : Tables) :
  List.find (fun s => Db.has_id sid s && ss_is_active s) (t_sessions db) = None ->
  forall uid, ~ active_session sid uid db.
Proof.
  intros Hfind uid (s & Hin & Hid & _ & Hact).
  rewrite find_none_iff in Hfind. specialize (Hfind s Hin).
  rewrite (proj2 (db_has_id_true sid s) Hid), Hact in Hfind. discriminate.
Qed.

Lemma message_type_ok_spec (type : string) :
  Db.message_type_ok type = true <-> type = "user" \/ type = "ai".
Proof. unfold Db.message_type_ok. rewrite orb_true_iff, !String.eqb_eq. reflexivity. Qed.

(** X27. [POST /messages] answers 200, 403 or 500.  On keyed sessions it
    answers 200 only to the owner of the active session named, and for a
    type [user] or [ai]; the message is then stored under the caller, the
    [user_id] of the body being ignored.  Any other answer leaves the tables
    as they were.  When sqlite answers, the answer is 403 exactly when the
    caller has no active session of that id. *)
Theorem post_message_guard (env : Env) (current_user : Z)
    (sid type content : string) (db : Tables) :
  sessions_keyed db ->
  let out := Api.save_message env current_user sid type content db in
  (status_of out.2 = 200 \/ status_of out.2 = 403 \/ status_of out.2 = 500) /\
  (status_of out.2 = 200 ->
     active_session sid current_user db /\
     (type = "user" \/ type = "ai") /\
     exists m,
       t_messages out.1 = t_messages db ++ [m] /\
       said m = (sid, current_user, type, content)) /\
  (status_of out.2 <> 200 -> chat_data out.1 = chat_data db) /\
  (sqlite_fault env (t_tick db) = None ->
     (status_of out.2 = 403 <-> ~ active_session sid current_user db)).
Proof.
  intros Hkeyed. cbv zeta. unfold Api.save_message.
  rewrite get_session_run.
  destruct (sqlite_fault env (t_tick db)) as [e|] eqn:Hfault.
  { cbn [fst snd status_of]. split; [auto|]. split; [discriminate|].
    split; [reflexivity | discriminate]. }
  destruct (List.find _ (t_sessions db)) as [s|] eqn:Hfind.
  2:{ cbn [fst snd status_of]. split; [auto|]. split; [discriminate|].
      split; [reflexivity|]. intros _. split; [|reflexivity].
      intros _. now apply find_active_none. }
  destruct (find_active_some sid db s Hkeyed Hfind) as (Hin & Hid & Hact & Hown).
  destruct (Z.eqb_spec (ss_user_id s) current_user) as [Hu|Hu]; cbn [negb].
  2:{ cbn [fst snd status_of]. split; [auto|]. split; [discriminate|].
      split; [reflexivity|]. intros _. split; [|reflexivity].
      intros _ Hactive. now apply Hown in Hactive. }
  rewrite save_message_run. cbn [ticked t_sessions t_messages t_sequence t_tick].
  destruct (sqlite_fault env (1 + t_tick db)) as [e|] eqn:Hfault2.
  { cbn [fst snd status_of]. split; [auto|]. split; [discriminate|].
    split; [reflexivity|]. intros _. split; [discriminate|].
    intros Hnot. exfalso. apply Hnot. now apply Hown. }
  destruct (Db.message_type_ok type) eqn:Hok.
  - cbn [fst snd status_of t_messages]. split; [auto|]. split.
    + intros _. split; [now apply Hown|]. split; [now apply message_type_ok_spec|].
      eexists. split; reflexivity.
    + split; [congruence|]. intros _. split; [discriminate|].
      intros Hnot. exfalso. apply Hnot. now apply Hown.
  - cbn [fst snd status_of]. split; [auto|]. split; [discriminate|].
    split; [reflexivity|]. intros _. split; [discriminate|].
    intros Hnot. exfalso. apply Hnot. now apply Hown.
Qed.

Lemma sample_tables_keyed : sessions_keyed sample_tables.
Proof.
  unfold sessions_keyed. simpl.
  apply List.NoDup_cons; [simpl; tauto | apply List.NoDup_nil].
Qed.

Lemma post_message_guard_witness :
  sessions_keyed sample_tables /\
  (status_of (Api.save_message calm_env 8 "s1" "user" "hello" sample_tables).2 = 403 <->
   ~ active_session "s1" 8 sample_tables).
Proof.
  split; [exact sample_tables_keyed|].
  apply (post_message_guard calm_env 8 "s1" "user" "hello" sample_tables).
  - exact sample_tables_keyed.
  - reflexivity.
Defined.

(** X28. [DELETE /sessions/{id}] answers 200, 403, 404 or 500.  On keyed
    sessions it answers 200 only to the owner of the active session; the
    session is then active for nobody, its messages stay stored, and the
    agent, when there is one, has forgotten it and no other session.  Any
    other answer leaves the tables and the agent as they were.  When sqlite
    answers the first query, 404 means that no active session has the id and
    403 that the active session of that id belongs to another user. *)
Theorem delete_session_endpoint (env : Env) (agent : bool) (current_user : Z)
    (sid : string) (st : Tables * World) :
  sessions_keyed st.1 ->
  let out := Api.delete_session env agent current_user sid st in
  (status_of out.2 = 200 \/ status_of out.2 = 403 \/ status_of out.2 = 404 \/
   status_of out.2 = 500) /\
  (status_of out.2 = 200 ->
     active_session sid current_user st.1 /\
     (forall uid, ~ active_session sid uid out.1.1) /\
     t_messages out.1.1 = t_messages st.1 /\
     map ss_id (t_sessions out.1.1) = map ss_id (t_sessions st.1) /\
     (agent = true -> sessions out.1.2 !! sid = None) /\
     (forall k, k <> sid -> sessions out.1.2 !! k = sessions st.2 !! k) /\
     students out.1.2 = students st.2) /\
  (status_of out.2 <> 200 -> chat_data out.1.1 = chat_data st.1 /\ out.1.2 = st.2) /\
  (sqlite_fault env (t_tick st.1) = None ->
     (status_of out.2 = 404 <-> forall uid, ~ active_session sid uid st.1) /\
     (status_of out.2 = 403 <->
        exists uid, uid <> current_user /\ active_session sid uid st.1)).
Proof.
  destruct st as [db w]. cbn [fst snd]. intros Hkeyed. cbv zeta.
  unfold Api.delete_session. cbn [fst snd]. rewrite get_session_run.
  destruct (sqlite_fault env (t_tick db)) as [e|] eqn:Hfault.
  { cbn [fst snd status_of]. split; [auto|]. split; [discriminate|].
    split; [now split | discriminate]. }
  destruct (List.find _ (t_sessions db)) as [s|] eqn:Hfind.
  2:{ pose proof (find_active_none sid db Hfind) as Hnone.
      cbn [fst snd status_of]. split; [auto|]. split; [discriminate|].
      split; [now split|]. intros _. split; [now split|].
      split; [discriminate|]. intros (uid & _ & Hactive). now apply Hnone in Hactive. }
  destruct (find_active_some sid db s Hkeyed Hfind) as (Hin & Hid & Hact & Hown).
  destruct (Z.eqb_spec (ss_user_id s) current_user) as [Hu|Hu]; cbn [negb].
  2:{ cbn [fst snd status_of]. split; [auto|]. split; [discriminate|].
      split; [now split|]. intros _. split.
      - split; [discriminate|]. intros Hnone. exfalso.
        apply (Hnone (ss_user_id s)). now apply Hown.
      - split; [|reflexivity]. intros _. exists (ss_user_id s).
        split; [assumption | now apply Hown]. }
  assert (Hmine : active_session sid current_user db) by now apply Hown.
  assert (Hnot404 : ~ forall uid, ~ active_session sid uid db)
    by (intros Hnone; now apply (Hnone current_user)).
  assert (Hnot403 : ~ exists uid, uid <> current_user /\ active_session sid uid db).
  { intros (uid & Hne & Hactive). apply Hown in Hactive. congruence. }
  rewrite delete_session_run. cbn [ticked t_sessions t_messages t_sequence t_tick].
  destruct (sqlite_fault env (1 + t_tick db)) as [e|] eqn:Hfault2.
  { cbn [fst snd status_of]. split; [auto|]. split; [discriminate|].
    split; [now split|]. intros _. split; (split; [discriminate | now intros ?]). }
  cbn [fst snd status_of t_sessions t_messages]. split; [auto|]. split.
  2:{ split; [congruence|]. intros _. split; (split; [discriminate | now intros ?]). }
  intros _. split; [assumption|]. split.
  { intros uid (s' & Hin' & Hid' & _ & Hact').
    cbn [t_sessions] in Hin'. apply in_map_iff in Hin' as (s0 & <- & Hin0).
    rewrite deactivate_id in Hid'.
    assert (s0 = s) as -> by (apply (keyed_unique _ s0 s Hkeyed Hin0 Hin); congruence).
    unfold Db.deactivate, Db.owned_by in Hact'.
    rewrite (proj2 (db_has_id_true sid s) Hid), Hu, Z.eqb_refl in Hact'.
    discriminate. }
  split; [reflexivity|]. split; [apply map_ids_deactivate|].
  destruct agent; cbn [andb].
  - unfold has_session. destruct (sessions w !! sid) eqn:Hlook.
    + cbn [sessions set_sessions]. split; [intros _; apply lookup_delete_eq|].
      split; [intros k Hk; now apply lookup_delete_ne | reflexivity].
    + split; [intros _; assumption|]. split; reflexivity.
  - split; [discriminate|]. split; reflexivity.
Qed.

Lemma delete_session_endpoint_witness :
  sessions_keyed (sample_tables, one_session_world).1 /\
  active_session "s1" 7 sample_tables /\
  (forall uid,
     ~ active_session "s1" uid
         (Api.delete_session calm_env true 7 "s1" (sample_tables, one_session_world)).1.1).
Proof.
  split; [exact sample_tables_keyed|].
  destruct (delete_session_endpoint calm_env true 7 "s1" (sample_tables, one_session_world)
              sample_tables_keyed) as (_ & H & _).
  destruct (H eq_refl) as (Hmine & Hnone & _).
  split; [exact Hmine | exact Hnone].
Defined.

Lemma chat_returns (env : Env) (message : string) (o : option string) (w : World) :
  exists w' r,
    chat env message o w = (w', Ret r) /\
    Py.truthy (cr_session_id r) = true /\
    (given o = true -> cr_session_id r = default EmptyString o).
Proof.
  destruct (entry_spec env o w) as (w1 & sid & s1 & Hentry & Ht & Hg & _).
  destruct (chat_run env message o w) as (w1' & sid' & s1' & Hentry' & _ & _ & _ & _ & Hrun).
  rewrite Hentry in Hentry'. injection Hentry' as <- <-.
  destruct (graph_invoke env message w1) as [w2 [st|e]].
  - destruct Hrun as (w' & t1 & t2 & t3 & -> & _). eexists _, _. now split.
  - destruct Hrun as (w' & t & -> & _). eexists _, _. now split.
Qed.

(** X29. [POST /chat] answers 503 and does nothing when there is no agent.
    With an agent it always answers 200, with the answer of [chat]: a
    failure of the storage is not reported.  It stores messages only under
    the session id of the answer and the caller, without looking whether a
    session of that id exists or whose it is, and never adds a session row.
    When sqlite answers it stores the message of the user, if the request
    named a session, and then the answer of the agent. *)
Theorem chat_endpoint_outcome (env : Env) (agent : bool) (current_user : Z)
    (message : string) (o : option string) (st : Tables * World) :
  let out := Api.chat_endpoint env agent current_user message o st in
  if agent
  then
    exists r rows,
      out.2 = Ok r /\
      chat env message o st.2 = (out.1.2, Ret r) /\
      Py.truthy (cr_session_id r) = true /\
      (given o = true -> cr_session_id r = default EmptyString o) /\
      map ss_id (t_sessions out.1.1) = map ss_id (t_sessions st.1) /\
      t_messages out.1.1 = t_messages st.1 ++ rows /\
      Forall (fun m => mg_session_id m = cr_session_id r /\ mg_user_id m = current_user)
        rows /\
      (fault_free env ->
         map said rows =
           (if given o then [(cr_session_id r, current_user, "user", message)] else []) ++
           [(cr_session_id r, current_user, "ai", cr_response r)])
  else status_of out.2 = 503 /\ out.1 = st.
Proof.
  destruct st as [db w]. cbv zeta. unfold Api.chat_endpoint. cbn [fst snd].
  destruct agent; cbn [negb]; [|split; reflexivity].
  destruct (chat_returns env message o w) as (w' & r & Hchat & Ht & Hg).
  assert (Hsave : forall sid type content db0,
            type = "user" \/ type = "ai" ->
            exists db1 b rows,
              Db.save_message env sid current_user type content db0 = (db1, Ret b) /\
              map ss_id (t_sessions db1) = map ss_id (t_sessions db0) /\
              t_messages db1 = t_messages db0 ++ rows /\
              Forall (fun m => mg_session_id m = sid /\ mg_user_id m = current_user) rows /\
              (fault_free env -> map said rows = [(sid, current_user, type, content)])).
  { intros sid type content db0 Htype. rewrite save_message_run.
    destruct (sqlite_fault env (t_tick db0)) as [e|] eqn:Hfault.
    - exists (ticked 1 db0), false, []. split; [reflexivity|]. split; [reflexivity|].
      split; [now rewrite app_nil_r|]. split; [apply List.Forall_nil|].
      intros Hfree. now rewrite Hfree in Hfault.
    - rewrite (proj2 (message_type_ok_spec type) Htype).
      eexists _, true, [_]. split; [reflexivity|]. cbn [t_sessions t_messages].
      split; [apply map_ids_touch|]. split; [reflexivity|].
      split; [apply List.Forall_cons; [now split | apply List.Forall_nil]|].
      intros _. reflexivity. }
  destruct (given o) eqn:Hgiven.
  - specialize (Hg eq_refl). rewrite <- Hg.
    destruct (Hsave (cr_session_id r) "user" message db (or_introl eq_refl))
      as (db1 & b1 & rows1 & -> & Hids1 & Hm1 & Hall1 & Hsaid1).
    rewrite Hchat, Ht.
    destruct (Hsave (cr_session_id r) "ai" (cr_response r) db1 (or_intror eq_refl))
      as (db2 & b2 & rows2 & -> & Hids2 & Hm2 & Hall2 & Hsaid2).
    cbn [fst snd]. exists r, (rows1 ++ rows2). split; [reflexivity|].
    split; [reflexivity|]. split; [assumption|]. split; [intros _; reflexivity|].
    split; [congruence|]. split; [rewrite Hm2, Hm1; now rewrite List.app_assoc|].
    split; [apply List.Forall_app; now split|].
    intros Hfree. rewrite map_app, (Hsaid1 Hfree), (Hsaid2 Hfree). reflexivity.
  - rewrite Hchat, Ht.
    destruct (Hsave (cr_session_id r) "ai" (cr_response r) db (or_intror eq_refl))
      as (db2 & b2 & rows2 & -> & Hids2 & Hm2 & Hall2 & Hsaid2).
    cbn [fst snd]. exists r, rows2. split; [reflexivity|].
    split; [reflexivity|]. split; [assumption|]. split; [discriminate|].
    split; [assumption|]. split; [assumption|]. split; [assumption|].
    intros Hfree. now rewrite (Hsaid2 Hfree).
Qed.

(** A call keeps what the schema promises. *)
Lemma keyed_snoc (rows : list SessionRow) (row : SessionRow) :
  List.NoDup (map ss_id rows) ->
  (forall s, In s rows -> ss_id s <> ss_id row) ->
  List.NoDup (map ss_id (rows ++ [row])).
Proof.
  intros Hnd Hnew. rewrite map_app. simpl. apply nodup_snoc; [assumption|].
  intros Hin. apply in_map_iff in Hin as (s & Hs & Hin). now apply (Hnew s).
Qed.

Lemma well_formed_ticked (n : nat) (db : Tables) : well_formed db -> well_formed (ticked n db).
Proof. intros H. exact H. Qed.

Lemma well_formed_sessions (db : Tables) (rows : list SessionRow) (n : nat) :
  well_formed db ->
  map ss_id rows = map ss_id (t_sessions db) ->
  well_formed {| t_sessions := rows; t_messages := t_messages db;
                 t_sequence := t_sequence db; t_tick := n |}.
Proof.
  intros (Hk & Hrest) Hids. split; [|exact Hrest].
  unfold sessions_keyed. cbn [t_sessions]. now rewrite Hids.
Qed.

Lemma well_formed_create_session (env : Env) (sid : string) (uid : Z) (db : Tables) :
  well_formed db -> well_formed (Db.create_session env sid uid db).1.
Proof.
  intros Hwf. unfold Db.create_session. run_db.
  cbn [t_sessions t_messages t_sequence t_tick].
  destruct (sqlite_fault env (t_tick db)); [exact Hwf|].
  cbn [fst snd t_sessions t_messages t_sequence t_tick].
  destruct (existsb (Db.has_id sid) (t_sessions db)) eqn:Hex; [exact Hwf|].
  cbn [fst snd t_sessions t_messages t_sequence t_tick Db.set_sessions].
  destruct Hwf as (Hk & Hrest). split; [|exact Hrest].
  unfold sessions_keyed. cbn [t_sessions]. apply keyed_snoc; [assumption|].
  intros s Hin. simpl in *. apply db_has_id_false.
  now apply (proj1 (existsb_false_forall _ _) Hex).
Qed.

Lemma well_formed_update_session_activity (env : Env) (sid : string) (db : Tables) :
  well_formed db -> well_formed (Db.update_session_activity env sid db).1.
Proof.
  intros Hwf. unfold Db.update_session_activity. run_db.
  cbn [t_sessions t_messages t_sequence t_tick].
  destruct (sqlite_fault env (t_tick db)); [exact Hwf|].
  cbn [fst snd t_sessions t_messages t_sequence t_tick Db.set_sessions].
  apply (well_formed_sessions db); [assumption | apply map_ids_touch].
Qed.

Lemma well_formed_delete_session (env : Env) (sid : string) (uid : Z) (db : Tables) :
  well_formed db -> well_formed (Db.delete_session env sid uid db).1.
Proof.
  intros Hwf. rewrite delete_session_run.
  destruct (sqlite_fault env (t_tick db)); [exact Hwf|]. cbn [fst].
  apply (well_formed_sessions db); [assumption | apply map_ids_deactivate].
Qed.

Lemma well_formed_save_message (env : Env) (sid : string) (uid : Z) (type content : string)
    (db : Tables) :
  well_formed db -> well_formed (Db.save_message env sid uid type content db).1.
Proof.
  intros Hwf. rewrite save_message_run.
  destruct (sqlite_fault env (t_tick db)); [exact Hwf|].
  destruct (Db.message_type_ok type) eqn:Hok; [|exact Hwf]. cbn [fst].
  destruct Hwf as (Hk & Hnd & Hle & Hty). unfold well_formed.
  cbn [t_sessions t_messages t_sequence].
  split; [unfold sessions_keyed; cbn [t_sessions]; now rewrite map_ids_touch|].
  split; [|split].
  - rewrite map_app. simpl. apply nodup_snoc; [assumption|].
    intros Hin. apply in_map_iff in Hin as (m & Hm & Hin).
    rewrite List.Forall_forall in Hle. specialize (Hle m Hin). lia.
  - apply List.Forall_app. split.
    + eapply List.Forall_impl; [|exact Hle]. intros m Hm. simpl in Hm. lia.
    + apply List.Forall_cons; [simpl; lia | apply List.Forall_nil].
  - apply List.Forall_app. split; [assumption|].
    apply List.Forall_cons; [now apply message_type_ok_spec | apply List.Forall_nil].
Qed.

Lemma nodup_map_filter_sub {A B : Type} (f : A -> B) (p : A -> bool) (l : list A) :
  List.NoDup (map f l) -> List.NoDup (map f (List.filter p l)).
Proof.
  induction l as [|x l IH]; simpl; intros Hnd; [assumption|].
  inversion Hnd as [|? ? Hx Hnd']; subst.
  destruct (p x); simpl; [|now apply IH].
  apply List.NoDup_cons; [|now apply IH].
  intros Hin. apply Hx. apply in_map_iff in Hin as (y & Hy & Hin).
  apply filter_In in Hin as [Hin _]. apply in_map_iff. now exists y.
Qed.

Lemma forall_filter {A : Type} (P : A -> Prop) (p : A -> bool) (l : list A) :
  Forall P l -> Forall P (List.filter p l).
Proof.
  rewrite !List.Forall_forall. intros H x Hx. apply filter_In in Hx as [Hx _]. now apply H.
Qed.

Lemma well_formed_delete_session_messages (env : Env) (sid : string) (uid : Z) (db : Tables) :
  well_formed db -> well_formed (Db.delete_session_messages env sid uid db).1.
Proof.
  intros Hwf. unfold Db.delete_session_messages. run_db.
  cbn [t_sessions t_messages t_sequence t_tick].
  destruct (sqlite_fault env (t_tick db)); [exact Hwf|].
  cbn [fst snd t_sessions t_messages t_sequence t_tick].
  destruct (List.find _ (t_sessions db)); [|exact Hwf].
  cbn [fst snd t_sessions t_messages t_sequence t_tick Db.set_messages].
  destruct Hwf as (Hk & Hnd & Hle & Hty). unfold well_formed.
  cbn [t_sessions t_messages t_sequence].
  split; [exact Hk|]. split; [now apply nodup_map_filter_sub|].
  split; now apply forall_filter.
Qed.

Lemma well_formed_post_message (env : Env) (user : Z) (sid type content : string)
    (db : Tables) :
  well_formed db -> well_formed (Api.save_message env user sid type content db).1.
Proof.
  intros Hwf. unfold Api.save_message. rewrite get_session_run.
  destruct (sqlite_fault env (t_tick db)); [exact Hwf|].
  destruct (match List.find _ (t_sessions db) with
            | Some s => negb (ss_user_id s =? user)%Z
            | None => true
            end); [exact Hwf|].
  pose proof (well_formed_save_message env sid user type content (ticked 1 db) Hwf) as H.
  destruct (Db.save_message env sid user type content (ticked 1 db)) as [db2 [[|]|e]];
    exact H.
Qed.

(** X30. Whatever calls are made on the chat tables, starting from empty
    tables and whether sqlite fails or not, the ids of the sessions stay
    unique, the ids of the messages stay unique and were all handed out by
    the counter, so that the id of a deleted message is not used again, and
    every stored message has type [user] or [ai]. *)
Theorem chat_tables_stay_well_formed (env : Env) (calls : list db_call) :
  well_formed (fold_left (run_call env) calls empty_tables).
Proof.
  assert (Hstep : forall c db, well_formed db -> well_formed (run_call env db c)).
  { intros [sid uid|sid|sid uid|sid uid type content|sid uid|user sid type content] db Hwf;
      cbn [run_call].
    - now apply well_formed_create_session.
    - now apply well_formed_update_session_activity.
    - now apply well_formed_delete_session.
    - now apply well_formed_save_message.
    - now apply well_formed_delete_session_messages.
    - now apply well_formed_post_message. }
  assert (Hall : forall db, well_formed db -> well_formed (fold_left (run_call env) calls db)).
  { induction calls as [|c calls IH]; intros db Hwf; simpl; [assumption|].
    apply IH. now apply Hstep. }
  apply Hall. unfold well_formed, sessions_keyed. simpl.
  split; [apply List.NoDup_nil|]. split; [apply List.NoDup_nil|].
  split; apply List.Forall_nil.
Qed.
